(** * freeCodeCampOS: the test run orchestrator

    A shallow embedding of the test runner of the tooling server
    ([runTests], [workerMessage], [checkTestsCallback], [handleWorkerExit],
    [createWorker], [removeWorkerFromPool]) and the properties of its
    hook ordering, cancellation handling, progression decision and worker
    pool.

    Modelling conventions.
    - The JavaScript code mutates two shared objects: the [testsState] array
      captured by the callbacks of one run, and the process-wide
      [WORKER_POOL].  Both live in an explicit [World] that every operation
      threads through; worker objects are compared by reference
      ([indexOf]), so each worker carries the handle it was allocated at.
    - Every call to a collaborator (logger, client sockets, plugin events,
      state store, lesson runner, worker threads, execution backends) is
      recorded, in program order, in the [trace] of the world.
    - Exceptions are explicit: an operation completes normally or throws a
      [JsError], and keeps the mutations done before the throw.
    - The code evaluated by a hook is arbitrary: whether it returns or
      throws is given by the [Collaborators] record, as is the translation
      function [t] and the clock [Date.now].
    - The other collaborators are taken at their interface: a call is
      recorded and returns.
    - Each callback is run to completion: the interleaving of other
      callbacks at an [await] is not modelled.  The properties are about
      one callback, or about callbacks that follow one another (a
      worker's message, then its exit); nothing is stated about
      callbacks that overlap.
    - Lesson numbers are JavaScript numbers holding integers: [Z]. *)

From stdpp Require Import base list strings gmap.
From Stdlib Require Import ZArith Lia.

Open Scope string_scope.
Open Scope list_scope.

(** ** Data model *)

(** A lifecycle hook, [{ runner, code }]; an absent hook is [null]. *)
Record Hook := { runner : string; code : string }.

(** A test of a lesson, [{ text, code, runner }]. *)
Record Test := { text : string; t_code : string; t_runner : string }.

(** An element of the [testers] array: a hook or a test. *)
Inductive Tester :=
| T_hook (h : Hook)
| T_test (t : Test).

Definition tester_runner (x : Tester) : string :=
  match x with
  | T_hook h => runner h
  | T_test t => t_runner t
  end.

Record Lesson := {
  beforeAll : option Hook;
  beforeEach : option Hook;
  afterAll : option Hook;
  afterEach : option Hook;
  hints : list string;
  tests : list Test
}.

Record Project := {
  dashedName : string;
  currentLesson : Z;
  blockingTests : bool;
  isIntegrated : bool;
  numberOfLessons : Z
}.

(** One entry of [testsState]. *)
Record TestState := {
  passed : bool;
  testText : string;
  testId : nat;
  isLoading : bool
}.

Definition with_isLoading (b : bool) (s : TestState) : TestState :=
  {| passed := passed s; testText := testText s; testId := testId s;
     isLoading := b |}.

Definition with_passed (b : bool) (s : TestState) : TestState :=
  {| passed := b; testText := testText s; testId := testId s;
     isLoading := isLoading s |}.

(** The [error] of a worker message, [{ type, message }]. *)
Record WorkerError := {
  e_type : option string;
  e_message : option string
}.

(** A worker message, [{ passed, testId, error }]. *)
Record Message := {
  m_passed : bool;
  m_testId : nat;
  m_error : option WorkerError
}.

(** Worker names: ['blocking-worker'] and [`worker-${i}`]. *)
Inductive WorkerName :=
| blocking_worker
| worker_ (i : nat).

(** A worker thread object.  [handle] is its identity (the reference that
    [indexOf] compares); [workerData] is [{ beforeEach, project }]. *)
Record Worker := {
  handle : nat;
  w_name : WorkerName;
  w_runner : string;
  w_beforeEach : option Hook;
  w_project : Project
}.

Inductive JsError :=
| Error (msg : string)
| TypeError (msg : string).

(** The payload of [updateConsole]. *)
Inductive ConsoleEntry :=
| console_text (s : string)
| console_error (s : TestState) (error : WorkerError)
| console_cancelled (s : TestState) (error : string).

(** Calls to the collaborators, as they appear in the source. *)
Inductive Event :=
| logover_debug (s : string)
| logover_error (s : string)
| logover_error_val (e : JsError)
| logover_error_test (testId : nat) (error : WorkerError)
| eval_ (code : string)
| runPython (code : string)
| onTestsStart (p : Project) (ts : list TestState)
| onTestsEnd (p : Project) (ts : list TestState)
| onLessonPassed (p : Project)
| onLessonFailed (p : Project)
| onProjectFinished (p : Project)
| updateTests (ts : list TestState)
| updateTest (s : TestState)
| updateConsole (c : ConsoleEntry)
| updateHints (hs : list string)
| resetBottomPanel
| handleProjectFinish
| setProjectConfig_completedDate (name : string) (date : Z)
| setProjectConfig_currentLesson (name : string) (n : Z)
| runLesson (name : string)
| new_Worker (w : Worker)
| postMessage (w : Worker) (testCode : string) (testId : nat).

Record World := {
  testsState : list TestState;
  WORKER_POOL : list Worker;
  exited : list nat;
  nextHandle : nat;
  trace : list Event
}.

Definition set_testsState (ts : list TestState) (w : World) : World :=
  {| testsState := ts; WORKER_POOL := WORKER_POOL w; exited := exited w;
     nextHandle := nextHandle w; trace := trace w |}.

Definition set_WORKER_POOL (p : list Worker) (w : World) : World :=
  {| testsState := testsState w; WORKER_POOL := p; exited := exited w;
     nextHandle := nextHandle w; trace := trace w |}.

Definition set_exited (x : list nat) (w : World) : World :=
  {| testsState := testsState w; WORKER_POOL := WORKER_POOL w; exited := x;
     nextHandle := nextHandle w; trace := trace w |}.

Definition set_nextHandle (n : nat) (w : World) : World :=
  {| testsState := testsState w; WORKER_POOL := WORKER_POOL w;
     exited := exited w; nextHandle := n; trace := trace w |}.

Definition set_trace (t : list Event) (w : World) : World :=
  {| testsState := testsState w; WORKER_POOL := WORKER_POOL w;
     exited := exited w; nextHandle := nextHandle w; trace := t |}.

(** What the environment decides: the outcome of the code a hook evaluates
    ([None]: it returns, [Some e]: it throws [e]) after a given history,
    the translation of a message ([None] is [undefined]) and the clock. *)
Record Collaborators := {
  hook_outcome : list Event -> Hook -> option JsError;
  t : string -> option string;
  Date_now : list Event -> Z
}.

(** ** Computations: state, trace and exceptions *)

Inductive Completion (A : Type) :=
| Normal (a : A)
| Throw (e : JsError).
Arguments Normal {A} a.
Arguments Throw {A} e.

Definition Js (A : Type) : Type := World -> Completion A * World.

Definition ret {A} (a : A) : Js A := fun w => (Normal a, w).

Definition bind {A B} (m : Js A) (k : A -> Js B) : Js B :=
  fun w =>
    match m w with
    | (Normal a, w') => k a w'
    | (Throw e, w') => (Throw e, w')
    end.

Definition throw {A} (e : JsError) : Js A := fun w => (Throw e, w).

Definition try_catch {A} (body : Js A) (handler : JsError -> Js A) : Js A :=
  fun w =>
    match body w with
    | (Normal a, w') => (Normal a, w')
    | (Throw e, w') => handler e w'
    end.

Definition emit (e : Event) : Js unit :=
  fun w => (Normal tt, set_trace (trace w ++ [e]) w).

Definition get : Js World := fun w => (Normal w, w).

Declare Scope js_scope.
Delimit Scope js_scope with js.
Notation "x <- m ;; k" := (bind m (fun x => k))
  (at level 100, m at next level, k at level 200, right associativity)
  : js_scope.
Notation "m ;; k" := (bind m (fun _ => k))
  (at level 100, k at level 200, right associativity) : js_scope.
Open Scope js_scope.

Definition modify (f : World -> World) : Js unit :=
  fun w => (Normal tt, f w).

(** ** JavaScript helpers *)

(** Truthiness of a string: only the empty string is falsy. *)
Definition truthy (s : string) : bool := negb (bool_decide (s = "")).

(** [a || b] where [a] is a string or [undefined] and [b] a string. *)
Definition js_or (a : option string) (b : string) : string :=
  match a with
  | Some s => if truthy s then s else b
  | None => b
  end.

(** [Array.prototype.indexOf] on worker references. *)
Fixpoint indexOf (l : list Worker) (x : Worker) : option nat :=
  match l with
  | [] => None
  | y :: l' =>
      if bool_decide (handle y = handle x) then Some 0
      else option_map S (indexOf l' x)
  end.

(** [Array.prototype.splice(start, deleteCount)]: the array that is left. *)
Definition splice {A} (l : list A) (start deleteCount : nat) : list A :=
  take start l ++ drop (start + deleteCount) l.

(** [testsState[i].isLoading = b]; a [TypeError] when [testsState[i]] is
    [undefined]. *)
Definition set_isLoading (i : nat) (b : bool) : Js unit :=
  fun w =>
    match testsState w !! i with
    | Some s =>
        (Normal tt, set_testsState (<[i := with_isLoading b s]> (testsState w)) w)
    | None =>
        (Throw (TypeError
           "Cannot set properties of undefined (setting 'isLoading')"), w)
    end.

(** [testsState[i].passed = b]. *)
Definition set_passed (i : nat) (b : bool) : Js unit :=
  fun w =>
    match testsState w !! i with
    | Some s =>
        (Normal tt, set_testsState (<[i := with_passed b s]> (testsState w)) w)
    | None =>
        (Throw (TypeError
           "Cannot set properties of undefined (setting 'passed')"), w)
    end.

(** Reading [testsState[i]] to spread or publish it. *)
Definition read_test (i : nat) : Js TestState :=
  fun w =>
    match testsState w !! i with
    | Some s => (Normal s, w)
    | None =>
        (Throw (TypeError "Cannot read properties of undefined"), w)
    end.

(** [for (let k = from; k < from + n; k++) body(k)] *)
Fixpoint for_range (n from : nat) (body : nat -> Js unit) : Js unit :=
  match n with
  | 0 => ret tt
  | S n' => body from ;; for_range n' (S from) body
  end.

(** [testsState.forEach(f)]: the length is read once, each element when
    its turn comes. *)
Definition testsState_forEach (f : nat -> TestState -> Js unit) : Js unit :=
  w <- get ;;
  for_range (length (testsState w)) 0
    (fun k =>
       w' <- get ;;
       match testsState w' !! k with
       | Some test => f k test
       | None => ret tt
       end).

(** ** The test runner *)

Section Orchestrator.

Context (env : Collaborators).

(** [await eval(`(async () => {${hook.code}})()`)] and
    [await runPython(hook.code)]: the call is recorded, the environment
    decides whether it returns or throws. *)
Definition run_backend (call : Event) (h : Hook) : Js unit :=
  w <- get ;;
  emit call ;;
  match hook_outcome env (trace w) h with
  | None => ret tt
  | Some e => throw e
  end.

(** [switch (hook.runner) { case 'Node': ... case 'Python': ... default: throw }] *)
Definition switch_runner (h : Hook) : Js unit :=
  if bool_decide (runner h = "Node") then run_backend (eval_ (code h)) h
  else if bool_decide (runner h = "Python") then
    run_backend (runPython (code h)) h
  else throw (Error ("Unsupported runner: " +:+ runner h)).

(** [function createWorker(name, runner, workerData)] *)
Definition createWorker (name : WorkerName) (runner : string)
    (beforeEach : option Hook) (project : Project) : Js Worker :=
  w <- get ;;
  let worker :=
    {| handle := nextHandle w; w_name := name; w_runner := runner;
       w_beforeEach := beforeEach; w_project := project |} in
  modify (set_nextHandle (S (nextHandle w))) ;;
  emit (new_Worker worker) ;;
  ret worker.

(** [WORKER_POOL.push(worker)] *)
Definition WORKER_POOL_push (worker : Worker) : Js unit :=
  modify (fun w => set_WORKER_POOL (WORKER_POOL w ++ [worker]) w).

(** [function removeWorkerFromPool(worker)] *)
Definition removeWorkerFromPool (worker : Worker) : Js unit :=
  w <- get ;;
  match indexOf (WORKER_POOL w) worker with
  | Some index => modify (set_WORKER_POOL (splice (WORKER_POOL w) index 1))
  | None => ret tt
  end.

(** [async function checkTestsCallback({ ws, project, hints, lessonNumber,
    testsState, afterAll })] *)
Definition checkTestsCallback (project : Project) (hints : list string)
    (lessonNumber : Z) (afterAll : option Hook) : Js unit :=
  w <- get ;;
  (if forallb passed (testsState w) then
     emit (onLessonPassed project) ;;
     emit resetBottomPanel ;;
     if isIntegrated project
        || (lessonNumber =? numberOfLessons project - 1)%Z
     then
       emit (onProjectFinished project) ;;
       w1 <- get ;;
       emit (setProjectConfig_completedDate (dashedName project)
               (Date_now env (trace w1))) ;;
       emit handleProjectFinish
     else
       emit (setProjectConfig_currentLesson (dashedName project)
               (lessonNumber + 1)) ;;
       emit (runLesson (dashedName project))
   else
     emit (onLessonFailed project) ;;
     emit (updateHints hints)) ;;
  w2 <- get ;;
  if forallb (fun test => negb (isLoading test)) (testsState w2) then
    match afterAll with
    | Some h =>
        try_catch
          (emit (logover_debug "Starting: --after-all-- hook") ;;
           switch_runner h ;;
           emit (logover_debug "Finished: --after-all-- hook"))
          (fun e =>
             emit (logover_error "--after-all-- hook failed to run:") ;;
             emit (logover_error_val e))
    | None => ret tt
    end ;;
    w3 <- get ;;
    emit (onTestsEnd project (testsState w3)) ;;
    w4 <- get ;;
    modify (set_WORKER_POOL
              (splice (WORKER_POOL w4) 0 (length (WORKER_POOL w4))))
  else ret tt.

(** [async function handleWorkerExit({ ws, exitCode, testsState, i,
    afterEach, project, hints, lessonNumber, afterAll })]; [i] is
    [undefined] for the blocking worker. *)
Definition handleWorkerExit (exitCode : Z) (i : option nat)
    (afterEach : option Hook) (project : Project) (hints : list string)
    (lessonNumber : Z) (afterAll : option Hook) : Js unit :=
  (if (exitCode =? 1)%Z then
     match i with
     | Some i =>
         set_isLoading i false ;;
         set_passed i false ;;
         s <- read_test i ;;
         emit (updateConsole (console_cancelled s "Tests cancelled."))
     | None =>
         testsState_forEach (fun k test =>
           if isLoading test then
             set_isLoading k false ;;
             set_passed k false ;;
             s <- read_test k ;;
             emit (updateConsole (console_cancelled s "Tests cancelled."))
           else ret tt)
     end ;;
     w <- get ;;
     emit (updateTests (testsState w))
   else ret tt) ;;
  try_catch
    match afterEach with
    | Some h =>
        emit (logover_debug "Starting: --after-each-- hook") ;;
        switch_runner h ;;
        emit (logover_debug "Finished: --after-each-- hook")
    | None => ret tt
    end
    (fun e =>
       emit (logover_error "--after-each-- hook failed to run:") ;;
       emit (logover_error_val e)) ;;
  checkTestsCallback project hints lessonNumber afterAll.

(** The ['exit'] listener registered on a worker by [runTests]. *)
Definition worker_on_exit (project : Project) (lesson : Lesson)
    (worker : Worker) (i : option nat) (exitCode : Z) : Js unit :=
  modify (fun w => set_exited (handle worker :: exited w) w) ;;
  removeWorkerFromPool worker ;;
  handleWorkerExit exitCode i (afterEach lesson) project (hints lesson)
    (currentLesson project) (afterAll lesson).

(** [async function workerMessage(message)], the ['message'] listener. *)
Definition workerMessage (project : Project) (lesson : Lesson)
    (message : Message) : Js unit :=
  let passed := m_passed message in
  let testId := m_testId message in
  set_isLoading testId false ;;
  set_passed testId passed ;;
  match m_error message with
  | Some error =>
      (if bool_decide (e_type error <> Some "AssertionError") then
         emit (logover_error_test testId error)
       else ret tt) ;;
      let error :=
        match e_message error with
        | Some message =>
            if truthy message then
              let assertionTranslation := t env message in
              {| e_type := e_type error;
                 e_message := Some (js_or assertionTranslation message) |}
            else error
        | None => error
        end in
      s <- read_test testId ;;
      emit (updateConsole (console_error s error))
  | None => ret tt
  end ;;
  s <- read_test testId ;;
  emit (updateTest s) ;;
  checkTestsCallback project (hints lesson) (currentLesson project)
    (afterAll lesson).

(** [const testers = [beforeAll, beforeEach, afterAll, afterEach, ...tests]] *)
Definition testers (lesson : Lesson) : list (option Tester) :=
  [T_hook <$> beforeAll lesson; T_hook <$> beforeEach lesson;
   T_hook <$> afterAll lesson; T_hook <$> afterEach lesson]
  ++ map (fun t => Some (T_test t)) (tests lesson).

(** [testers.filter(t => t !== null).at(0)]; [None] is [undefined]. *)
Definition first_non_null (testers : list (option Tester))
    : option (option Tester) :=
  head (List.filter (fun t => bool_decide (t <> None)) testers).

(** [testers.filter(t => t !== null).at(0).runner] *)
Definition first_runner (testers : list (option Tester)) : Js string :=
  match first_non_null testers with
  | Some (Some x) => ret (tester_runner x)
  | Some None =>
      throw (TypeError "Cannot read properties of null (reading 'runner')")
  | None =>
      throw (TypeError
               "Cannot read properties of undefined (reading 'runner')")
  end.

(** The error thrown by the runner-consistency loop. *)
Definition RunnerMismatch (runner firstRunner : string) : JsError :=
  Error ("All tests and hooks must use the same runner. Found: "
         +:+ runner +:+ ", expected: " +:+ firstRunner).

(** [for (const tester of testers) { ... }] *)
Fixpoint check_runners (testers : list (option Tester))
    (firstRunner : string) : Js unit :=
  match testers with
  | [] => ret tt
  | None :: rest => check_runners rest firstRunner
  | Some tester :: rest =>
      let runner := tester_runner tester in
      if bool_decide (runner <> firstRunner) then
        throw (RunnerMismatch runner firstRunner)
      else check_runners rest firstRunner
  end.

(** The entry [tests.map] builds for test [i]. *)
Definition initial_state (project : Project) (i : nat) (t : Test)
    : TestState :=
  {| passed := false; testText := text t; testId := i;
     isLoading := negb (blockingTests project) |}.

(** The loop of the blocking branch, from index [i] on. *)
Fixpoint post_blocking (worker : Worker) (i : nat) (tests : list Test)
    : Js unit :=
  match tests with
  | [] => ret tt
  | test :: rest =>
      set_isLoading i true ;;
      s <- read_test i ;;
      emit (updateTest s) ;;
      emit (postMessage worker (t_code test) i) ;;
      post_blocking worker (S i) rest
  end.

(** The loop of the parallel branch, from index [i] on. *)
Fixpoint spawn_parallel (beforeEach : option Hook) (project : Project)
    (i : nat) (tests : list Test) : Js unit :=
  match tests with
  | [] => ret tt
  | test :: rest =>
      set_isLoading i true ;;
      s <- read_test i ;;
      emit (updateTest s) ;;
      worker <- createWorker (worker_ i) (t_runner test) beforeEach project ;;
      WORKER_POOL_push worker ;;
      emit (postMessage worker (t_code test) i) ;;
      spawn_parallel beforeEach project (S i) rest
  end.

(** [export async function runTests(ws, projectDashedName)], after
    [getProjectConfig] has returned [project] and [getLesson] has returned
    [lesson]. *)
Definition runTests (project : Project) (lesson : Lesson) : Js unit :=
  modify (set_testsState []) ;;
  try_catch
    (firstRunner <- first_runner (testers lesson) ;;
     check_runners (testers lesson) firstRunner ;;
     match beforeAll lesson with
     | Some h =>
         try_catch
           (emit (logover_debug "Starting: --before-all-- hook") ;;
            switch_runner h ;;
            emit (logover_debug "Finished: --before-all-- hook"))
           (fun e =>
              emit (logover_error "--before-all-- hook failed to run:") ;;
              emit (logover_error_val e))
     | None => ret tt
     end ;;
     modify (set_testsState (imap (initial_state project) (tests lesson))) ;;
     w <- get ;;
     emit (onTestsStart project (testsState w)) ;;
     emit (updateTests (testsState w)) ;;
     emit (updateConsole (console_text "")) ;;
     if blockingTests project then
       worker <- createWorker blocking_worker firstRunner
                   (beforeEach lesson) project ;;
       WORKER_POOL_push worker ;;
       post_blocking worker 0 (tests lesson)
     else
       spawn_parallel (beforeEach lesson) project 0 (tests lesson))
    (fun e =>
       emit (logover_error "Test Error: ") ;;
       emit (logover_error_val e)).

End Orchestrator.

(** ** Readings of the trace *)

(** The call a hook's [switch] makes to an execution backend; [None] for
    a runner that is neither ['Node'] nor ['Python']. *)
Definition backend_call (h : Hook) : option Event :=
  if bool_decide (runner h = "Node") then Some (eval_ (code h))
  else if bool_decide (runner h = "Python") then Some (runPython (code h))
  else None.

(** What a guarded hook invocation of the given phase adds to the trace
    [tr]: the start line, the backend call if the runner has one, and
    either the finish line or the two lines of the [catch] block. *)
Definition guarded_hook_events (env : Collaborators) (phase : string)
    (h : Hook) (tr : list Event) : list Event :=
  let start := logover_debug ("Starting: --" +:+ phase +:+ "-- hook") in
  let failed e :=
    [logover_error ("--" +:+ phase +:+ "-- hook failed to run:");
     logover_error_val e] in
  start ::
  match backend_call h with
  | Some call =>
      call ::
      match hook_outcome env (tr ++ [start]) h with
      | None => [logover_debug ("Finished: --" +:+ phase +:+ "-- hook")]
      | Some e => failed e
      end
  | None => failed (Error ("Unsupported runner: " +:+ runner h))
  end.

Definition is_backend_call (e : Event) : bool :=
  match e with
  | eval_ _ | runPython _ => true
  | _ => false
  end.

Definition is_new_Worker (e : Event) : bool :=
  match e with
  | new_Worker _ => true
  | _ => false
  end.

Definition is_onTestsEnd (e : Event) : bool :=
  match e with
  | onTestsEnd _ _ => true
  | _ => false
  end.

Definition is_afterAll_start (e : Event) : bool :=
  match e with
  | logover_debug s => bool_decide (s = "Starting: --after-all-- hook")
  | _ => false
  end.

(** The events that carry the progression decision of the aggregation
    check (the completion timestamp is left out: it carries the clock). *)
Definition is_progression (e : Event) : bool :=
  match e with
  | onLessonPassed _ | onLessonFailed _ | onProjectFinished _
  | resetBottomPanel | handleProjectFinish | updateHints _
  | setProjectConfig_currentLesson _ _ | runLesson _ => true
  | _ => false
  end.

(** A test is settled when it is no longer loading. *)
Definition settled (ts : list TestState) : bool :=
  forallb (fun test => negb (isLoading test)) ts.

(** What the first half of the aggregation check adds to the trace [tr]
    for the states [ts]. *)
Definition progression_events (env : Collaborators) (project : Project)
    (hints : list string) (lessonNumber : Z) (ts : list TestState)
    (tr : list Event) : list Event :=
  if forallb passed ts then
    [onLessonPassed project; resetBottomPanel] ++
    if isIntegrated project
       || (lessonNumber =? numberOfLessons project - 1)%Z
    then
      [onProjectFinished project;
       setProjectConfig_completedDate (dashedName project)
         (Date_now env
            (tr ++ [onLessonPassed project; resetBottomPanel;
                    onProjectFinished project]));
       handleProjectFinish]
    else
      [setProjectConfig_currentLesson (dashedName project)
         (lessonNumber + 1);
       runLesson (dashedName project)]
  else [onLessonFailed project; updateHints hints].

(** What its second half, the teardown block, adds to the trace [tr]. *)
Definition teardown_events (env : Collaborators) (project : Project)
    (afterAll : option Hook) (ts : list TestState) (tr : list Event)
    : list Event :=
  if settled ts then
    match afterAll with
    | Some h => guarded_hook_events env "after-all" h tr
    | None => []
    end ++ [onTestsEnd project ts]
  else [].

(** The events of a guarded hook invocation: log lines and backend
    calls. *)
Definition is_hook_event (e : Event) : bool :=
  match e with
  | logover_debug _ | logover_error _ | logover_error_val _
  | eval_ _ | runPython _ => true
  | _ => false
  end.

(** The state the exit handler gives a cancelled test. *)
Definition cancelled (s : TestState) : TestState :=
  {| passed := false; testText := testText s; testId := testId s;
     isLoading := false |}.

(** The console entry published for a cancelled test. *)
Definition cancel_notice (s : TestState) : Event :=
  updateConsole (console_cancelled (cancelled s) "Tests cancelled.").

(** [testsState] after the cancellation branch of the exit handler: the
    test of index [i] when the worker owns one test, every test that is
    still loading when [i] is [undefined]. *)
Definition cancel_states (i : option nat) (ts : list TestState)
    : list TestState :=
  match i with
  | Some i =>
      match ts !! i with
      | Some s => <[i := cancelled s]> ts
      | None => ts
      end
  | None => map (fun s => if isLoading s then cancelled s else s) ts
  end.

(** What that branch publishes. *)
Definition cancel_events (i : option nat) (ts : list TestState)
    : list Event :=
  match i with
  | Some i =>
      match ts !! i with
      | Some s => [cancel_notice s]
      | None => []
      end
  | None =>
      flat_map (fun s => if isLoading s then [cancel_notice s] else []) ts
  end ++ [updateTests (cancel_states i ts)].

(** Messages to the client. *)
Definition is_client_update (e : Event) : bool :=
  match e with
  | updateTests _ | updateTest _ | updateConsole _ | updateHints _ => true
  | _ => false
  end.

(** The entries [tests.map] builds for the tests from index [i] on. *)
Fixpoint initial_states (project : Project) (i : nat) (tests : list Test)
    : list TestState :=
  match tests with
  | [] => []
  | test :: rest =>
      initial_state project i test :: initial_states project (S i) rest
  end.

(** The same entries once the dispatch loop has marked them as loading. *)
Fixpoint loaded_states (project : Project) (i : nat) (tests : list Test)
    : list TestState :=
  match tests with
  | [] => []
  | test :: rest =>
      with_isLoading true (initial_state project i test)
      :: loaded_states project (S i) rest
  end.

(** The worker the parallel loop creates for the test of index [i] when
    the next free handle is [nh]. *)
Definition parallel_worker (beforeEach : option Hook) (project : Project)
    (nh i : nat) (test : Test) : Worker :=
  {| handle := nh; w_name := worker_ i; w_runner := t_runner test;
     w_beforeEach := beforeEach; w_project := project |}.

Fixpoint parallel_workers (beforeEach : option Hook) (project : Project)
    (nh i : nat) (tests : list Test) : list Worker :=
  match tests with
  | [] => []
  | test :: rest =>
      parallel_worker beforeEach project nh i test
      :: parallel_workers beforeEach project (S nh) (S i) rest
  end.

(** What the parallel loop adds to the trace. *)
Fixpoint parallel_events (beforeEach : option Hook) (project : Project)
    (nh i : nat) (tests : list Test) : list Event :=
  match tests with
  | [] => []
  | test :: rest =>
      let worker := parallel_worker beforeEach project nh i test in
      updateTest (with_isLoading true (initial_state project i test))
      :: new_Worker worker
      :: postMessage worker (t_code test) i
      :: parallel_events beforeEach project (S nh) (S i) rest
  end.

(** What the blocking loop adds to the trace. *)
Fixpoint blocking_events (project : Project) (worker : Worker) (i : nat)
    (tests : list Test) : list Event :=
  match tests with
  | [] => []
  | test :: rest =>
      updateTest (with_isLoading true (initial_state project i test))
      :: postMessage worker (t_code test) i
      :: blocking_events project worker (S i) rest
  end.

(** The worker of the blocking branch. *)
Definition the_blocking_worker (beforeEach : option Hook)
    (project : Project) (firstRunner : string) (nh : nat) : Worker :=
  {| handle := nh; w_name := blocking_worker; w_runner := firstRunner;
     w_beforeEach := beforeEach; w_project := project |}.

(** The workers [runTests] creates, and what its dispatch adds to the
    trace, when the next free handle is [nh]. *)
Definition dispatch_workers (beforeEach : option Hook) (project : Project)
    (firstRunner : string) (nh : nat) (tests : list Test) : list Worker :=
  if blockingTests project then
    [the_blocking_worker beforeEach project firstRunner nh]
  else parallel_workers beforeEach project nh 0 tests.

Definition dispatch_events (beforeEach : option Hook) (project : Project)
    (firstRunner : string) (nh : nat) (tests : list Test) : list Event :=
  if blockingTests project then
    new_Worker (the_blocking_worker beforeEach project firstRunner nh)
    :: blocking_events project
         (the_blocking_worker beforeEach project firstRunner nh) 0 tests
  else parallel_events beforeEach project nh 0 tests.

(** ** Concrete runs *)

(** An environment in which hooks return, nothing is translated and the
    clock stands still. *)
Definition quiet_env : Collaborators :=
  {| hook_outcome := fun _ _ => None;
     t := fun _ => None;
     Date_now := fun _ => 1700000000000%Z |}.

Definition cleanup_hook : Hook := {| runner := "Node"; code := "cleanup()" |}.

Definition node_test : Test :=
  {| text := "It passes"; t_code := "assert(true)"; t_runner := "Node" |}.

(** A three-lesson project run in parallel mode, at its first lesson. *)
Definition parallel_project : Project :=
  {| dashedName := "learn-x"; currentLesson := 0; blockingTests := false;
     isIntegrated := false; numberOfLessons := 3 |}.

(** A lesson with one test and an [afterAll] hook. *)
Definition one_test_lesson : Lesson :=
  {| beforeAll := None; beforeEach := None; afterAll := Some cleanup_hook;
     afterEach := None; hints := ["Try again"]; tests := [node_test] |}.

Definition empty_world : World :=
  {| testsState := []; WORKER_POOL := []; exited := []; nextHandle := 0;
     trace := [] |}.

(** The worker [runTests] creates for test 0 when started in
    [empty_world]. *)
Definition worker_0 : Worker :=
  {| handle := 0; w_name := worker_ 0; w_runner := "Node";
     w_beforeEach := None; w_project := parallel_project |}.

(** One natural run: the tests are started, the worker reports a failed
    test, then the worker exits with code 0. *)
Definition after_start : World :=
  snd (runTests quiet_env parallel_project one_test_lesson empty_world).

Definition after_message : World :=
  snd (workerMessage quiet_env parallel_project one_test_lesson
         {| m_passed := false; m_testId := 0; m_error := None |}
         after_start).

Definition after_exit : World :=
  snd (worker_on_exit quiet_env parallel_project one_test_lesson worker_0
         (Some 0) 0 after_message).

(** A world in which the one test has passed and settled. *)
Definition passed_world : World :=
  {| testsState :=
       [{| passed := true; testText := "It passes"; testId := 0;
           isLoading := false |}];
     WORKER_POOL := []; exited := []; nextHandle := 1; trace := [] |}.

(** A second run sharing the process: its worker is in the pool when the
    run of [one_test_lesson] starts. *)
Definition other_project : Project :=
  {| dashedName := "learn-y"; currentLesson := 4; blockingTests := false;
     isIntegrated := false; numberOfLessons := 9 |}.

Definition foreign_worker : Worker :=
  {| handle := 0; w_name := worker_ 0; w_runner := "Node";
     w_beforeEach := None; w_project := other_project |}.

Definition busy_world : World :=
  {| testsState := []; WORKER_POOL := [foreign_worker]; exited := [];
     nextHandle := 1; trace := [] |}.

(** The worker [runTests] creates for test 0 when started in
    [busy_world]. *)
Definition worker_1 : Worker :=
  {| handle := 1; w_name := worker_ 0; w_runner := "Node";
     w_beforeEach := None; w_project := parallel_project |}.

Definition busy_after_start : World :=
  snd (runTests quiet_env parallel_project one_test_lesson busy_world).

Definition busy_after_message : World :=
  snd (workerMessage quiet_env parallel_project one_test_lesson
         {| m_passed := false; m_testId := 0; m_error := None |}
         busy_after_start).

(** A lesson whose [beforeAll] hook runs on Node and whose test runs on
    Python. *)
Definition python_test : Test :=
  {| text := "It prints"; t_code := "assert out == 1";
     t_runner := "Python" |}.

Definition mixed_lesson : Lesson :=
  {| beforeAll := Some cleanup_hook; beforeEach := None; afterAll := None;
     afterEach := None; hints := []; tests := [python_test] |}.

(** A lesson with a [beforeAll] hook and one test, all on Node. *)
Definition hooked_lesson : Lesson :=
  {| beforeAll := Some cleanup_hook; beforeEach := None; afterAll := None;
     afterEach := None; hints := []; tests := [node_test] |}.

(** The state of test 0 of [one_test_lesson] while its worker runs. *)
Definition loading_state : TestState :=
  {| passed := false; testText := "It passes"; testId := 0;
     isLoading := true |}.

(** An environment that translates every message. *)
Definition translating_env : Collaborators :=
  {| hook_outcome := fun _ _ => None;
     t := fun _ => Some "se esperaba que 1 fuera igual a 2";
     Date_now := fun _ => 1700000000000%Z |}.

(** A blocking run of two tests in an environment whose hooks throw: the
    first test is reported as passed, then the shared worker is
    terminated. *)
Definition failing_env : Collaborators :=
  {| hook_outcome := fun _ _ => Some (Error "ENOENT: no such file");
     t := fun _ => None;
     Date_now := fun _ => 1700000000000%Z |}.

Definition blocking_project : Project :=
  {| dashedName := "learn-x"; currentLesson := 2; blockingTests := true;
     isIntegrated := false; numberOfLessons := 3 |}.

Definition second_test : Test :=
  {| text := "It also passes"; t_code := "assert(1 === 1)";
     t_runner := "Node" |}.

Definition two_test_lesson : Lesson :=
  {| beforeAll := None; beforeEach := None; afterAll := None;
     afterEach := Some cleanup_hook; hints := ["Try again"];
     tests := [node_test; second_test] |}.

Definition shared_worker : Worker :=
  {| handle := 0; w_name := blocking_worker; w_runner := "Node";
     w_beforeEach := None; w_project := blocking_project |}.

Definition blocking_after_start : World :=
  snd (runTests failing_env blocking_project two_test_lesson empty_world).

Definition blocking_after_message : World :=
  snd (workerMessage failing_env blocking_project two_test_lesson
         {| m_passed := true; m_testId := 0; m_error := None |}
         blocking_after_start).

Definition blocking_after_exit : World :=
  snd (worker_on_exit failing_env blocking_project two_test_lesson
         shared_worker None 1 blocking_after_message).

(** ** More readings of the trace *)

(** The events by which the aggregation check moves the learner on: the
    lesson-passed and project-finished notifications, the writes to the
    project configuration, the run of the next lesson. *)
Definition is_advance (e : Event) : bool :=
  match e with
  | onLessonPassed _ | onProjectFinished _ | resetBottomPanel
  | handleProjectFinish | setProjectConfig_completedDate _ _
  | setProjectConfig_currentLesson _ _ | runLesson _ => true
  | _ => false
  end.

(** The error a worker message ends up publishing: its message replaced
    by [assertionTranslation || error.message] when it has a truthy one. *)
Definition localized_error (env : Collaborators) (error : WorkerError)
    : WorkerError :=
  match e_message error with
  | Some message =>
      if truthy message then
        {| e_type := e_type error;
           e_message := Some (js_or (t env message) message) |}
      else error
  | None => error
  end.

(** What the message handler adds to the trace before the aggregation
    check, for test [k] whose new state is [s]. *)
Definition message_events (env : Collaborators) (k : nat) (s : TestState)
    (error : option WorkerError) : list Event :=
  match error with
  | Some err =>
      (if bool_decide (e_type err <> Some "AssertionError")
       then [logover_error_test k err] else [])
      ++ [updateConsole (console_error s (localized_error env err))]
  | None => []
  end ++ [updateTest s].

(** ** Seeding a lesson

    The seed module of the tooling server ([seedLesson], [runCommands],
    [runCommand], [runSeed], [runLessonSeed]).  Its effects are calls to
    collaborators (the shell through the promisified [exec], the file
    system, the file watcher, the state store, the client socket, the
    logger): the world is the trace of these calls.  What the shell, the
    file system and the plugin return is given by the environment. *)

Module Seed.

(** A thrown or rejected value: a string, as in [Promise.reject(stderr)],
    or an error object. *)
Inductive Thrown :=
| thrown_string (s : string)
| thrown_error (e : JsError).

(** [String(e)], the message [new Error(e)] gets. *)
Definition String_of (v : Thrown) : string :=
  match v with
  | thrown_string s => s
  | thrown_error (Error m) => if truthy m then "Error: " +:+ m else "Error"
  | thrown_error (TypeError m) =>
      if truthy m then "TypeError: " +:+ m else "TypeError"
  end.

(** An element of a lesson's seed: a command (a string) or a file
    ([{ filePath, fileSeed }]). *)
Inductive SeedItem :=
| seed_command (command : string)
| seed_file (filePath fileSeed : string).

(** Calls to the collaborators.  [execute command None] is
    [execute(command)]; [execute command (Some path)] is
    [execute(command, { cwd: join(ROOT, path), shell: '/bin/bash' })];
    the path of [writeFile] is the one joined to [ROOT]. *)
Inductive Event :=
| execute (command : string) (cwd : option string)
| logover_debug (args : list string)
| logover_error (s : string)
| logover_error_lesson (s : string) (currentLesson : Z)
| logover_error_val (v : Thrown)
| writeFile (filePath data : string)
| watcher_unwatch (filePath : string)
| watcher_add (filePath : string)
| setState_lastSeed (projectId lessonNumber : Z)
| updateError (v : Thrown).

(** How an awaited call ends. *)
Inductive Result (A : Type) :=
| Ok (a : A)
| Rejected (v : Thrown).
Arguments Ok {A} a.
Arguments Rejected {A} v.

(** The environment: what [exec] yields for a command after a given
    history ([stdout] and [stderr], or a rejection), whether a write
    fails, the [id] of the project [getProject] returns, the seed of the
    lesson [getLesson] returns, and the [projects] of the state
    ([id] to [currentLesson]). *)
Record Collaborators := {
  exec : list Event -> string -> option string -> Result (string * string);
  writeFile_error : list Event -> string -> string -> option Thrown;
  getProject : Z -> Result Z;
  getLesson : Z -> Z -> Result (list SeedItem);
  projects : gmap Z Z
}.

Definition M (A : Type) : Type := list Event -> Result A * list Event.

Definition ret {A} (a : A) : M A := fun tr => (Ok a, tr).

Definition bind {A B} (m : M A) (k : A -> M B) : M B :=
  fun tr =>
    match m tr with
    | (Ok a, tr') => k a tr'
    | (Rejected v, tr') => (Rejected v, tr')
    end.

Definition throw {A} (v : Thrown) : M A := fun tr => (Rejected v, tr).

Definition try_catch {A} (body : M A) (handler : Thrown -> M A) : M A :=
  fun tr =>
    match body tr with
    | (Ok a, tr') => (Ok a, tr')
    | (Rejected v, tr') => handler v tr'
    end.

Definition emit (e : Event) : M unit := fun tr => (Ok tt, tr ++ [e]).

(** Awaiting a value the environment gives. *)
Definition await {A} (r : Result A) : M A := fun tr => (r, tr).

Declare Scope seed_scope.
Delimit Scope seed_scope with seed.
Notation "x <- m ;; k" := (bind m (fun x => k))
  (at level 100, m at next level, k at level 200, right associativity)
  : seed_scope.
Notation "m ;; k" := (bind m (fun _ => k))
  (at level 100, k at level 200, right associativity) : seed_scope.
Open Scope seed_scope.

Section Functions.

Context (env : Collaborators).

(** [await execute(command, options)] *)
Definition execute_ (command : string) (cwd : option string)
    : M (string * string) :=
  fun tr => (exec env tr command cwd, tr ++ [execute command cwd]).

(** [export async function runCommands(commands)] *)
Fixpoint runCommands (commands : list string) : M unit :=
  match commands with
  | [] => ret tt
  | command :: rest =>
      out <- execute_ command None ;;
      (if truthy (fst out) then emit (logover_debug [fst out])
       else ret tt) ;;
      if truthy (snd out) then
        emit (logover_error (snd out)) ;;
        throw (thrown_string (snd out))
      else runCommands rest
  end.

(** [export async function runCommand(command, path = ".")] *)
Definition runCommand (command : string) (path : string)
    : M (string * string) :=
  execute_ command (Some path).

(** [export async function runSeed(fileSeed, filePath)] *)
Definition runSeed (fileSeed filePath : string) : M unit :=
  fun tr =>
    (match writeFile_error env tr filePath fileSeed with
     | None => Ok tt
     | Some v => Rejected v
     end, tr ++ [writeFile filePath fileSeed]).

(** The body of the [for] loop of [runLessonSeed]. *)
Definition seed_item (cmdOrFile : SeedItem) : M unit :=
  match cmdOrFile with
  | seed_command command =>
      out <- runCommand command "." ;;
      if truthy (fst out) || truthy (snd out) then
        emit (logover_debug [fst out; snd out])
      else ret tt
  | seed_file filePath fileSeed =>
      emit (watcher_unwatch filePath) ;;
      runSeed fileSeed filePath ;;
      emit (watcher_add filePath)
  end.

(** [for (const cmdOrFile of seed) { ... }] *)
Fixpoint seed_items (seed : list SeedItem) : M unit :=
  match seed with
  | [] => ret tt
  | cmdOrFile :: rest => seed_item cmdOrFile ;; seed_items rest
  end.

(** [export async function runLessonSeed(seed, currentLesson)] *)
Definition runLessonSeed (seed : list SeedItem) (currentLesson : Z)
    : M unit :=
  try_catch (seed_items seed)
    (fun e =>
       emit (logover_error_lesson "Failed to run seed for lesson: "
               currentLesson) ;;
       throw (thrown_error (Error (String_of e)))).

(** [export async function seedLesson(ws, projectId)] *)
Definition seedLesson (projectId : Z) : M unit :=
  project_id <- await (getProject env projectId) ;;
  currentLesson <-
    match projects env !! project_id with
    | Some currentLesson => ret currentLesson
    | None =>
        throw (thrown_error
                 (TypeError "Cannot read properties of undefined (reading 'currentLesson')"))
    end ;;
  try_catch
    (seed <- await (getLesson env projectId currentLesson) ;;
     runLessonSeed seed currentLesson ;;
     emit (setState_lastSeed projectId currentLesson))
    (fun e =>
       emit (updateError e) ;;
       emit (logover_error_val e)).

End Functions.

(** The commands handed to the shell, in order. *)
Definition executed (tr : list Event) : list string :=
  omap (fun e => match e with execute c _ => Some c | _ => None end) tr.

(** The calls to the file system and to the watcher. *)
Definition is_file_event (e : Event) : bool :=
  match e with
  | writeFile _ _ | watcher_unwatch _ | watcher_add _ => true
  | _ => false
  end.

(** The calls [runLessonSeed] can make. *)
Definition is_seeding_event (e : Event) : bool :=
  match e with
  | setState_lastSeed _ _ | updateError _ | logover_error_val _ => false
  | _ => true
  end.

(** The file and watcher calls, and the commands, of a seed that runs to
    its end. *)
Definition file_calls (cmdOrFile : SeedItem) : list Event :=
  match cmdOrFile with
  | seed_command _ => []
  | seed_file filePath fileSeed =>
      [watcher_unwatch filePath; writeFile filePath fileSeed;
       watcher_add filePath]
  end.

Definition commands_of (seed : list SeedItem) : list string :=
  omap (fun i => match i with seed_command c => Some c | _ => None end) seed.

(** Every item of the seed succeeds, after any history. *)
Definition item_succeeds (env : Collaborators) (cmdOrFile : SeedItem)
    : Prop :=
  match cmdOrFile with
  | seed_command c =>
      forall tr, exists out, exec env tr c (Some ".") = Ok out
  | seed_file p d => forall tr, writeFile_error env tr p d = None
  end.

(** A shell that prints nothing, a file system that accepts every write,
    one project at its third lesson. *)
Definition quiet_shell : Collaborators :=
  {| exec := fun _ _ _ => Ok ("", "");
     writeFile_error := fun _ _ _ => None;
     getProject := fun id => Ok id;
     getLesson := fun _ _ =>
       Ok [seed_command "npm install";
           seed_file "index.js" "console.log(1)"];
     projects := {[ 0%Z := 2%Z ]} |}.

(** A shell in which [git] warns on [stderr]. *)
Definition warning_shell : Collaborators :=
  {| exec := fun _ c _ =>
       if bool_decide (c = "git init") then Ok ("", "hint: using master")
       else Ok ("", "");
     writeFile_error := fun _ _ _ => None;
     getProject := fun id => Ok id;
     getLesson := fun _ _ => Ok [];
     projects := {[ 0%Z := 2%Z ]} |}.

(** A read-only file system, and a shell without [npm]. *)
Definition broken_env : Collaborators :=
  {| exec := fun _ c _ =>
       if bool_decide (c = "npm install")
       then Rejected (thrown_error (Error "Command failed: npm install"))
       else Ok ("", "");
     writeFile_error := fun _ _ _ =>
       Some (thrown_error (Error "EROFS: read-only file system"));
     getProject := fun id => Ok id;
     getLesson := fun _ _ => Ok [seed_file "index.js" "console.log(1)"];
     projects := {[ 0%Z := 2%Z ]} |}.

End Seed.

(** ** The history helpers of the test utilities

    [getLastCommand] and [getLastCWD] read a log file and pick a line of
    it.  The content of the file is the argument here; the content is a
    string of bytes, and the byte of the line feed does not occur inside
    an encoded character, so splitting bytes is splitting lines. *)

Module TestUtils.

(** The line feed, ["\n"]. *)
Definition LF : Ascii.ascii := Ascii.ascii_of_nat 10.

Definition LF_string : string := String LF EmptyString.

(** [s.split("\n")] *)
Fixpoint split_LF (s : string) : list string :=
  match s with
  | EmptyString => [EmptyString]
  | String c rest =>
      if bool_decide (c = LF) then EmptyString :: split_LF rest
      else
        match split_LF rest with
        | line :: lines => String c line :: lines
        | [] => [String c EmptyString]
        end
  end.

(** [s.split("\n").filter((l) => l !== "")] *)
Definition nonempty_lines (s : string) : list string :=
  List.filter (fun l => negb (bool_decide (l = ""))) (split_LF s).

(** [logs[logs.length - howManyBack - 1]]; [None] is [undefined]. *)
Definition from_the_end (logs : list string) (howManyBack : Z)
    : option string :=
  let index := (Z.of_nat (length logs) - howManyBack - 1)%Z in
  if (0 <=? index)%Z then logs !! Z.to_nat index else None.

(** [async function getLastCommand(howManyBack = 0)], on the content
    [getBashHistory] returns. *)
Definition getLastCommand (bashLogs : string) (howManyBack : Z)
    : option string :=
  let logs := nonempty_lines bashLogs in
  let lastLog := from_the_end logs howManyBack in
  lastLog.

(** [async function getLastCWD(howManyBack = 0)], on the content [getCWD]
    returns. *)
Definition getLastCWD (currentWorkingDirectory : string) (howManyBack : Z)
    : option string :=
  let logs := nonempty_lines currentWorkingDirectory in
  let lastLog := from_the_end logs howManyBack in
  lastLog.

(** The characters of a string. *)
Fixpoint chars (s : string) : list Ascii.ascii :=
  match s with
  | EmptyString => []
  | String c rest => c :: chars rest
  end.

(** A log that is empty or ends with a line feed. *)
Definition ends_line (s : string) : Prop :=
  s = "" \/ exists s', s = s' +:+ LF_string.

End TestUtils.

(** ** More concrete runs *)

(** A lesson written for a runner the hooks cannot execute. *)
Definition rust_hook : Hook := {| runner := "Rust"; code := "setup();" |}.

Definition rust_test : Test :=
  {| text := "It compiles"; t_code := "assert!(true);";
     t_runner := "Rust" |}.

Definition rust_lesson : Lesson :=
  {| beforeAll := Some rust_hook; beforeEach := None; afterAll := None;
     afterEach := None; hints := []; tests := [rust_test] |}.

(** An error that is not an assertion error and has no message. *)
Definition bare_error : WorkerError :=
  {| e_type := Some "ReferenceError"; e_message := None |}.

(** The same run when the test passes: the worker reports a passed test,
    then exits with code 0. *)
Definition passed_after_message : World :=
  snd (workerMessage quiet_env parallel_project one_test_lesson
         {| m_passed := true; m_testId := 0; m_error := None |}
         after_start).

Definition passed_after_exit : World :=
  snd (worker_on_exit quiet_env parallel_project one_test_lesson worker_0
         (Some 0) 0 passed_after_message).

(** ** Proof steps *)

(** Run the primitive operations that are in sight, and read the fields
    of the worlds they build. *)
Ltac js_run :=
  unfold bind, emit, read_test, get, modify, ret, set_testsState, set_trace,
    set_nextHandle, set_WORKER_POOL;
  cbn [testsState trace WORKER_POOL exited nextHandle].

(** ** Runner consistency *)

Section RunnerCheck.

Context (env : Collaborators).

Lemma first_runner_resolved (l : list (option Tester)) (x : Tester) (w : World) :
  first_non_null l = Some (Some x) ->
  first_runner l w = (Normal (tester_runner x), w).
Proof. unfold first_runner. intros ->. reflexivity. Qed.

(** The first element that is not [null] is the first [Some]. *)
Lemma first_non_null_exists (l : list (option Tester)) (y : Tester) :
  In (Some y) l -> exists x, first_non_null l = Some (Some x).
Proof.
  unfold first_non_null.
  induction l as [|[a|] l IH]; simpl; intros Hin.
  - contradiction.
  - exists a. reflexivity.
  - destruct Hin as [Heq|Hin]; [discriminate|]. auto.
Qed.

(** The loop throws at the first tester whose runner differs. *)
Lemma check_runners_mismatch (l : list (option Tester)) (r : string) (y : Tester) :
  In (Some y) l -> tester_runner y <> r ->
  exists found, found <> r /\
    forall w, check_runners l r w = (Throw (RunnerMismatch found r), w).
Proof.
  induction l as [|[a|] l IH]; simpl; intros Hin Hne.
  - contradiction.
  - case_bool_decide as Ha.
    + exists (tester_runner a). split; [assumption|]. reflexivity.
    + destruct Hin as [Heq|Hin].
      * injection Heq as ->. contradiction.
      * apply IH; assumption.
  - destruct Hin as [Heq|Hin]; [discriminate|]. apply IH; assumption.
Qed.

(** The loop passes when every tester uses the expected runner. *)
Lemma check_runners_same (l : list (option Tester)) (r : string) (w : World) :
  (forall y, In (Some y) l -> tester_runner y = r) ->
  check_runners l r w = (Normal tt, w).
Proof.
  induction l as [|[a|] l IH]; simpl; intros H.
  - reflexivity.
  - case_bool_decide as Ha.
    + destruct Ha. apply H. now left.
    + apply IH. intros y Hy. apply H. now right.
  - apply IH. intros y Hy. apply H. now right.
Qed.

(** C2: when some hook or test that is present uses a runner other than
    the one of the first present hook or test, [runTests] ends in its
    top-level [catch] with the runner-mismatch error: the only calls it
    has made are the two log lines of that handler, so the [beforeAll]
    hook was not run, nothing was published, and no worker was created
    (the pool and the handle counter are those of the start). *)
Theorem runTests_runner_mismatch (project : Project) (lesson : Lesson)
    (w : World) (x y : Tester) :
  first_non_null (testers lesson) = Some (Some x) ->
  In (Some y) (testers lesson) ->
  tester_runner y <> tester_runner x ->
  exists found, found <> tester_runner x /\
    runTests env project lesson w =
      (Normal tt,
       {| testsState := [];
          WORKER_POOL := WORKER_POOL w;
          exited := exited w;
          nextHandle := nextHandle w;
          trace := trace w ++
            [logover_error "Test Error: ";
             logover_error_val (RunnerMismatch found (tester_runner x))] |}).
Proof.
  intros Hfirst Hin Hne.
  destruct (check_runners_mismatch _ _ _ Hin Hne) as (found & Hfound & Hthrow).
  exists found. split; [assumption|].
  unfold runTests, bind, try_catch, modify. simpl.
  rewrite (first_runner_resolved _ _ _ Hfirst), Hthrow.
  unfold emit, set_trace, set_testsState. simpl.
  rewrite <- app_assoc. reflexivity.
Qed.

(** C10: for a lesson without hooks and without tests, resolving the
    first runner throws a [TypeError]; the top-level handler logs it and
    [runTests] returns normally.  No worker is created, no test state is
    published and no plugin notification is sent: the two log lines are the
    only calls made. *)
Theorem runTests_empty_lesson (project : Project) (hs : list string)
    (w : World) :
  runTests env project
    {| beforeAll := None; beforeEach := None; afterAll := None;
       afterEach := None; hints := hs; tests := [] |} w =
  (Normal tt,
   {| testsState := [];
      WORKER_POOL := WORKER_POOL w;
      exited := exited w;
      nextHandle := nextHandle w;
      trace := trace w ++
        [logover_error "Test Error: ";
         logover_error_val
           (TypeError
              "Cannot read properties of undefined (reading 'runner')")] |}).
Proof.
  unfold runTests, bind, try_catch, modify, emit, set_trace, set_testsState.
  simpl. rewrite <- app_assoc. reflexivity.
Qed.

End RunnerCheck.

(** ** Hooks and the aggregation check *)

Section Aggregation.

Context (env : Collaborators).

Lemma switch_runner_spec (h : Hook) (w : World) :
  switch_runner env h w =
  match backend_call h with
  | Some call =>
      (match hook_outcome env (trace w) h with
       | None => Normal tt
       | Some e => Throw e
       end,
       set_trace (trace w ++ [call]) w)
  | None => (Throw (Error ("Unsupported runner: " +:+ runner h)), w)
  end.
Proof.
  unfold switch_runner, backend_call, run_backend, bind, get, emit.
  repeat case_bool_decide; simpl;
    try destruct (hook_outcome env (trace w) h); reflexivity.
Qed.

(** A hook wrapped in its [try]/[catch] always completes normally and
    only extends the trace. *)
Lemma guarded_hook_spec (phase : string) (h : Hook) (w : World) :
  try_catch
    (emit (logover_debug ("Starting: --" +:+ phase +:+ "-- hook")) ;;
     switch_runner env h ;;
     emit (logover_debug ("Finished: --" +:+ phase +:+ "-- hook")))
    (fun e =>
       emit (logover_error ("--" +:+ phase +:+ "-- hook failed to run:")) ;;
       emit (logover_error_val e)) w =
  (Normal tt,
   {| testsState := testsState w; WORKER_POOL := WORKER_POOL w;
      exited := exited w; nextHandle := nextHandle w;
      trace := trace w ++ guarded_hook_events env phase h (trace w) |}).
Proof.
  unfold try_catch, bind at 1. unfold emit at 1. unfold bind at 1.
  rewrite switch_runner_spec. unfold guarded_hook_events.
  destruct w as [ts pool ex nh tr]. simpl.
  destruct (backend_call h) as [call|]; simpl.
  - destruct (hook_outcome env _ h) as [e|]; unfold bind, emit, set_trace;
      simpl; repeat rewrite <- app_assoc; reflexivity.
  - unfold bind, emit, set_trace; simpl.
    repeat rewrite <- app_assoc; reflexivity.
Qed.

Lemma splice_all {A} (l : list A) : splice l 0 (length l) = [].
Proof. unfold splice. simpl. apply drop_all. Qed.

(** The aggregation check always completes normally; it leaves
    [testsState] alone, extends the trace and, on settled states, empties
    the pool. *)
Lemma checkTestsCallback_spec (project : Project) (hints : list string)
    (lessonNumber : Z) (afterAll : option Hook) (w : World) :
  checkTestsCallback env project hints lessonNumber afterAll w =
  (Normal tt,
   {| testsState := testsState w;
      WORKER_POOL := if settled (testsState w) then [] else WORKER_POOL w;
      exited := exited w; nextHandle := nextHandle w;
      trace :=
        let tr := trace w ++
          progression_events env project hints lessonNumber
            (testsState w) (trace w) in
        tr ++ teardown_events env project afterAll (testsState w) tr |}).
Proof.
  destruct w as [ts pool ex nh tr].
  unfold checkTestsCallback, progression_events, teardown_events, settled.
  unfold bind at 1. unfold get at 1. simpl.
  unfold bind at 1.
  set (first_half := (if forallb passed ts then _ else _) : Js unit).
  assert (Hfirst : first_half
            {| testsState := ts; WORKER_POOL := pool; exited := ex;
               nextHandle := nh; trace := tr |} =
          (Normal tt,
           {| testsState := ts; WORKER_POOL := pool; exited := ex;
              nextHandle := nh;
              trace := tr ++ progression_events env project hints
                               lessonNumber ts tr |})).
  { subst first_half. unfold progression_events.
    destruct (forallb passed ts); simpl.
    - destruct (isIntegrated project || _)%bool; simpl;
        unfold bind, emit, get, set_trace; simpl;
        repeat rewrite <- app_assoc; reflexivity.
    - unfold bind, emit, set_trace; simpl.
      repeat rewrite <- app_assoc; reflexivity. }
  rewrite Hfirst. unfold progression_events.
  set (tr1 := tr ++ _).
  unfold bind at 1. unfold get at 1. simpl.
  destruct (forallb (fun test => negb (isLoading test)) ts); simpl.
  - destruct afterAll as [h|].
    + unfold bind at 1.
      pose proof (guarded_hook_spec "after-all" h
                    {| testsState := ts; WORKER_POOL := pool; exited := ex;
                       nextHandle := nh; trace := tr1 |}) as Hh.
      change ("Starting: --" +:+ "after-all" +:+ "-- hook")
        with "Starting: --after-all-- hook" in Hh.
      change ("Finished: --" +:+ "after-all" +:+ "-- hook")
        with "Finished: --after-all-- hook" in Hh.
      change ("--" +:+ "after-all" +:+ "-- hook failed to run:")
        with "--after-all-- hook failed to run:" in Hh.
      rewrite Hh.
      unfold bind, get, emit, modify, set_trace, set_WORKER_POOL. simpl.
      rewrite splice_all, <- app_assoc. reflexivity.
    + unfold bind, ret, get, emit, modify, set_trace, set_WORKER_POOL. simpl.
      rewrite splice_all. reflexivity.
  - rewrite app_nil_r. reflexivity.
Qed.

End Aggregation.

(** ** The progression decision and the teardown block *)

Section Progression.

Context (env : Collaborators).

Lemma guarded_hook_events_kind (phase : string) (h : Hook) (tr : list Event)
    (e : Event) :
  In e (guarded_hook_events env phase h tr) -> is_hook_event e = true.
Proof.
  unfold guarded_hook_events.
  destruct (backend_call h) as [call|] eqn:Hcall.
  - assert (is_hook_event call = true) as Hc.
    { unfold backend_call in Hcall.
      repeat case_bool_decide; inversion Hcall; reflexivity. }
    destruct (hook_outcome env _ h); simpl; intuition (subst; auto).
  - simpl; intuition (subst; auto).
Qed.

(** The shape of a guarded invocation whose backend call throws. *)
Lemma guarded_hook_events_throw (phase : string) (h : Hook)
    (tr : list Event) (call : Event) (e : JsError) :
  backend_call h = Some call ->
  hook_outcome env
    (tr ++ [logover_debug ("Starting: --" +:+ phase +:+ "-- hook")]) h
    = Some e ->
  guarded_hook_events env phase h tr =
    [logover_debug ("Starting: --" +:+ phase +:+ "-- hook"); call;
     logover_error ("--" +:+ phase +:+ "-- hook failed to run:");
     logover_error_val e].
Proof.
  intros Hcall Hthrow. unfold guarded_hook_events.
  rewrite Hcall, Hthrow. reflexivity.
Qed.

Lemma teardown_events_kind (project : Project) (afterAll : option Hook)
    (ts : list TestState) (tr : list Event) (e : Event) :
  In e (teardown_events env project afterAll ts tr) ->
  is_hook_event e = true \/ e = onTestsEnd project ts.
Proof.
  unfold teardown_events. destruct (settled ts); [|contradiction].
  rewrite in_app_iff. simpl. intros [He|[He|[]]]; [left|right; auto].
  destruct afterAll as [h|]; [|contradiction].
  eapply guarded_hook_events_kind; eassumption.
Qed.

(** C3: when every test has passed, the aggregation check first reports
    the lesson as passed and clears the hint panel; then, for an
    integrated project or the last lesson, it fires project-finished,
    persists a completion date and signals the finish, and otherwise it
    persists [lessonNumber + 1] as the current lesson and runs the next
    lesson.  What follows in the trace (the teardown block) holds no
    current-lesson write, no next-lesson run and no project-finished
    notification, so each branch excludes the other's effects. *)
Theorem checkTestsCallback_all_passed (project : Project)
    (hints : list string) (lessonNumber : Z) (afterAll : option Hook)
    (w : World) :
  forallb passed (testsState w) = true ->
  exists (w' : World) (date : Z) (teardown : list Event),
    checkTestsCallback env project hints lessonNumber afterAll w
      = (Normal tt, w') /\
    (forall name n,
       ~ In (setProjectConfig_currentLesson name n) teardown) /\
    (forall name, ~ In (runLesson name) teardown) /\
    (forall p, ~ In (onProjectFinished p) teardown) /\
    (isIntegrated project = true
       \/ lessonNumber = (numberOfLessons project - 1)%Z ->
     trace w' = trace w ++
       [onLessonPassed project; resetBottomPanel;
        onProjectFinished project;
        setProjectConfig_completedDate (dashedName project) date;
        handleProjectFinish] ++ teardown) /\
    (isIntegrated project = false
       /\ lessonNumber <> (numberOfLessons project - 1)%Z ->
     trace w' = trace w ++
       [onLessonPassed project; resetBottomPanel;
        setProjectConfig_currentLesson (dashedName project)
          (lessonNumber + 1);
        runLesson (dashedName project)] ++ teardown).
Proof.
  intros Hpassed. rewrite checkTestsCallback_spec. cbv zeta.
  remember (teardown_events env project afterAll (testsState w)
              (trace w ++ progression_events env project hints lessonNumber
                            (testsState w) (trace w))) as teardown
    eqn:Hteardown.
  assert (Hkind : forall e, In e teardown ->
            is_hook_event e = true \/ e = onTestsEnd project (testsState w))
    by (intro e; subst teardown; apply teardown_events_kind).
  clear Hteardown.
  eexists.
  exists (Date_now env
            (trace w ++ [onLessonPassed project; resetBottomPanel;
                         onProjectFinished project])).
  exists teardown.
  split; [reflexivity|].
  repeat split.
  - intros name n Hin. destruct (Hkind _ Hin); discriminate.
  - intros name Hin. destruct (Hkind _ Hin); discriminate.
  - intros p Hin. destruct (Hkind _ Hin); discriminate.
  - intros Hfin. simpl. unfold progression_events. rewrite Hpassed.
    assert (isIntegrated project
            || (lessonNumber =? numberOfLessons project - 1)%Z = true) as ->.
    { destruct Hfin as [->| ->]; [reflexivity|].
      rewrite Z.eqb_refl. apply orb_true_r. }
    rewrite <- app_assoc. reflexivity.
  - intros [Hint Hne]. simpl. unfold progression_events. rewrite Hpassed.
    rewrite Hint. apply Z.eqb_neq in Hne. rewrite Hne. simpl.
    rewrite <- app_assoc. reflexivity.
Qed.

Lemma filter_none {A} (f : A -> bool) (l : list A) :
  (forall x, In x l -> f x = false) -> List.filter f l = [].
Proof.
  induction l as [|a l IH]; simpl; intros H; [reflexivity|].
  rewrite (H a (or_introl eq_refl)). apply IH. auto.
Qed.

Lemma progression_filter (project : Project) (hints : list string)
    (lessonNumber : Z) (ts : list TestState) (tr tr' : list Event) :
  List.filter is_progression
    (progression_events env project hints lessonNumber ts tr) =
  List.filter is_progression
    (progression_events env project hints lessonNumber ts tr').
Proof.
  unfold progression_events.
  destruct (forallb passed ts); [|reflexivity].
  destruct (isIntegrated project || _)%bool; reflexivity.
Qed.

Lemma progression_no_teardown (project : Project) (hints : list string)
    (lessonNumber : Z) (ts : list TestState) (tr : list Event) (e : Event) :
  In e (progression_events env project hints lessonNumber ts tr) ->
  is_onTestsEnd e = false /\ is_afterAll_start e = false.
Proof.
  unfold progression_events.
  destruct (forallb passed ts); [destruct (isIntegrated project || _)%bool|];
    simpl; intuition (subst; reflexivity).
Qed.

Lemma hook_events_not_onTestsEnd (phase : string) (h : Hook)
    (tr : list Event) :
  List.filter is_onTestsEnd (guarded_hook_events env phase h tr) = [].
Proof.
  apply filter_none. intros e He.
  apply guarded_hook_events_kind in He. destruct e; try discriminate;
    reflexivity.
Qed.

Lemma afterAll_started_once (h : Hook) (tr : list Event) :
  List.filter is_afterAll_start (guarded_hook_events env "after-all" h tr) =
  [logover_debug "Starting: --after-all-- hook"].
Proof.
  unfold guarded_hook_events, backend_call.
  repeat case_bool_decide; try destruct (hook_outcome env _ h);
    reflexivity.
Qed.

(** How often one run of the aggregation check on settled states reports
    the end of the tests, and starts the [afterAll] hook. *)
Lemma settled_teardown_counts (project : Project) (hints : list string)
    (lessonNumber : Z) (afterAll : option Hook) (ts : list TestState)
    (tr : list Event) :
  settled ts = true ->
  let new := progression_events env project hints lessonNumber ts tr ++
             teardown_events env project afterAll ts
               (tr ++ progression_events env project hints lessonNumber
                        ts tr) in
  length (List.filter is_onTestsEnd new) = 1 /\
  (afterAll <> None -> length (List.filter is_afterAll_start new) = 1) /\
  List.filter is_progression new =
  List.filter is_progression
    (progression_events env project hints lessonNumber ts tr).
Proof.
  intros Hs new. subst new. rewrite !List.filter_app.
  rewrite (filter_none is_onTestsEnd (progression_events _ _ _ _ _ _))
    by (intros e He; eapply progression_no_teardown; eassumption).
  rewrite (filter_none is_afterAll_start (progression_events _ _ _ _ _ _))
    by (intros e He; eapply progression_no_teardown; eassumption).
  rewrite (filter_none is_progression (teardown_events _ _ _ _ _)).
  2:{ intros e He. apply teardown_events_kind in He.
      destruct He as [He| ->]; [|reflexivity].
      destruct e; try discriminate; reflexivity. }
  unfold teardown_events. rewrite Hs, !List.filter_app. simpl.
  repeat split.
  - destruct afterAll as [h|]; [|reflexivity].
    rewrite hook_events_not_onTestsEnd. reflexivity.
  - destruct afterAll as [h|]; [|congruence]. intros _.
    rewrite afterAll_started_once. reflexivity.
  - apply app_nil_r.
Qed.

(** The aggregation check keeps no record of a teardown it has run.  On
    settled states it completes normally and leaves [testsState] as it
    is, so it can be invoked again on the same states; the second
    invocation takes the same progression decision as the first, and
    each of the two reports the end of the tests and starts the
    [afterAll] hook (when there is one). *)
Theorem checkTestsCallback_settled_again (project : Project)
    (hints : list string) (lessonNumber : Z) (afterAll : option Hook)
    (w : World) :
  settled (testsState w) = true ->
  exists (w1 w2 : World) (new1 new2 : list Event),
    checkTestsCallback env project hints lessonNumber afterAll w
      = (Normal tt, w1) /\
    checkTestsCallback env project hints lessonNumber afterAll w1
      = (Normal tt, w2) /\
    testsState w1 = testsState w /\
    trace w1 = trace w ++ new1 /\
    trace w2 = trace w1 ++ new2 /\
    List.filter is_progression new2 = List.filter is_progression new1 /\
    length (List.filter is_onTestsEnd new1) = 1 /\
    length (List.filter is_onTestsEnd new2) = 1 /\
    (afterAll <> None ->
     length (List.filter is_afterAll_start new1) = 1 /\
     length (List.filter is_afterAll_start new2) = 1).
Proof.
  intros Hs. rewrite checkTestsCallback_spec. cbv zeta.
  set (P1 := progression_events env project hints lessonNumber
               (testsState w) (trace w)).
  set (T1 := teardown_events env project afterAll (testsState w)
               (trace w ++ P1)).
  set (tr1 := (trace w ++ P1) ++ T1).
  set (P2 := progression_events env project hints lessonNumber
               (testsState w) tr1).
  set (T2 := teardown_events env project afterAll (testsState w)
               (tr1 ++ P2)).
  eexists. eexists. exists (P1 ++ T1), (P2 ++ T2).
  split; [reflexivity|]. rewrite checkTestsCallback_spec. cbv zeta.
  cbn [testsState trace WORKER_POOL exited nextHandle].
  fold tr1. fold P2. fold T2.
  split; [reflexivity|]. split; [reflexivity|].
  split; [subst tr1; symmetry; apply app_assoc|].
  split; [symmetry; apply app_assoc|].
  destruct (settled_teardown_counts project hints lessonNumber afterAll
              (testsState w) (trace w) Hs) as (H1 & H2 & H3).
  destruct (settled_teardown_counts project hints lessonNumber afterAll
              (testsState w) tr1 Hs) as (H4 & H5 & H6).
  fold P1 T1 in H1, H2, H3. fold P2 T2 in H4, H5, H6.
  split.
  { rewrite H6, H3. apply progression_filter. }
  split; [exact H1|]. split; [exact H4|].
  intros Hsome. split; [apply H2|apply H5]; assumption.
Qed.

(** C7, as the code has it: on settled states the aggregation check ends
    with the tests-end notification and leaves the pool empty, whatever
    the pool held. *)
Theorem checkTestsCallback_empties_pool (project : Project)
    (hints : list string) (lessonNumber : Z) (afterAll : option Hook)
    (w : World) :
  settled (testsState w) = true ->
  exists (w' : World) (before : list Event),
    checkTestsCallback env project hints lessonNumber afterAll w
      = (Normal tt, w') /\
    trace w' = before ++ [onTestsEnd project (testsState w)] /\
    (forall h, afterAll = Some h ->
       exists before' after',
         before = before' ++
           logover_debug "Starting: --after-all-- hook" :: after') /\
    WORKER_POOL w' = [].
Proof.
  intros Hs. rewrite checkTestsCallback_spec. cbv zeta.
  unfold teardown_events. rewrite Hs.
  eexists. eexists. split; [reflexivity|]. simpl.
  split; [rewrite !app_assoc; reflexivity|].
  split; [|reflexivity].
  intros h ->. unfold guarded_hook_events at 1.
  exists (trace w ++ progression_events env project hints lessonNumber
                       (testsState w) (trace w)).
  eexists. cbn [app]. reflexivity.
Qed.

End Progression.

(** ** Worker exit and cancellation *)

Section WorkerExit.

Context (env : Collaborators).

(** The three assignments and the console entry of one cancelled test. *)
Lemma cancel_one (i : nat) (s : TestState) (w : World) :
  testsState w !! i = Some s ->
  (set_isLoading i false ;;
   set_passed i false ;;
   s' <- read_test i ;;
   emit (updateConsole (console_cancelled s' "Tests cancelled."))) w =
  (Normal tt,
   {| testsState := <[i := cancelled s]> (testsState w);
      WORKER_POOL := WORKER_POOL w; exited := exited w;
      nextHandle := nextHandle w;
      trace := trace w ++ [cancel_notice s] |}).
Proof.
  intros Hs. destruct w as [ts pool ex nh tr]. simpl in Hs.
  assert (Hlt : i < length ts) by (apply lookup_lt_is_Some; eauto).
  unfold bind at 1. unfold set_isLoading. simpl. rewrite Hs.
  unfold bind at 1. unfold set_passed. simpl.
  rewrite list_lookup_insert_eq by assumption.
  unfold bind at 1. unfold read_test. simpl.
  rewrite list_insert_insert_eq.
  rewrite list_lookup_insert_eq by assumption.
  reflexivity.
Qed.

(** The [forEach] of the blocking worker's cancellation, seen from the
    index it has reached: the states before it are done, those from it on
    are still to visit. *)
Lemma forEach_cancel (todo done : list TestState)
    (pool : list Worker) (ex : list nat) (nh : nat) (tr : list Event) :
  for_range (length todo) (length done)
    (fun k =>
       w' <- get ;;
       match testsState w' !! k with
       | Some test =>
           if isLoading test then
             set_isLoading k false ;;
             set_passed k false ;;
             s <- read_test k ;;
             emit (updateConsole (console_cancelled s "Tests cancelled."))
           else ret tt
       | None => ret tt
       end)
    {| testsState := done ++ todo; WORKER_POOL := pool; exited := ex;
       nextHandle := nh; trace := tr |} =
  (Normal tt,
   {| testsState := done ++ cancel_states None todo; WORKER_POOL := pool;
      exited := ex; nextHandle := nh;
      trace := tr ++
        flat_map (fun s => if isLoading s then [cancel_notice s] else [])
          todo |}).
Proof.
  revert done tr. induction todo as [|s todo IH]; intros done tr.
  - simpl. rewrite !app_nil_r. reflexivity.
  - cbn [length for_range]. unfold bind at 1. unfold bind at 1.
    unfold get at 1. cbn [testsState].
    rewrite list_lookup_middle by reflexivity.
    assert (Hnext : forall x tr',
      for_range (length todo) (S (length done))
        (fun k =>
           w' <- get ;;
           match testsState w' !! k with
           | Some test =>
               if isLoading test then
                 set_isLoading k false ;;
                 set_passed k false ;;
                 s <- read_test k ;;
                 emit (updateConsole
                         (console_cancelled s "Tests cancelled."))
               else ret tt
           | None => ret tt
           end)
        {| testsState := done ++ x :: todo; WORKER_POOL := pool;
           exited := ex; nextHandle := nh; trace := tr' |} =
      (Normal tt,
       {| testsState := done ++ x :: cancel_states None todo;
          WORKER_POOL := pool; exited := ex; nextHandle := nh;
          trace := tr' ++
            flat_map
              (fun s => if isLoading s then [cancel_notice s] else [])
              todo |})).
    { intros x tr'. specialize (IH (done ++ [x]) tr').
      rewrite length_app, Nat.add_1_r, <- !app_assoc in IH. exact IH. }
    destruct (isLoading s) eqn:Hload.
    + rewrite (cancel_one (length done) s)
        by (cbn [testsState]; apply list_lookup_middle; reflexivity).
      cbn [testsState WORKER_POOL exited nextHandle trace].
      replace (<[length done := cancelled s]> (done ++ s :: todo))
        with (done ++ cancelled s :: todo).
      2:{ rewrite insert_app_r_alt by lia.
          rewrite Nat.sub_diag. reflexivity. }
      rewrite Hnext. cbn [cancel_states map flat_map]. rewrite Hload.
      rewrite <- app_assoc. reflexivity.
    + unfold ret at 1. rewrite Hnext.
      cbn [cancel_states map flat_map]. rewrite Hload. reflexivity.
Qed.

(** The cancellation branch, for an index that is in range when the
    worker owns one test. *)
Lemma cancellation_branch (i : option nat) (w : World) :
  (forall k, i = Some k -> is_Some (testsState w !! k)) ->
  (match i with
   | Some i =>
       set_isLoading i false ;;
       set_passed i false ;;
       s <- read_test i ;;
       emit (updateConsole (console_cancelled s "Tests cancelled."))
   | None =>
       testsState_forEach (fun k test =>
         if isLoading test then
           set_isLoading k false ;;
           set_passed k false ;;
           s <- read_test k ;;
           emit (updateConsole (console_cancelled s "Tests cancelled."))
         else ret tt)
   end ;;
   w' <- get ;;
   emit (updateTests (testsState w'))) w =
  (Normal tt,
   {| testsState := cancel_states i (testsState w);
      WORKER_POOL := WORKER_POOL w; exited := exited w;
      nextHandle := nextHandle w;
      trace := trace w ++ cancel_events i (testsState w) |}).
Proof.
  intros Hrange. unfold cancel_events.
  destruct i as [i|].
  - destruct (Hrange i eq_refl) as [s Hs].
    unfold bind at 1. rewrite (cancel_one i s w Hs).
    unfold cancel_states. rewrite Hs.
    unfold bind, get, emit, set_trace. simpl.
    rewrite <- app_assoc. reflexivity.
  - destruct w as [ts pool ex nh tr].
    unfold bind at 1. unfold testsState_forEach.
    unfold bind at 1. unfold get at 1. cbn [testsState].
    pose proof (forEach_cancel ts [] pool ex nh tr) as Hloop.
    cbn [length app] in Hloop. rewrite Hloop.
    unfold bind, get, emit, set_trace. simpl.
    rewrite <- app_assoc. reflexivity.
Qed.

(** The exit handler is: the cancellation branch when the exit code is 1,
    then the guarded [afterEach] hook, then the aggregation check. *)
Lemma handleWorkerExit_spec (exitCode : Z) (i : option nat)
    (afterEach : option Hook) (project : Project) (hints : list string)
    (lessonNumber : Z) (afterAll : option Hook) (w : World) :
  (exitCode = 1%Z -> forall k, i = Some k -> is_Some (testsState w !! k)) ->
  let ts := if (exitCode =? 1)%Z then cancel_states i (testsState w)
            else testsState w in
  let tr := if (exitCode =? 1)%Z
            then trace w ++ cancel_events i (testsState w)
            else trace w in
  handleWorkerExit env exitCode i afterEach project hints lessonNumber
    afterAll w =
  checkTestsCallback env project hints lessonNumber afterAll
    {| testsState := ts; WORKER_POOL := WORKER_POOL w; exited := exited w;
       nextHandle := nextHandle w;
       trace := tr ++
         match afterEach with
         | Some h => guarded_hook_events env "after-each" h tr
         | None => []
         end |}.
Proof.
  intros Hrange ts tr. unfold handleWorkerExit.
  unfold bind at 1.
  set (branch := (if (exitCode =? 1)%Z then _ else ret tt) : Js unit).
  assert (Hbranch : branch w =
    (Normal tt,
     {| testsState := ts; WORKER_POOL := WORKER_POOL w; exited := exited w;
        nextHandle := nextHandle w; trace := tr |})).
  { subst branch ts tr. destruct (exitCode =? 1)%Z eqn:Hcode.
    - apply cancellation_branch. apply Hrange. now apply Z.eqb_eq.
    - destruct w; reflexivity. }
  rewrite Hbranch. unfold bind at 1.
  destruct afterEach as [h|].
  - pose proof (guarded_hook_spec env "after-each" h
                  {| testsState := ts; WORKER_POOL := WORKER_POOL w;
                     exited := exited w; nextHandle := nextHandle w;
                     trace := tr |}) as Hh.
    change ("Starting: --" +:+ "after-each" +:+ "-- hook")
      with "Starting: --after-each-- hook" in Hh.
    change ("Finished: --" +:+ "after-each" +:+ "-- hook")
      with "Finished: --after-each-- hook" in Hh.
    change ("--" +:+ "after-each" +:+ "-- hook failed to run:")
      with "--after-each-- hook failed to run:" in Hh.
    rewrite Hh. reflexivity.
  - unfold try_catch, ret. rewrite app_nil_r. reflexivity.
Qed.

(** C4: when the blocking worker exits with code 1, the exit handler
    completes normally; every test that was still loading is now failed
    and settled, every other test is as it was; a ['Tests cancelled.']
    console entry has been published for each test that was loading, in
    order, followed by the whole list of states. *)
Theorem blocking_worker_cancelled (afterEach : option Hook)
    (project : Project) (hints : list string) (lessonNumber : Z)
    (afterAll : option Hook) (w : World) :
  exists (w' : World) (rest : list Event),
    handleWorkerExit env 1 None afterEach project hints lessonNumber
      afterAll w = (Normal tt, w') /\
    testsState w' =
      map (fun s =>
             if isLoading s then
               {| passed := false; testText := testText s;
                  testId := testId s; isLoading := false |}
             else s)
          (testsState w) /\
    trace w' = trace w ++
      flat_map
        (fun s =>
           if isLoading s then
             [updateConsole
                (console_cancelled
                   {| passed := false; testText := testText s;
                      testId := testId s; isLoading := false |}
                   "Tests cancelled.")]
           else [])
        (testsState w) ++
      [updateTests (testsState w')] ++ rest.
Proof.
  rewrite handleWorkerExit_spec by discriminate.
  rewrite checkTestsCallback_spec. cbv zeta.
  cbn [Z.eqb Pos.eqb testsState trace WORKER_POOL exited nextHandle].
  eexists. eexists. split; [reflexivity|].
  cbn [testsState trace]. split; [reflexivity|].
  unfold cancel_events. rewrite <- !app_assoc. reflexivity.
Qed.

(** C5: when the worker of test [i] exits with code 1, the exit handler
    completes normally; test [i] is now failed and settled, the state of
    every other test is as it was, and a ['Tests cancelled.'] console
    entry for test [i] has been published, followed by the whole list of
    states. *)
Theorem parallel_worker_cancelled (i : nat) (s : TestState)
    (afterEach : option Hook) (project : Project) (hints : list string)
    (lessonNumber : Z) (afterAll : option Hook) (w : World) :
  testsState w !! i = Some s ->
  exists (w' : World) (rest : list Event),
    handleWorkerExit env 1 (Some i) afterEach project hints lessonNumber
      afterAll w = (Normal tt, w') /\
    testsState w' !! i =
      Some {| passed := false; testText := testText s; testId := testId s;
              isLoading := false |} /\
    (forall j, j <> i -> testsState w' !! j = testsState w !! j) /\
    length (testsState w') = length (testsState w) /\
    trace w' = trace w ++
      [updateConsole
         (console_cancelled
            {| passed := false; testText := testText s; testId := testId s;
               isLoading := false |}
            "Tests cancelled.");
       updateTests (testsState w')] ++ rest.
Proof.
  intros Hs.
  rewrite handleWorkerExit_spec
    by (intros _ k [= <-]; rewrite Hs; eauto).
  rewrite checkTestsCallback_spec. cbv zeta.
  cbn [Z.eqb Pos.eqb testsState trace WORKER_POOL exited nextHandle].
  unfold cancel_events, cancel_states. rewrite Hs.
  eexists. eexists. split; [reflexivity|].
  cbn [testsState trace].
  assert (Hlt : i < length (testsState w))
    by (apply lookup_lt_is_Some; eauto).
  split; [apply list_lookup_insert_eq; assumption|].
  split; [intros j Hj; apply list_lookup_insert_ne; congruence|].
  split; [apply length_insert|].
  rewrite <- !app_assoc. reflexivity.
Qed.

(** C6: on any worker exit, with or without cancellation, the exit
    handler first publishes what the cancellation branch publishes (client
    updates only, none when the exit code is not 1), then makes the
    guarded [afterEach] invocation, and ends with the aggregation check,
    run in the world [mid] whose trace ends with that invocation.  The
    invocation is [guarded_hook_events]: when the hook's code throws it
    is the start line, the backend call, and the two log lines of the
    [catch] block; the aggregation check runs all the same, and its first
    call is the lesson-passed or the lesson-failed notification.  The
    handler completes normally. *)
Theorem afterEach_before_aggregation (exitCode : Z) (i : option nat)
    (h : Hook) (project : Project) (hints : list string)
    (lessonNumber : Z) (afterAll : option Hook) (w : World) :
  (exitCode = 1%Z -> forall k, i = Some k -> is_Some (testsState w !! k)) ->
  exists (published aggregation : list Event) (mid w' : World),
    (forall e, In e published -> is_client_update e = true) /\
    (exitCode <> 1%Z -> published = []) /\
    trace mid = trace w ++ published ++
      guarded_hook_events env "after-each" h (trace w ++ published) /\
    (forall call e,
       backend_call h = Some call ->
       hook_outcome env
         ((trace w ++ published)
          ++ [logover_debug "Starting: --after-each-- hook"]) h = Some e ->
       guarded_hook_events env "after-each" h (trace w ++ published) =
         [logover_debug "Starting: --after-each-- hook"; call;
          logover_error "--after-each-- hook failed to run:";
          logover_error_val e]) /\
    handleWorkerExit env exitCode i (Some h) project hints lessonNumber
      afterAll w = (Normal tt, w') /\
    checkTestsCallback env project hints lessonNumber afterAll mid
      = (Normal tt, w') /\
    trace w' = trace mid ++ aggregation /\
    exists rest,
      aggregation = onLessonPassed project :: rest
      \/ aggregation = onLessonFailed project :: rest.
Proof.
  intros Hrange.
  rewrite (handleWorkerExit_spec exitCode i (Some h) project hints
             lessonNumber afterAll w Hrange). cbv zeta.
  set (published :=
         if (exitCode =? 1)%Z then cancel_events i (testsState w) else []).
  assert (Htr : (if (exitCode =? 1)%Z
                 then trace w ++ cancel_events i (testsState w)
                 else trace w) = trace w ++ published).
  { subst published. destruct (exitCode =? 1)%Z;
      [reflexivity | symmetry; apply app_nil_r]. }
  rewrite Htr.
  set (mid := {| testsState := _; trace := _ |}).
  exists published. eexists. exists mid. eexists.
  split.
  { intros e He. subst published.
    destruct (exitCode =? 1)%Z; [|contradiction].
    unfold cancel_events in He. apply in_app_iff in He.
    destruct He as [He|[<-|[]]]; [|reflexivity].
    destruct i as [k|].
    - destruct (testsState w !! k); [|contradiction].
      destruct He as [<-|[]]. reflexivity.
    - apply in_flat_map in He. destruct He as (s & _ & He).
      destruct (isLoading s); [|contradiction].
      destruct He as [<-|[]]. reflexivity. }
  split.
  { intros Hne. subst published. apply Z.eqb_neq in Hne.
    rewrite Hne. reflexivity. }
  split; [subst mid; cbn [trace]; symmetry; apply app_assoc|].
  split.
  { intros call e Hcall Hthrow.
    exact (guarded_hook_events_throw env "after-each" h _ call e
             Hcall Hthrow). }
  rewrite checkTestsCallback_spec. cbv zeta.
  split; [reflexivity|]. split; [reflexivity|].
  cbn [trace]. split; [symmetry; apply app_assoc|].
  unfold progression_events.
  destruct (forallb passed (testsState mid)).
  - eexists. left. reflexivity.
  - eexists. right. reflexivity.
Qed.

End WorkerExit.

(** ** Worker messages *)

Section WorkerMessage.

Context (env : Collaborators).

Lemma js_or_translated (tr m : string) :
  tr <> "" -> js_or (Some tr) m = tr.
Proof.
  intros Htr. unfold js_or, truthy. case_bool_decide; [contradiction|].
  reflexivity.
Qed.

Lemma js_or_fallback (o : option string) (m : string) :
  o = None \/ o = Some "" -> js_or o m = m.
Proof. intros [-> | ->]; reflexivity. Qed.

(** C9: a message for test [k] whose error carries a non-empty message [m]
    is handled to the end; the console entry published for it carries the
    translation of [m] when [t] returns a non-empty one, and [m] itself
    when [t] returns [undefined] or the empty string; either way test [k]
    is settled with the reported [passed] value, and that state is what is
    published, next, to the client. *)
Theorem workerMessage_localizes (project : Project) (lesson : Lesson)
    (result : bool) (k : nat) (ty : option string) (m : string)
    (s : TestState) (w : World) :
  testsState w !! k = Some s ->
  m <> "" ->
  exists (w' : World) (localized : string) (before after : list Event),
    workerMessage env project lesson
      {| m_passed := result; m_testId := k;
         m_error := Some {| e_type := ty; e_message := Some m |} |} w
      = (Normal tt, w') /\
    (forall tr, t env m = Some tr -> tr <> "" -> localized = tr) /\
    (t env m = None \/ t env m = Some "" -> localized = m) /\
    testsState w' =
      <[k := {| passed := result; testText := testText s;
                testId := testId s; isLoading := false |}]>
        (testsState w) /\
    (forall e, In e before ->
       e = logover_error_test k {| e_type := ty; e_message := Some m |}) /\
    trace w' = trace w ++ before ++
      [updateConsole
         (console_error
            {| passed := result; testText := testText s;
               testId := testId s; isLoading := false |}
            {| e_type := ty; e_message := Some localized |});
       updateTest
         {| passed := result; testText := testText s; testId := testId s;
            isLoading := false |}] ++ after.
Proof.
  intros Hs Hm. destruct w as [ts pool ex nh tr]. cbn [testsState] in Hs.
  assert (Hlt : k < length ts) by (apply lookup_lt_is_Some; eauto).
  unfold workerMessage.
  cbn [m_passed m_testId m_error e_type e_message].
  unfold bind at 1. unfold set_isLoading. cbn [testsState]. rewrite Hs.
  unfold bind at 1. unfold set_passed, set_testsState. cbn [testsState].
  rewrite list_lookup_insert_eq by assumption.
  rewrite list_insert_insert_eq.
  cbn [WORKER_POOL exited nextHandle trace with_passed with_isLoading
       passed testText testId isLoading].
  assert (Htruthy : truthy m = true).
  { unfold truthy. case_bool_decide; [contradiction|reflexivity]. }
  rewrite Htruthy.
  case_bool_decide as Hty.
  - eexists. exists (js_or (t env m) m).
    exists [logover_error_test k {| e_type := ty; e_message := Some m |}].
    eexists.
    split.
    { js_run.
      repeat (rewrite list_lookup_insert_eq by assumption;
              cbn [testsState trace WORKER_POOL exited nextHandle]).
      rewrite checkTestsCallback_spec. reflexivity. }
    split; [intros tr' -> Htr; apply js_or_translated; assumption|].
    split; [apply js_or_fallback|].
    cbv zeta. cbn [testsState trace].
    split; [reflexivity|].
    split; [intros e [<-|[]]; reflexivity|].
    rewrite <- !app_assoc. reflexivity.
  - eexists. exists (js_or (t env m) m). exists []. eexists.
    split.
    { js_run.
      repeat (rewrite list_lookup_insert_eq by assumption;
              cbn [testsState trace WORKER_POOL exited nextHandle]).
      rewrite checkTestsCallback_spec. reflexivity. }
    split; [intros tr' -> Htr; apply js_or_translated; assumption|].
    split; [apply js_or_fallback|].
    cbv zeta. cbn [testsState trace].
    split; [reflexivity|].
    split; [intros e []|].
    rewrite <- !app_assoc. reflexivity.
Qed.

End WorkerMessage.

(** ** Starting a run *)

Section Dispatch.

Context (env : Collaborators).

Lemma initial_states_imap (project : Project) (tests : list Test) (i : nat) :
  initial_states project i tests
  = imap (fun k => initial_state project (i + k)) tests.
Proof.
  revert i. induction tests as [|test rest IH]; intros i; simpl.
  - reflexivity.
  - rewrite Nat.add_0_r, IH. f_equal. apply imap_ext.
    intros k x _. simpl. f_equal. lia.
Qed.

Lemma loaded_states_imap (project : Project) (tests : list Test) (i : nat) :
  loaded_states project i tests
  = imap (fun k test =>
            {| passed := false; testText := text test; testId := i + k;
               isLoading := true |}) tests.
Proof.
  revert i. induction tests as [|test rest IH]; intros i; simpl.
  - reflexivity.
  - rewrite Nat.add_0_r, IH. f_equal. apply imap_ext.
    intros k x _. simpl. f_equal. lia.
Qed.

(** The parallel loop, seen from the index it has reached. *)
Lemma spawn_parallel_spec (beforeEach : option Hook) (project : Project)
    (rest : list Test) (done : list TestState) (pool : list Worker)
    (ex : list nat) (nh : nat) (tr : list Event) :
  spawn_parallel beforeEach project (length done) rest
    {| testsState := done ++ initial_states project (length done) rest;
       WORKER_POOL := pool; exited := ex; nextHandle := nh; trace := tr |} =
  (Normal tt,
   {| testsState := done ++ loaded_states project (length done) rest;
      WORKER_POOL :=
        pool ++ parallel_workers beforeEach project nh (length done) rest;
      exited := ex; nextHandle := nh + length rest;
      trace :=
        tr ++ parallel_events beforeEach project nh (length done) rest |}).
Proof.
  revert done pool nh tr.
  induction rest as [|test rest IH]; intros done pool nh tr.
  - simpl. rewrite !app_nil_r, Nat.add_0_r. reflexivity.
  - cbn [spawn_parallel initial_states loaded_states parallel_workers
         parallel_events length].
    unfold bind at 1. unfold set_isLoading. cbn [testsState].
    rewrite list_lookup_middle by reflexivity.
    rewrite insert_app_r_alt by lia. rewrite Nat.sub_diag.
    cbn [insert list_insert].
    unfold createWorker, WORKER_POOL_push. js_run.
    rewrite list_lookup_middle by reflexivity.
    cbn [testsState trace WORKER_POOL exited nextHandle].
    specialize (IH (done ++ [with_isLoading true
                               (initial_state project (length done) test)])
                  (pool ++ [parallel_worker beforeEach project nh
                              (length done) test])
                  (S nh)
                  (((tr ++ [updateTest
                              (with_isLoading true
                                 (initial_state project (length done)
                                    test))]) ++
                    [new_Worker (parallel_worker beforeEach project nh
                                   (length done) test)]) ++
                   [postMessage (parallel_worker beforeEach project nh
                                   (length done) test)
                      (t_code test) (length done)])).
    rewrite length_app, Nat.add_1_r, <- !app_assoc in IH.
    cbn [app] in IH. unfold parallel_worker in IH |- *.
    rewrite <- !app_assoc. cbn [app]. rewrite IH.
    rewrite Nat.add_succ_r. reflexivity.
Qed.

(** The blocking loop, seen from the index it has reached. *)
Lemma post_blocking_spec (project : Project) (worker : Worker)
    (rest : list Test) (done : list TestState) (pool : list Worker)
    (ex : list nat) (nh : nat) (tr : list Event) :
  post_blocking worker (length done) rest
    {| testsState := done ++ initial_states project (length done) rest;
       WORKER_POOL := pool; exited := ex; nextHandle := nh; trace := tr |} =
  (Normal tt,
   {| testsState := done ++ loaded_states project (length done) rest;
      WORKER_POOL := pool; exited := ex; nextHandle := nh;
      trace := tr ++ blocking_events project worker (length done) rest |}).
Proof.
  revert done tr. induction rest as [|test rest IH]; intros done tr.
  - simpl. rewrite !app_nil_r. reflexivity.
  - cbn [post_blocking initial_states loaded_states blocking_events].
    unfold bind at 1. unfold set_isLoading. cbn [testsState].
    rewrite list_lookup_middle by reflexivity.
    rewrite insert_app_r_alt by lia. rewrite Nat.sub_diag.
    cbn [insert list_insert].
    js_run.
    rewrite list_lookup_middle by reflexivity.
    cbn [testsState trace WORKER_POOL exited nextHandle].
    specialize (IH (done ++ [with_isLoading true
                               (initial_state project (length done) test)])
                  ((tr ++ [updateTest
                             (with_isLoading true
                                (initial_state project (length done)
                                   test))]) ++
                   [postMessage worker (t_code test) (length done)])).
    rewrite length_app, Nat.add_1_r, <- !app_assoc in IH.
    cbn [app] in IH. rewrite <- !app_assoc. cbn [app]. rewrite IH.
    reflexivity.
Qed.

(** A run whose hooks and tests share one runner gets through the
    setup: the guarded [beforeAll] hook, the initial states, their
    publication and the dispatch. *)
Lemma runTests_started (project : Project) (lesson : Lesson) (x : Tester)
    (w : World) :
  first_non_null (testers lesson) = Some (Some x) ->
  (forall y, In (Some y) (testers lesson) ->
             tester_runner y = tester_runner x) ->
  runTests env project lesson w =
  (Normal tt,
   {| testsState := loaded_states project 0 (tests lesson);
      WORKER_POOL := WORKER_POOL w ++
        dispatch_workers (beforeEach lesson) project (tester_runner x)
          (nextHandle w) (tests lesson);
      exited := exited w;
      nextHandle := nextHandle w +
        (if blockingTests project then 1 else length (tests lesson));
      trace := trace w ++
        match beforeAll lesson with
        | Some h => guarded_hook_events env "before-all" h (trace w)
        | None => []
        end ++
        [onTestsStart project (imap (initial_state project) (tests lesson));
         updateTests (imap (initial_state project) (tests lesson));
         updateConsole (console_text "")] ++
        dispatch_events (beforeEach lesson) project (tester_runner x)
          (nextHandle w) (tests lesson) |}).
Proof.
  intros Hfirst Hsame. destruct w as [ts pool ex nh tr].
  unfold runTests. unfold bind at 1. unfold modify at 1.
  unfold try_catch at 1. unfold bind at 1.
  rewrite (first_runner_resolved _ _ _ Hfirst).
  unfold bind at 1. rewrite (check_runners_same _ _ _ Hsame).
  unfold bind at 1.
  set (hook := match beforeAll lesson with
               | Some h => try_catch _ _
               | None => ret tt
               end).
  set (hook_events := match beforeAll lesson with
                      | Some h => guarded_hook_events env "before-all" h _
                      | None => []
                      end).
  assert (Hhook : hook (set_testsState []
                          {| testsState := ts; WORKER_POOL := pool;
                             exited := ex; nextHandle := nh; trace := tr |}) =
    (Normal tt,
     {| testsState := []; WORKER_POOL := pool; exited := ex;
        nextHandle := nh; trace := tr ++ hook_events |})).
  { subst hook hook_events. cbn [trace].
    destruct (beforeAll lesson) as [h|].
    - pose proof (guarded_hook_spec env "before-all" h
                    {| testsState := []; WORKER_POOL := pool; exited := ex;
                       nextHandle := nh; trace := tr |}) as Hh.
      change ("Starting: --" +:+ "before-all" +:+ "-- hook")
        with "Starting: --before-all-- hook" in Hh.
      change ("Finished: --" +:+ "before-all" +:+ "-- hook")
        with "Finished: --before-all-- hook" in Hh.
      change ("--" +:+ "before-all" +:+ "-- hook failed to run:")
        with "--before-all-- hook failed to run:" in Hh.
      exact Hh.
    - unfold ret, set_testsState. cbn. rewrite app_nil_r. reflexivity. }
  rewrite Hhook. clearbody hook_events. clear Hhook hook.
  unfold bind at 1. unfold modify at 1. unfold set_testsState.
  cbn [testsState trace WORKER_POOL exited nextHandle].
  unfold bind at 1. unfold get at 1.
  unfold bind at 1. unfold emit at 1.
  unfold bind at 1. unfold emit at 1.
  unfold bind at 1. unfold emit at 1.
  unfold set_trace. cbn [testsState trace WORKER_POOL exited nextHandle].
  unfold dispatch_workers, dispatch_events.
  pose proof (initial_states_imap project (tests lesson) 0) as Hinit.
  cbn [Nat.add] in Hinit.
  change (fun k => initial_state project k) with (initial_state project)
    in Hinit.
  rewrite <- Hinit.
  destruct (blockingTests project).
  - unfold createWorker, WORKER_POOL_push. js_run.
    pose proof (post_blocking_spec project
                  (the_blocking_worker (beforeEach lesson) project
                     (tester_runner x) nh)
                  (tests lesson) [] (pool ++
                     [the_blocking_worker (beforeEach lesson) project
                        (tester_runner x) nh]) ex (S nh)) as Hloop.
    cbn [length app] in Hloop. unfold the_blocking_worker in Hloop |- *.
    rewrite Hloop. rewrite <- !app_assoc, Nat.add_1_r. reflexivity.
  - pose proof (spawn_parallel_spec (beforeEach lesson) project
                  (tests lesson) [] pool ex nh) as Hloop.
    cbn [length app] in Hloop. rewrite Hloop.
    rewrite <- !app_assoc. reflexivity.
Qed.

Lemma parallel_dispatch_covers (beforeEach : option Hook)
    (project : Project) (tests : list Test) (nh i k : nat) (test : Test) :
  tests !! k = Some test ->
  let worker := parallel_worker beforeEach project (nh + k) (i + k) test in
  In worker (parallel_workers beforeEach project nh i tests) /\
  In (new_Worker worker) (parallel_events beforeEach project nh i tests) /\
  In (postMessage worker (t_code test) (i + k))
     (parallel_events beforeEach project nh i tests).
Proof.
  revert nh i k. induction tests as [|t0 rest IH]; intros nh i k Hk.
  - discriminate.
  - destruct k as [|k].
    + injection Hk as ->. rewrite !Nat.add_0_r. simpl. tauto.
    + simpl in Hk. destruct (IH (S nh) (S i) k Hk) as (H1 & H2 & H3).
      rewrite !Nat.add_succ_r. simpl in *. tauto.
Qed.

Lemma blocking_dispatch_covers (project : Project) (worker : Worker)
    (tests : list Test) (i k : nat) (test : Test) :
  tests !! k = Some test ->
  In (postMessage worker (t_code test) (i + k))
     (blocking_events project worker i tests).
Proof.
  revert i k. induction tests as [|t0 rest IH]; intros i k Hk.
  - discriminate.
  - destruct k as [|k].
    + injection Hk as ->. rewrite Nat.add_0_r. simpl. tauto.
    + simpl in Hk. specialize (IH (S i) k Hk).
      rewrite Nat.add_succ_r. simpl in *. tauto.
Qed.

Lemma dispatch_events_no_backend_call (beforeEach : option Hook)
    (project : Project) (firstRunner : string) (nh : nat)
    (tests : list Test) :
  List.filter is_backend_call
    (dispatch_events beforeEach project firstRunner nh tests) = [].
Proof.
  unfold dispatch_events. destruct (blockingTests project).
  - simpl. generalize 0 as i. induction tests as [|t0 rest IH]; intros i.
    + reflexivity.
    + simpl. apply IH.
  - generalize 0 as i. revert nh.
    induction tests as [|t0 rest IH]; intros nh i.
    + reflexivity.
    + simpl. apply IH.
Qed.

Lemma hook_events_backend_call (phase : string) (h : Hook)
    (tr : list Event) :
  List.filter is_backend_call (guarded_hook_events env phase h tr) =
  match backend_call h with
  | Some call => [call]
  | None => []
  end.
Proof.
  unfold guarded_hook_events.
  destruct (backend_call h) as [call|] eqn:Hcall; [|reflexivity].
  assert (is_backend_call call = true) as Hc.
  { unfold backend_call in Hcall.
    repeat case_bool_decide; inversion Hcall; reflexivity. }
  simpl. rewrite Hc. destruct (hook_outcome env _ h); reflexivity.
Qed.

(** C8, as the code has it: in a run whose hooks and tests all use the
    runner of the [beforeAll] hook (the runs that pass the check of the
    runners), [runTests] completes normally, and what it adds to
    the trace is, in this order: the guarded [beforeAll] invocation, the
    publication of the initial states, and the dispatch.  The invocation
    creates no worker; the backend is called once in the whole run when
    the runner is ['Node'] or ['Python'] (not at all otherwise), and
    whether the hook's code returns or throws (the error is then logged
    by the two lines of the [catch] block) the initial states are
    published, every test
    ends up loading, and every test has been posted to a worker that has
    been created during the dispatch and is in the pool. *)
Theorem beforeAll_once_before_workers (project : Project) (lesson : Lesson)
    (h : Hook) (w : World) :
  beforeAll lesson = Some h ->
  (forall y, In (Some y) (testers lesson) -> tester_runner y = runner h) ->
  exists (w' : World) (dispatch : list Event),
    runTests env project lesson w = (Normal tt, w') /\
    trace w' = trace w ++
      guarded_hook_events env "before-all" h (trace w) ++
      [onTestsStart project (imap (initial_state project) (tests lesson));
       updateTests (imap (initial_state project) (tests lesson));
       updateConsole (console_text "")] ++ dispatch /\
    (forall e, In e (guarded_hook_events env "before-all" h (trace w)) ->
               is_new_Worker e = false) /\
    (forall call e,
       backend_call h = Some call ->
       hook_outcome env
         (trace w ++ [logover_debug "Starting: --before-all-- hook"]) h
         = Some e ->
       guarded_hook_events env "before-all" h (trace w) =
         [logover_debug "Starting: --before-all-- hook"; call;
          logover_error "--before-all-- hook failed to run:";
          logover_error_val e]) /\
    List.filter is_backend_call
      (guarded_hook_events env "before-all" h (trace w)
       ++ [onTestsStart project
             (imap (initial_state project) (tests lesson));
           updateTests (imap (initial_state project) (tests lesson));
           updateConsole (console_text "")] ++ dispatch)
    = match backend_call h with
      | Some call => [call]
      | None => []
      end /\
    testsState w' =
      imap (fun i test =>
              {| passed := false; testText := text test; testId := i;
                 isLoading := true |}) (tests lesson) /\
    (forall i test, tests lesson !! i = Some test ->
       exists worker,
         In worker (WORKER_POOL w') /\
         In (new_Worker worker) dispatch /\
         In (postMessage worker (t_code test) i) dispatch).
Proof.
  intros Hbefore Hsame.
  assert (Hfirst : first_non_null (testers lesson)
                   = Some (Some (T_hook h))).
  { unfold first_non_null, testers. rewrite Hbefore. reflexivity. }
  rewrite (runTests_started project lesson (T_hook h) w Hfirst Hsame).
  rewrite Hbefore. eexists. eexists. split; [reflexivity|].
  cbn [trace testsState WORKER_POOL tester_runner].
  split; [reflexivity|].
  split.
  { intros e He. apply guarded_hook_events_kind in He.
    destruct e; try discriminate; reflexivity. }
  split.
  { intros call e Hcall Hthrow.
    exact (guarded_hook_events_throw env "before-all" h _ call e
             Hcall Hthrow). }
  split.
  { rewrite !List.filter_app, hook_events_backend_call,
      dispatch_events_no_backend_call.
    simpl. apply app_nil_r. }
  split; [apply (loaded_states_imap project (tests lesson) 0)|].
  intros i test Hi. unfold dispatch_workers, dispatch_events.
  destruct (blockingTests project).
  - eexists. split; [apply in_app_iff; right; left; reflexivity|].
    split; [left; reflexivity|]. right.
    apply (blocking_dispatch_covers project _ (tests lesson) 0 i test Hi).
  - destruct (parallel_dispatch_covers (beforeEach lesson) project
                (tests lesson) (nextHandle w) 0 i test Hi)
      as (H1 & H2 & H3).
    eexists. split; [apply in_app_iff; right; exact H1|].
    split; [exact H2 | exact H3].
Qed.

End Dispatch.

(** ** The aggregation check on concrete runs *)

(** Every test of [passed_world] has passed; the project is at the first
    of its three lessons. *)
Lemma checkTestsCallback_all_passed_witness :
  forallb passed (testsState passed_world) = true /\
  exists (w' : World) (date : Z) (teardown : list Event),
    checkTestsCallback quiet_env parallel_project ["Try again"] 0
      (Some cleanup_hook) passed_world = (Normal tt, w') /\
    (forall name n,
       ~ In (setProjectConfig_currentLesson name n) teardown) /\
    (forall name, ~ In (runLesson name) teardown) /\
    (forall p, ~ In (onProjectFinished p) teardown) /\
    (isIntegrated parallel_project = true
       \/ 0%Z = (numberOfLessons parallel_project - 1)%Z ->
     trace w' = trace passed_world ++
       [onLessonPassed parallel_project; resetBottomPanel;
        onProjectFinished parallel_project;
        setProjectConfig_completedDate (dashedName parallel_project) date;
        handleProjectFinish] ++ teardown) /\
    (isIntegrated parallel_project = false
       /\ 0%Z <> (numberOfLessons parallel_project - 1)%Z ->
     trace w' = trace passed_world ++
       [onLessonPassed parallel_project; resetBottomPanel;
        setProjectConfig_currentLesson (dashedName parallel_project)
          (0 + 1);
        runLesson (dashedName parallel_project)] ++ teardown).
Proof.
  split; [reflexivity|].
  apply (checkTestsCallback_all_passed quiet_env parallel_project
           ["Try again"] 0%Z (Some cleanup_hook) passed_world).
  reflexivity.
Defined.

(** [after_message] is settled: the aggregation check can be run twice
    there. *)
Lemma checkTestsCallback_settled_again_witness :
  settled (testsState after_message) = true /\
  exists (w1 w2 : World) (new1 new2 : list Event),
    checkTestsCallback quiet_env parallel_project ["Try again"] 0
      (Some cleanup_hook) after_message = (Normal tt, w1) /\
    checkTestsCallback quiet_env parallel_project ["Try again"] 0
      (Some cleanup_hook) w1 = (Normal tt, w2) /\
    testsState w1 = testsState after_message /\
    trace w1 = trace after_message ++ new1 /\
    trace w2 = trace w1 ++ new2 /\
    List.filter is_progression new2 = List.filter is_progression new1 /\
    length (List.filter is_onTestsEnd new1) = 1 /\
    length (List.filter is_onTestsEnd new2) = 1 /\
    (Some cleanup_hook <> None ->
     length (List.filter is_afterAll_start new1) = 1 /\
     length (List.filter is_afterAll_start new2) = 1).
Proof.
  split; [reflexivity|].
  apply (checkTestsCallback_settled_again quiet_env parallel_project
           ["Try again"] 0%Z (Some cleanup_hook) after_message).
  reflexivity.
Defined.

(** C1: the code runs the teardown once for every invocation of the
    aggregation check on settled states, and both the message handler and
    the exit handler invoke it.  One test in parallel mode, with an
    [afterAll] hook: the worker's message settles the test and the
    aggregation check runs the teardown block; the worker then exits with
    code 0 and its exit handler invokes the aggregation check again on
    the same settled states.  The tests-end notification has then fired
    twice, and the [afterAll] hook has been started and evaluated twice.
    When the test has passed, the progression step is repeated as well:
    the lesson is advanced and the next lesson is run twice. *)
Lemma afterAll_and_tests_end_fire_twice :
  settled (testsState after_message) = true /\
  testsState after_exit = testsState after_message /\
  length (List.filter is_onTestsEnd (trace after_message)) = 1 /\
  length (List.filter is_onTestsEnd (trace after_exit)) = 2 /\
  length (List.filter is_afterAll_start (trace after_exit)) = 2 /\
  List.filter is_backend_call (trace after_exit) =
    [eval_ "cleanup()"; eval_ "cleanup()"] /\
  settled (testsState passed_after_message) = true /\
  testsState passed_after_exit = testsState passed_after_message /\
  length (List.filter is_onTestsEnd (trace passed_after_exit)) = 2 /\
  length (List.filter is_afterAll_start (trace passed_after_exit)) = 2 /\
  List.filter is_advance (trace passed_after_exit) =
    [onLessonPassed parallel_project; resetBottomPanel;
     setProjectConfig_currentLesson "learn-x" 1; runLesson "learn-x";
     onLessonPassed parallel_project; resetBottomPanel;
     setProjectConfig_currentLesson "learn-x" 1; runLesson "learn-x"].
Proof. vm_compute. repeat split. Qed.

Lemma checkTestsCallback_empties_pool_witness :
  settled (testsState passed_world) = true /\
  exists (w' : World) (before : list Event),
    checkTestsCallback quiet_env parallel_project ["Try again"] 0
      (Some cleanup_hook) passed_world = (Normal tt, w') /\
    trace w' = before ++
      [onTestsEnd parallel_project (testsState passed_world)] /\
    (forall h, Some cleanup_hook = Some h ->
       exists before' after',
         before = before' ++
           logover_debug "Starting: --after-all-- hook" :: after') /\
    WORKER_POOL w' = [].
Proof.
  split; [reflexivity|].
  apply (checkTestsCallback_empties_pool quiet_env parallel_project
           ["Try again"] 0%Z (Some cleanup_hook) passed_world).
  reflexivity.
Defined.

(** C7 fails where it says that only the workers of this run leave the
    pool.  The run of [one_test_lesson] starts while the pool holds the
    worker of another run; it creates one worker of its own, [worker_1];
    when its test settles, the pool is empty: the other run's worker is
    gone too. *)
Lemma pool_clear_removes_other_runs_worker :
  WORKER_POOL busy_world = [foreign_worker] /\
  WORKER_POOL busy_after_start = [foreign_worker; worker_1] /\
  List.filter is_new_Worker (trace busy_after_message)
    = [new_Worker worker_1] /\
  settled (testsState busy_after_message) = true /\
  WORKER_POOL busy_after_message = [].
Proof. vm_compute. repeat split. Qed.

(** C8 fails for a run that does not pass the check of the runners.
    [mixed_lesson] has a [beforeAll] hook on Node and a test on Python:
    [runTests] throws before it reaches the hook, so the hook is not
    started, its code is not evaluated, no test state is built or
    published and no worker is created; the run logs the error and
    ends. *)
Lemma beforeAll_skipped_on_runner_mismatch :
  beforeAll mixed_lesson = Some cleanup_hook /\
  tests mixed_lesson = [python_test] /\
  runTests quiet_env parallel_project mixed_lesson empty_world =
    (Normal tt,
     {| testsState := []; WORKER_POOL := []; exited := [];
        nextHandle := 0;
        trace := [logover_error "Test Error: ";
                  logover_error_val (RunnerMismatch "Python" "Node")] |}) /\
  List.filter is_backend_call
    (trace (snd (runTests quiet_env parallel_project mixed_lesson
                   empty_world))) = [] /\
  List.filter is_client_update
    (trace (snd (runTests quiet_env parallel_project mixed_lesson
                   empty_world))) = [] /\
  List.filter is_new_Worker
    (trace (snd (runTests quiet_env parallel_project mixed_lesson
                   empty_world))) = [].
Proof. vm_compute. repeat split. Qed.

(** ** The theorems on concrete runs *)

(** In [mixed_lesson] the first runner is that of the Node hook and the
    test uses Python. *)
Lemma runTests_runner_mismatch_witness :
  first_non_null (testers mixed_lesson) = Some (Some (T_hook cleanup_hook)) /\
  In (Some (T_test python_test)) (testers mixed_lesson) /\
  tester_runner (T_test python_test) <> tester_runner (T_hook cleanup_hook) /\
  exists found, found <> tester_runner (T_hook cleanup_hook) /\
    runTests quiet_env parallel_project mixed_lesson empty_world =
      (Normal tt,
       {| testsState := [];
          WORKER_POOL := WORKER_POOL empty_world;
          exited := exited empty_world;
          nextHandle := nextHandle empty_world;
          trace := trace empty_world ++
            [logover_error "Test Error: ";
             logover_error_val
               (RunnerMismatch found
                  (tester_runner (T_hook cleanup_hook)))] |}).
Proof.
  assert (H1 : first_non_null (testers mixed_lesson)
               = Some (Some (T_hook cleanup_hook))) by reflexivity.
  assert (H2 : In (Some (T_test python_test)) (testers mixed_lesson))
    by (simpl; tauto).
  assert (H3 : tester_runner (T_test python_test)
               <> tester_runner (T_hook cleanup_hook)) by discriminate.
  split; [exact H1|]. split; [exact H2|]. split; [exact H3|].
  exact (runTests_runner_mismatch quiet_env parallel_project mixed_lesson
           empty_world (T_hook cleanup_hook) (T_test python_test)
           H1 H2 H3).
Defined.

(** Test 0 of the started run is in range. *)
Lemma parallel_worker_cancelled_witness :
  testsState after_start !! 0 = Some loading_state /\
  exists (w' : World) (rest : list Event),
    handleWorkerExit quiet_env 1 (Some 0) None parallel_project
      ["Try again"] 0 (Some cleanup_hook) after_start = (Normal tt, w') /\
    testsState w' !! 0 =
      Some {| passed := false; testText := testText loading_state;
              testId := testId loading_state; isLoading := false |} /\
    (forall j, j <> 0 -> testsState w' !! j = testsState after_start !! j) /\
    length (testsState w') = length (testsState after_start) /\
    trace w' = trace after_start ++
      [updateConsole
         (console_cancelled
            {| passed := false; testText := testText loading_state;
               testId := testId loading_state; isLoading := false |}
            "Tests cancelled.");
       updateTests (testsState w')] ++ rest.
Proof.
  split; [reflexivity|].
  apply (parallel_worker_cancelled quiet_env 0 loading_state None
           parallel_project ["Try again"] 0%Z (Some cleanup_hook)
           after_start).
  reflexivity.
Defined.

(** The worker of test 0 is cancelled in the started run. *)
Lemma afterEach_before_aggregation_witness :
  (1%Z = 1%Z -> forall k, Some 0 = Some k ->
     is_Some (testsState after_start !! k)) /\
  exists (published aggregation : list Event) (mid w' : World),
    (forall e, In e published -> is_client_update e = true) /\
    (1%Z <> 1%Z -> published = []) /\
    trace mid = trace after_start ++ published ++
      guarded_hook_events quiet_env "after-each" cleanup_hook
        (trace after_start ++ published) /\
    (forall call e,
       backend_call cleanup_hook = Some call ->
       hook_outcome quiet_env
         ((trace after_start ++ published)
          ++ [logover_debug "Starting: --after-each-- hook"]) cleanup_hook
         = Some e ->
       guarded_hook_events quiet_env "after-each" cleanup_hook
         (trace after_start ++ published) =
         [logover_debug "Starting: --after-each-- hook"; call;
          logover_error "--after-each-- hook failed to run:";
          logover_error_val e]) /\
    handleWorkerExit quiet_env 1 (Some 0) (Some cleanup_hook)
      parallel_project ["Try again"] 0 None after_start = (Normal tt, w') /\
    checkTestsCallback quiet_env parallel_project ["Try again"] 0 None mid
      = (Normal tt, w') /\
    trace w' = trace mid ++ aggregation /\
    exists rest,
      aggregation = onLessonPassed parallel_project :: rest
      \/ aggregation = onLessonFailed parallel_project :: rest.
Proof.
  assert (H : 1%Z = 1%Z -> forall k, Some 0 = Some k ->
                is_Some (testsState after_start !! k)).
  { intros _ k [= <-]. exists loading_state. reflexivity. }
  split; [exact H|].
  exact (afterEach_before_aggregation quiet_env 1%Z (Some 0) cleanup_hook
           parallel_project ["Try again"] 0%Z None after_start H).
Defined.

(** Every hook and test of [hooked_lesson] runs on Node. *)
Lemma beforeAll_once_before_workers_witness :
  beforeAll hooked_lesson = Some cleanup_hook /\
  (forall y, In (Some y) (testers hooked_lesson) ->
             tester_runner y = runner cleanup_hook) /\
  exists (w' : World) (dispatch : list Event),
    runTests quiet_env parallel_project hooked_lesson empty_world
      = (Normal tt, w') /\
    trace w' = trace empty_world ++
      guarded_hook_events quiet_env "before-all" cleanup_hook
        (trace empty_world) ++
      [onTestsStart parallel_project
         (imap (initial_state parallel_project) (tests hooked_lesson));
       updateTests
         (imap (initial_state parallel_project) (tests hooked_lesson));
       updateConsole (console_text "")] ++ dispatch /\
    (forall e,
       In e (guarded_hook_events quiet_env "before-all" cleanup_hook
               (trace empty_world)) ->
       is_new_Worker e = false) /\
    (forall call e,
       backend_call cleanup_hook = Some call ->
       hook_outcome quiet_env
         (trace empty_world
          ++ [logover_debug "Starting: --before-all-- hook"]) cleanup_hook
         = Some e ->
       guarded_hook_events quiet_env "before-all" cleanup_hook
         (trace empty_world) =
         [logover_debug "Starting: --before-all-- hook"; call;
          logover_error "--before-all-- hook failed to run:";
          logover_error_val e]) /\
    List.filter is_backend_call
      (guarded_hook_events quiet_env "before-all" cleanup_hook
         (trace empty_world)
       ++ [onTestsStart parallel_project
             (imap (initial_state parallel_project) (tests hooked_lesson));
           updateTests
             (imap (initial_state parallel_project) (tests hooked_lesson));
           updateConsole (console_text "")] ++ dispatch)
    = match backend_call cleanup_hook with
      | Some call => [call]
      | None => []
      end /\
    testsState w' =
      imap (fun i test =>
              {| passed := false; testText := text test; testId := i;
                 isLoading := true |}) (tests hooked_lesson) /\
    (forall i test, tests hooked_lesson !! i = Some test ->
       exists worker,
         In worker (WORKER_POOL w') /\
         In (new_Worker worker) dispatch /\
         In (postMessage worker (t_code test) i) dispatch).
Proof.
  assert (H : forall y, In (Some y) (testers hooked_lesson) ->
                        tester_runner y = runner cleanup_hook).
  { intros y Hy. simpl in Hy.
    destruct Hy as [Hy|[Hy|[Hy|[Hy|[Hy|[]]]]]];
      try discriminate; injection Hy as <-; reflexivity. }
  split; [reflexivity|]. split; [exact H|].
  exact (beforeAll_once_before_workers quiet_env parallel_project
           hooked_lesson cleanup_hook empty_world eq_refl H).
Defined.

(** A failed assertion reported for test 0 of the started run. *)
Lemma workerMessage_localizes_witness :
  testsState after_start !! 0 = Some loading_state /\
  "expected 1 to equal 2" <> "" /\
  exists (w' : World) (localized : string) (before after : list Event),
    workerMessage translating_env parallel_project one_test_lesson
      {| m_passed := false; m_testId := 0;
         m_error := Some {| e_type := Some "AssertionError";
                            e_message := Some "expected 1 to equal 2" |} |}
      after_start = (Normal tt, w') /\
    (forall tr, t translating_env "expected 1 to equal 2" = Some tr ->
                tr <> "" -> localized = tr) /\
    (t translating_env "expected 1 to equal 2" = None
     \/ t translating_env "expected 1 to equal 2" = Some "" ->
     localized = "expected 1 to equal 2") /\
    testsState w' =
      <[0 := {| passed := false; testText := testText loading_state;
                testId := testId loading_state; isLoading := false |}]>
        (testsState after_start) /\
    (forall e, In e before ->
       e = logover_error_test 0
             {| e_type := Some "AssertionError";
                e_message := Some "expected 1 to equal 2" |}) /\
    trace w' = trace after_start ++ before ++
      [updateConsole
         (console_error
            {| passed := false; testText := testText loading_state;
               testId := testId loading_state; isLoading := false |}
            {| e_type := Some "AssertionError";
               e_message := Some localized |});
       updateTest
         {| passed := false; testText := testText loading_state;
            testId := testId loading_state; isLoading := false |}] ++ after.
Proof.
  assert (H : "expected 1 to equal 2" <> "") by discriminate.
  split; [reflexivity|]. split; [exact H|].
  exact (workerMessage_localizes translating_env parallel_project
           one_test_lesson false 0 (Some "AssertionError")
           "expected 1 to equal 2" loading_state after_start eq_refl H).
Defined.

(** ** A cancelled blocking run, step by step *)

Example blocking_start_pool :
  WORKER_POOL blocking_after_start = [shared_worker] /\
  testsState blocking_after_start =
    [{| passed := false; testText := "It passes"; testId := 0;
        isLoading := true |};
     {| passed := false; testText := "It also passes"; testId := 1;
        isLoading := true |}].
Proof. split; reflexivity. Qed.

Example blocking_exit_states :
  testsState blocking_after_exit =
    [{| passed := true; testText := "It passes"; testId := 0;
        isLoading := false |};
     {| passed := false; testText := "It also passes"; testId := 1;
        isLoading := false |}] /\
  WORKER_POOL blocking_after_exit = [] /\
  exited blocking_after_exit = [0].
Proof. repeat split; reflexivity. Qed.

Example blocking_exit_trace :
  drop (length (trace blocking_after_message)) (trace blocking_after_exit) =
    [updateConsole
       (console_cancelled
          {| passed := false; testText := "It also passes"; testId := 1;
             isLoading := false |} "Tests cancelled.");
     updateTests (testsState blocking_after_exit);
     logover_debug "Starting: --after-each-- hook";
     eval_ "cleanup()";
     logover_error "--after-each-- hook failed to run:";
     logover_error_val (Error "ENOENT: no such file");
     onLessonFailed blocking_project;
     updateHints ["Try again"];
     onTestsEnd blocking_project (testsState blocking_after_exit)].
Proof. vm_compute. reflexivity. Qed.

(** An exit with code 1 for a test index that [testsState] does not have
    throws before the [afterEach] hook is reached. *)
Example exit_out_of_range :
  fst (handleWorkerExit quiet_env 1 (Some 3) (Some cleanup_hook)
         parallel_project [] 0 None after_start) =
  Throw (TypeError
           "Cannot set properties of undefined (setting 'isLoading')").
Proof. reflexivity. Qed.

(** ** The worker pool *)

Lemma indexOf_absent (l : list Worker) (x : Worker) :
  (forall y, In y l -> handle y <> handle x) -> indexOf l x = None.
Proof.
  induction l as [|y l IH]; simpl; intros H; [reflexivity|].
  case_bool_decide as Hy.
  - destruct (H y (or_introl eq_refl) Hy).
  - rewrite IH by (intros z Hz; apply H; now right). reflexivity.
Qed.

Lemma indexOf_first (l1 l2 : list Worker) (y x : Worker) :
  (forall z, In z l1 -> handle z <> handle x) ->
  handle y = handle x ->
  indexOf (l1 ++ y :: l2) x = Some (length l1).
Proof.
  intros H Hy. induction l1 as [|z l1 IH]; simpl.
  - case_bool_decide; [reflexivity|contradiction].
  - case_bool_decide as Hz.
    + destruct (H z (or_introl eq_refl) Hz).
    + rewrite IH by (intros z' Hz'; apply H; now right). reflexivity.
Qed.

Lemma splice_middle {A} (l1 l2 : list A) (y : A) :
  splice (l1 ++ y :: l2) (length l1) 1 = l1 ++ l2.
Proof.
  unfold splice. rewrite take_app_length.
  rewrite Nat.add_1_r.
  change (l1 ++ y :: l2) with (l1 ++ [y] ++ l2).
  rewrite app_assoc.
  replace (S (length l1)) with (length (l1 ++ [y]))
    by (rewrite length_app; simpl; lia).
  rewrite drop_app_length. reflexivity.
Qed.

(** X1: removing a worker that is not in the pool changes nothing. *)
Theorem removeWorkerFromPool_absent (worker : Worker) (w : World) :
  (forall y, In y (WORKER_POOL w) -> handle y <> handle worker) ->
  removeWorkerFromPool worker w = (Normal tt, w).
Proof.
  intros H. unfold removeWorkerFromPool, bind, get.
  rewrite (indexOf_absent _ _ H). reflexivity.
Qed.

(** X2: removing a worker takes its first entry out of the pool and
    keeps the other entries, before and after it, in their order. *)
Theorem removeWorkerFromPool_first (worker y : Worker)
    (l1 l2 : list Worker) (w : World) :
  WORKER_POOL w = l1 ++ y :: l2 ->
  (forall z, In z l1 -> handle z <> handle worker) ->
  handle y = handle worker ->
  removeWorkerFromPool worker w =
  (Normal tt,
   {| testsState := testsState w; WORKER_POOL := l1 ++ l2;
      exited := exited w; nextHandle := nextHandle w; trace := trace w |}).
Proof.
  intros Hpool H Hy. unfold removeWorkerFromPool, bind, get.
  rewrite Hpool, (indexOf_first l1 l2 y worker H Hy).
  unfold modify, set_WORKER_POOL. rewrite splice_middle. reflexivity.
Qed.

(** X3: pushing a new worker and then removing it gives the pool back. *)
Theorem push_then_remove (worker : Worker) (w : World) :
  (forall y, In y (WORKER_POOL w) -> handle y <> handle worker) ->
  (WORKER_POOL_push worker ;; removeWorkerFromPool worker) w
  = (Normal tt, w).
Proof.
  intros H. destruct w as [ts pool ex nh tr]. simpl in H.
  unfold WORKER_POOL_push, removeWorkerFromPool, bind, modify, get,
    set_WORKER_POOL.
  cbn [testsState trace WORKER_POOL exited nextHandle].
  rewrite (indexOf_first pool [] worker worker H eq_refl).
  rewrite splice_middle, app_nil_r. reflexivity.
Qed.

(** ** More on the aggregation check and the exit handler *)

Section ExitAndAggregation.

Context (env : Collaborators).

Lemma progression_failed (project : Project) (hints : list string)
    (lessonNumber : Z) (ts : list TestState) (tr : list Event) :
  forallb passed ts = false ->
  progression_events env project hints lessonNumber ts tr
  = [onLessonFailed project; updateHints hints].
Proof. unfold progression_events. intros ->. reflexivity. Qed.

Lemma teardown_no_advance (project : Project) (afterAll : option Hook)
    (ts : list TestState) (tr : list Event) (e : Event) :
  In e (teardown_events env project afterAll ts tr) -> is_advance e = false.
Proof.
  intros He. apply teardown_events_kind in He.
  destruct He as [He| ->]; [|reflexivity].
  destruct e; try discriminate; reflexivity.
Qed.

(** X4: while some test is still loading, the aggregation check runs no
    teardown: it starts no hook, logs nothing, does not report the end of
    the tests, and leaves the pool and the test states as they are. *)
Theorem checkTestsCallback_not_settled (project : Project)
    (hints : list string) (lessonNumber : Z) (afterAll : option Hook)
    (w : World) :
  settled (testsState w) = false ->
  exists (w' : World) (new : list Event),
    checkTestsCallback env project hints lessonNumber afterAll w
      = (Normal tt, w') /\
    WORKER_POOL w' = WORKER_POOL w /\
    testsState w' = testsState w /\
    trace w' = trace w ++ new /\
    List.filter is_onTestsEnd new = [] /\
    List.filter is_hook_event new = [].
Proof.
  intros Hs. rewrite checkTestsCallback_spec. cbv zeta.
  unfold teardown_events. rewrite Hs, app_nil_r.
  eexists. eexists. split; [reflexivity|].
  cbn [testsState trace WORKER_POOL].
  split; [reflexivity|]. split; [reflexivity|]. split; [reflexivity|].
  unfold progression_events.
  destruct (forallb passed (testsState w));
    [destruct (isIntegrated project || _)%bool|]; split; reflexivity.
Qed.

(** X5: when some test has not passed, the aggregation check reports the
    lesson as failed and publishes the hints; what follows is the teardown
    block alone (hook events and the tests-end notification), so nothing
    is written to the project configuration and no lesson is run. *)
Theorem checkTestsCallback_some_failed (project : Project)
    (hints : list string) (lessonNumber : Z) (afterAll : option Hook)
    (w : World) :
  forallb passed (testsState w) = false ->
  exists (w' : World) (teardown : list Event),
    checkTestsCallback env project hints lessonNumber afterAll w
      = (Normal tt, w') /\
    trace w' = trace w ++
      [onLessonFailed project; updateHints hints] ++ teardown /\
    (forall e, In e teardown ->
       is_hook_event e = true \/ e = onTestsEnd project (testsState w)).
Proof.
  intros Hp. rewrite checkTestsCallback_spec. cbv zeta.
  rewrite (progression_failed _ _ _ _ _ Hp).
  eexists. eexists. split; [reflexivity|]. cbn [trace].
  split; [rewrite <- app_assoc; reflexivity|].
  intros e. apply teardown_events_kind.
Qed.

(** A message for a test index that [testsState] does not have makes
    the message handler throw at its first assignment: nothing is
    published and the aggregation check does not run. *)
Theorem workerMessage_out_of_range (project : Project) (lesson : Lesson)
    (message : Message) (w : World) :
  testsState w !! m_testId message = None ->
  workerMessage env project lesson message w =
  (Throw (TypeError
            "Cannot set properties of undefined (setting 'isLoading')"), w).
Proof.
  intros H. unfold workerMessage. unfold bind at 1. unfold set_isLoading.
  rewrite H. reflexivity.
Qed.

(** X6: an exit with code 1 for a test index that [testsState] does not
    have makes the exit handler throw at its first assignment: neither the
    [afterEach] hook nor the aggregation check runs, and the world is
    left as it was. *)
Theorem handleWorkerExit_out_of_range (i : nat) (afterEach : option Hook)
    (project : Project) (hints : list string) (lessonNumber : Z)
    (afterAll : option Hook) (w : World) :
  testsState w !! i = None ->
  handleWorkerExit env 1 (Some i) afterEach project hints lessonNumber
    afterAll w =
  (Throw (TypeError
            "Cannot set properties of undefined (setting 'isLoading')"), w).
Proof.
  intros H. unfold handleWorkerExit. cbn [Z.eqb Pos.eqb].
  unfold bind at 1. unfold bind at 1. unfold bind at 1.
  unfold set_isLoading. rewrite H. reflexivity.
Qed.

(** X7: an exit with a code other than 1 completes normally whatever
    index the worker carries and leaves the test states as they are.  It
    makes the guarded [afterEach] invocation, when there is a hook, and
    then runs the aggregation check; it republishes no test state: nothing
    it adds to the trace is a publication of the test list, of a test or
    of a console entry. *)
Theorem natural_exit_keeps_states (exitCode : Z) (i : option nat)
    (afterEach : option Hook) (project : Project) (hints : list string)
    (lessonNumber : Z) (afterAll : option Hook) (w : World) :
  exitCode <> 1%Z ->
  exists (w' : World) (aggregation : list Event),
    handleWorkerExit env exitCode i afterEach project hints lessonNumber
      afterAll w = (Normal tt, w') /\
    testsState w' = testsState w /\
    checkTestsCallback env project hints lessonNumber afterAll
      {| testsState := testsState w; WORKER_POOL := WORKER_POOL w;
         exited := exited w; nextHandle := nextHandle w;
         trace := trace w ++
           match afterEach with
           | Some h => guarded_hook_events env "after-each" h (trace w)
           | None => []
           end |} = (Normal tt, w') /\
    trace w' = trace w ++
      match afterEach with
      | Some h => guarded_hook_events env "after-each" h (trace w)
      | None => []
      end ++ aggregation /\
    (forall e,
       In e (match afterEach with
             | Some h => guarded_hook_events env "after-each" h (trace w)
             | None => []
             end ++ aggregation) ->
       (forall ts, e <> updateTests ts) /\
       (forall s, e <> updateTest s) /\
       (forall c, e <> updateConsole c)).
Proof.
  intros Hcode.
  rewrite handleWorkerExit_spec by (intros ->; contradiction).
  apply Z.eqb_neq in Hcode. rewrite Hcode.
  rewrite checkTestsCallback_spec. cbv zeta.
  cbn [testsState trace WORKER_POOL exited nextHandle].
  eexists. eexists. split; [reflexivity|]. cbn [testsState trace].
  split; [reflexivity|]. split; [reflexivity|].
  split; [rewrite <- !app_assoc; reflexivity|].
  intros e He. rewrite !in_app_iff in He. destruct He as [He|[He|He]].
  - destruct afterEach as [h|]; [|contradiction].
    apply guarded_hook_events_kind in He.
    destruct e; try discriminate; repeat split; intros; discriminate.
  - unfold progression_events in He.
    destruct (forallb passed (testsState w));
      [destruct (isIntegrated project || _)%bool|];
      simpl in He;
      intuition (subst; repeat split; intros; discriminate).
  - apply teardown_events_kind in He. destruct He as [He| ->].
    + destruct e; try discriminate; repeat split; intros; discriminate.
    + repeat split; intros; discriminate.
Qed.

Lemma cancelled_not_all_passed (ts : list TestState) (i : nat)
    (s : TestState) :
  ts !! i = Some s -> forallb passed (<[i := cancelled s]> ts) = false.
Proof.
  revert i. induction ts as [|x ts IH]; intros i Hi; [discriminate|].
  destruct i as [|i]; simpl.
  - reflexivity.
  - simpl in Hi. rewrite (IH i Hi). apply andb_false_r.
Qed.

(** X8: when the worker of test [i] exits with code 1, the aggregation
    check that follows reports the lesson as failed, whatever the test had
    reported before; nothing in what the exit handler adds to the trace
    moves the learner on (no lesson-passed or project-finished
    notification, no write to the project configuration, no run of the
    next lesson). *)
Theorem parallel_cancel_never_advances (i : nat) (s : TestState)
    (afterEach : option Hook) (project : Project) (hints : list string)
    (lessonNumber : Z) (afterAll : option Hook) (w : World) :
  testsState w !! i = Some s ->
  exists (w' : World) (new : list Event),
    handleWorkerExit env 1 (Some i) afterEach project hints lessonNumber
      afterAll w = (Normal tt, w') /\
    trace w' = trace w ++ new /\
    In (onLessonFailed project) new /\
    (forall e, In e new -> is_advance e = false).
Proof.
  intros Hs.
  rewrite handleWorkerExit_spec by (intros _ k [= <-]; rewrite Hs; eauto).
  rewrite checkTestsCallback_spec. cbv zeta.
  cbn [Z.eqb Pos.eqb testsState trace WORKER_POOL exited nextHandle].
  unfold cancel_events, cancel_states. rewrite Hs.
  rewrite (progression_failed _ _ _ _ _ (cancelled_not_all_passed _ _ _ Hs)).
  eexists. eexists. split; [reflexivity|]. cbn [trace].
  split; [rewrite <- !app_assoc; reflexivity|].
  split.
  { rewrite !in_app_iff. simpl. tauto. }
  intros e He. rewrite !in_app_iff in He.
  destruct He as [He|[He|[He|[He|He]]]].
  - destruct He as [<-|[]]. reflexivity.
  - destruct He as [<-|[]]. reflexivity.
  - destruct afterEach as [h|]; [|contradiction].
    apply guarded_hook_events_kind in He.
    destruct e; try discriminate; reflexivity.
  - simpl in He. intuition (subst; reflexivity).
  - eapply teardown_no_advance. eassumption.
Qed.

Lemma cancel_states_settled (ts : list TestState) :
  settled (cancel_states None ts) = true.
Proof.
  unfold settled, cancel_states.
  induction ts as [|s ts IH]; simpl; [reflexivity|].
  rewrite IH. destruct (isLoading s) eqn:Hs; simpl; [reflexivity|].
  rewrite Hs. reflexivity.
Qed.

Lemma cancel_states_not_all_passed (ts : list TestState) (s : TestState) :
  In s ts -> isLoading s = true ->
  forallb passed (cancel_states None ts) = false.
Proof.
  unfold cancel_states.
  induction ts as [|x ts IH]; simpl; intros Hin Hs; [contradiction|].
  destruct Hin as [->|Hin].
  - rewrite Hs. reflexivity.
  - rewrite (IH Hin Hs). apply andb_false_r.
Qed.

Lemma filter_client_events_no_tests_end (i : option nat)
    (ts : list TestState) :
  List.filter is_onTestsEnd (cancel_events i ts) = [].
Proof.
  apply filter_none. intros e He. unfold cancel_events in He.
  apply in_app_iff in He. destruct He as [He|[<-|[]]]; [|reflexivity].
  destruct i as [k|].
  - destruct (ts !! k); [|contradiction]. destruct He as [<-|[]].
    reflexivity.
  - apply in_flat_map in He. destruct He as (s & _ & He).
    destruct (isLoading s); [|contradiction].
    destruct He as [<-|[]]. reflexivity.
Qed.

(** X9: the exit of the blocking worker with code 1 always ends the
    run: whatever the test states were, every test is settled afterwards,
    the tests-end notification has been sent exactly once by this exit,
    and the pool is empty. *)
Theorem blocking_cancel_ends_run (afterEach : option Hook)
    (project : Project) (hints : list string) (lessonNumber : Z)
    (afterAll : option Hook) (w : World) :
  exists (w' : World) (new : list Event),
    handleWorkerExit env 1 None afterEach project hints lessonNumber
      afterAll w = (Normal tt, w') /\
    settled (testsState w') = true /\
    WORKER_POOL w' = [] /\
    trace w' = trace w ++ new /\
    length (List.filter is_onTestsEnd new) = 1.
Proof.
  rewrite handleWorkerExit_spec by discriminate.
  rewrite checkTestsCallback_spec. cbv zeta.
  cbn [Z.eqb Pos.eqb testsState trace WORKER_POOL exited nextHandle].
  rewrite cancel_states_settled.
  eexists. eexists. split; [reflexivity|].
  cbn [testsState trace WORKER_POOL].
  split; [apply cancel_states_settled|]. split; [reflexivity|].
  split; [rewrite <- !app_assoc; reflexivity|].
  rewrite !List.filter_app, filter_client_events_no_tests_end.
  rewrite (filter_none is_onTestsEnd
             (match afterEach with
              | Some h => guarded_hook_events env "after-each" h _
              | None => []
              end)).
  2:{ intros e He. destruct afterEach as [h|]; [|contradiction].
      apply guarded_hook_events_kind in He.
      destruct e; try discriminate; reflexivity. }
  destruct (settled_teardown_counts env project hints lessonNumber afterAll
              (cancel_states None (testsState w))
              (trace w ++ cancel_events None (testsState w) ++
               match afterEach with
               | Some h =>
                   guarded_hook_events env "after-each" h
                     (trace w ++ cancel_events None (testsState w))
               | None => []
               end)
              (cancel_states_settled _)) as (H1 & _ & _).
  cbv zeta in H1. rewrite List.filter_app in H1.
  rewrite <- !app_assoc in H1. cbn [app]. exact H1.
Qed.

(** X10: when the blocking worker exits with code 1 while some test is
    still loading, the lesson is reported as failed and nothing in what
    the exit handler adds to the trace moves the learner on. *)
Theorem blocking_cancel_never_advances (s : TestState)
    (afterEach : option Hook) (project : Project) (hints : list string)
    (lessonNumber : Z) (afterAll : option Hook) (w : World) :
  In s (testsState w) -> isLoading s = true ->
  exists (w' : World) (new : list Event),
    handleWorkerExit env 1 None afterEach project hints lessonNumber
      afterAll w = (Normal tt, w') /\
    trace w' = trace w ++ new /\
    In (onLessonFailed project) new /\
    (forall e, In e new -> is_advance e = false).
Proof.
  intros Hin Hs.
  rewrite handleWorkerExit_spec by discriminate.
  rewrite checkTestsCallback_spec. cbv zeta.
  cbn [Z.eqb Pos.eqb testsState trace WORKER_POOL exited nextHandle].
  rewrite (progression_failed _ _ _ _ _
             (cancel_states_not_all_passed _ _ Hin Hs)).
  eexists. eexists. split; [reflexivity|]. cbn [trace].
  split; [rewrite <- !app_assoc; reflexivity|].
  split.
  { rewrite !in_app_iff. simpl. tauto. }
  intros e He. rewrite !in_app_iff in He.
  destruct He as [He|[He|[He|He]]].
  - unfold cancel_events in He. apply in_app_iff in He.
    destruct He as [He|[<-|[]]]; [|reflexivity].
    apply in_flat_map in He. destruct He as (s0 & _ & He).
    destruct (isLoading s0); [|contradiction].
    destruct He as [<-|[]]. reflexivity.
  - destruct afterEach as [h|]; [|contradiction].
    apply guarded_hook_events_kind in He.
    destruct e; try discriminate; reflexivity.
  - simpl in He. intuition (subst; reflexivity).
  - eapply teardown_no_advance. eassumption.
Qed.

End ExitAndAggregation.

(** ** The exit listener, the message handler and the start of a run *)

Section Listeners.

Context (env : Collaborators).

Lemma remove_first_entry (worker y : Worker) (l1 l2 : list Worker)
    (ts : list TestState) (ex : list nat) (nh : nat) (tr : list Event) :
  (forall z, In z l1 -> handle z <> handle worker) ->
  handle y = handle worker ->
  removeWorkerFromPool worker
    {| testsState := ts; WORKER_POOL := l1 ++ y :: l2; exited := ex;
       nextHandle := nh; trace := tr |} =
  (Normal tt,
   {| testsState := ts; WORKER_POOL := l1 ++ l2; exited := ex;
      nextHandle := nh; trace := tr |}).
Proof.
  intros H Hy. unfold removeWorkerFromPool, bind, get.
  cbn [WORKER_POOL]. rewrite (indexOf_first l1 l2 y worker H Hy).
  unfold modify, set_WORKER_POOL. rewrite splice_middle. reflexivity.
Qed.

(** X11: the ['exit'] listener flags the worker as exited and takes its
    entry out of the pool before it handles the exit; afterwards the pool
    is empty when every test is settled, and otherwise it is the old pool
    without that entry. *)
Theorem worker_on_exit_pool (project : Project) (lesson : Lesson)
    (worker y : Worker) (l1 l2 : list Worker) (i : option nat)
    (exitCode : Z) (w : World) :
  WORKER_POOL w = l1 ++ y :: l2 ->
  (forall z, In z l1 -> handle z <> handle worker) ->
  handle y = handle worker ->
  (exitCode = 1%Z -> forall k, i = Some k -> is_Some (testsState w !! k)) ->
  exists w' : World,
    worker_on_exit env project lesson worker i exitCode w
      = (Normal tt, w') /\
    exited w' = handle worker :: exited w /\
    WORKER_POOL w' = if settled (testsState w') then [] else l1 ++ l2.
Proof.
  intros Hpool H Hy Hrange. destruct w as [ts pool ex nh tr].
  cbn [WORKER_POOL testsState] in Hpool, Hrange. subst pool.
  unfold worker_on_exit. unfold bind at 1. unfold modify, set_exited.
  cbn [testsState trace WORKER_POOL exited nextHandle].
  unfold bind at 1. rewrite (remove_first_entry worker y l1 l2 _ _ _ _ H Hy).
  rewrite handleWorkerExit_spec by exact Hrange.
  rewrite checkTestsCallback_spec. cbv zeta.
  eexists. split; [reflexivity|].
  cbn [testsState trace WORKER_POOL exited nextHandle].
  split; reflexivity.
Qed.

Lemma parallel_workers_imap (beforeEach : option Hook) (project : Project)
    (tests : list Test) (nh i : nat) :
  parallel_workers beforeEach project nh i tests
  = imap (fun k test =>
            {| handle := nh + k; w_name := worker_ (i + k);
               w_runner := t_runner test; w_beforeEach := beforeEach;
               w_project := project |}) tests.
Proof.
  revert nh i. induction tests as [|test rest IH]; intros nh i; simpl.
  - reflexivity.
  - rewrite !Nat.add_0_r, IH. unfold parallel_worker. f_equal.
    apply imap_ext. intros k x _. simpl.
    rewrite !Nat.add_succ_r. reflexivity.
Qed.

Lemma blocking_events_posts (project : Project) (worker : Worker)
    (tests : list Test) (i : nat) (e : Event) :
  In e (blocking_events project worker i tests) ->
  is_new_Worker e = false /\
  forall wk c k, e = postMessage wk c k -> wk = worker.
Proof.
  revert i. induction tests as [|test rest IH]; intros i; simpl.
  - contradiction.
  - intros [<-|[<-|He]].
    + split; [reflexivity|]. discriminate.
    + split; [reflexivity|]. intros wk c k [= <- _ _]. reflexivity.
    + eapply IH. eassumption.
Qed.

(** X12: in blocking mode a run that passes the runner check creates
    exactly one worker, named ['blocking-worker'], for the first runner,
    whatever the number of tests; it is appended to the pool and every
    test is posted to it. *)
Theorem runTests_blocking_one_worker (project : Project) (lesson : Lesson)
    (x : Tester) (w : World) :
  first_non_null (testers lesson) = Some (Some x) ->
  (forall y, In (Some y) (testers lesson) ->
             tester_runner y = tester_runner x) ->
  blockingTests project = true ->
  let worker :=
    {| handle := nextHandle w; w_name := blocking_worker;
       w_runner := tester_runner x; w_beforeEach := beforeEach lesson;
       w_project := project |} in
  exists (w' : World) (new : list Event),
    runTests env project lesson w = (Normal tt, w') /\
    WORKER_POOL w' = WORKER_POOL w ++ [worker] /\
    trace w' = trace w ++ new /\
    List.filter is_new_Worker new = [new_Worker worker] /\
    (forall wk c k, In (postMessage wk c k) new -> wk = worker) /\
    (forall k test, tests lesson !! k = Some test ->
                    In (postMessage worker (t_code test) k) new).
Proof.
  intros Hfirst Hsame Hblocking worker.
  rewrite (runTests_started env project lesson x w Hfirst Hsame).
  unfold dispatch_workers, dispatch_events. rewrite Hblocking.
  fold worker. change (the_blocking_worker (beforeEach lesson) project
                         (tester_runner x) (nextHandle w)) with worker.
  eexists. eexists. split; [reflexivity|].
  cbn [testsState trace WORKER_POOL].
  split; [reflexivity|]. split; [reflexivity|].
  assert (Hhook : forall e,
            In e (match beforeAll lesson with
                  | Some h => guarded_hook_events env "before-all" h (trace w)
                  | None => []
                  end) -> is_hook_event e = true).
  { intros e He. destruct (beforeAll lesson) as [h|]; [|contradiction].
    eapply guarded_hook_events_kind. eassumption. }
  split.
  { rewrite !List.filter_app.
    rewrite (filter_none is_new_Worker
               (match beforeAll lesson with
                | Some h => guarded_hook_events env "before-all" h (trace w)
                | None => []
                end)).
    2:{ intros e He. apply Hhook in He.
        destruct e; try discriminate; reflexivity. }
    cbn [List.filter is_new_Worker app].
    rewrite (filter_none is_new_Worker (blocking_events _ _ _ _));
      [reflexivity|].
    intros e He. eapply blocking_events_posts. eassumption. }
  split.
  { intros wk c k Hin. rewrite !in_app_iff in Hin.
    destruct Hin as [Hin|[Hin|Hin]].
    - apply Hhook in Hin. discriminate.
    - simpl in Hin. intuition discriminate.
    - destruct Hin as [Hin|Hin]; [discriminate|].
      eapply blocking_events_posts; [eassumption|reflexivity]. }
  intros k test Hk. rewrite !in_app_iff. right. right. right.
  apply (blocking_dispatch_covers project worker (tests lesson) 0 k test Hk).
Qed.

(** X13: in parallel mode a run that passes the runner check creates one
    worker per test, in the order of the tests: the worker of test [k] is
    named [`worker-${k}`], uses the runner of that test and takes the
    [k]-th handle from the next free one; the workers are appended to the
    pool in that order. *)
Theorem runTests_parallel_worker_per_test (project : Project)
    (lesson : Lesson) (x : Tester) (w : World) :
  first_non_null (testers lesson) = Some (Some x) ->
  (forall y, In (Some y) (testers lesson) ->
             tester_runner y = tester_runner x) ->
  blockingTests project = false ->
  exists w' : World,
    runTests env project lesson w = (Normal tt, w') /\
    WORKER_POOL w' = WORKER_POOL w ++
      imap (fun k test =>
              {| handle := nextHandle w + k; w_name := worker_ k;
                 w_runner := t_runner test;
                 w_beforeEach := beforeEach lesson;
                 w_project := project |}) (tests lesson) /\
    nextHandle w' = nextHandle w + length (tests lesson).
Proof.
  intros Hfirst Hsame Hparallel.
  rewrite (runTests_started env project lesson x w Hfirst Hsame).
  unfold dispatch_workers. rewrite Hparallel.
  eexists. split; [reflexivity|]. cbn [WORKER_POOL nextHandle].
  split; [|reflexivity].
  rewrite parallel_workers_imap. reflexivity.
Qed.

(** X14: the runner check compares the runners with each other, not
    with the runners the hooks can execute.  When every hook and test uses
    the runner of the [beforeAll] hook and that runner is neither ['Node']
    nor ['Python'], the hook's code is not evaluated, the unsupported
    runner error is logged, and the run goes on: the states are published
    and the workers are created for that runner. *)
Theorem runTests_unsupported_runner (project : Project) (lesson : Lesson)
    (h : Hook) (w : World) :
  beforeAll lesson = Some h ->
  (forall y, In (Some y) (testers lesson) -> tester_runner y = runner h) ->
  runner h <> "Node" -> runner h <> "Python" ->
  exists w' : World,
    runTests env project lesson w = (Normal tt, w') /\
    trace w' = trace w ++
      [logover_debug "Starting: --before-all-- hook";
       logover_error "--before-all-- hook failed to run:";
       logover_error_val (Error ("Unsupported runner: " +:+ runner h));
       onTestsStart project (imap (initial_state project) (tests lesson));
       updateTests (imap (initial_state project) (tests lesson));
       updateConsole (console_text "")] ++
      dispatch_events (beforeEach lesson) project (runner h)
        (nextHandle w) (tests lesson) /\
    length (WORKER_POOL w') = length (WORKER_POOL w) +
      (if blockingTests project then 1 else length (tests lesson)).
Proof.
  intros Hbefore Hsame Hnode Hpython.
  assert (Hfirst : first_non_null (testers lesson)
                   = Some (Some (T_hook h))).
  { unfold first_non_null, testers. rewrite Hbefore. reflexivity. }
  rewrite (runTests_started env project lesson (T_hook h) w Hfirst Hsame).
  rewrite Hbefore. eexists. split; [reflexivity|].
  cbn [trace WORKER_POOL tester_runner].
  split.
  { unfold guarded_hook_events, backend_call.
    rewrite !bool_decide_eq_false_2 by assumption. reflexivity. }
  rewrite length_app. f_equal. unfold dispatch_workers.
  destruct (blockingTests project); [reflexivity|].
  rewrite parallel_workers_imap. apply length_imap.
Qed.

(** The message handler, for a test index in range: the two assignments,
    the publications, then the aggregation check. *)
Lemma workerMessage_spec (project : Project) (lesson : Lesson)
    (message : Message) (s : TestState) (w : World) :
  testsState w !! m_testId message = Some s ->
  let s' := {| passed := m_passed message; testText := testText s;
               testId := testId s; isLoading := false |} in
  workerMessage env project lesson message w =
  checkTestsCallback env project (hints lesson) (currentLesson project)
    (afterAll lesson)
    {| testsState := <[m_testId message := s']> (testsState w);
       WORKER_POOL := WORKER_POOL w; exited := exited w;
       nextHandle := nextHandle w;
       trace := trace w ++
         message_events env (m_testId message) s' (m_error message) |}.
Proof.
  intros Hs s'. destruct w as [ts pool ex nh tr]. cbn [testsState] in Hs.
  assert (Hlt : m_testId message < length ts)
    by (apply lookup_lt_is_Some; eauto).
  unfold workerMessage.
  unfold bind at 1. unfold set_isLoading. cbn [testsState]. rewrite Hs.
  unfold bind at 1. unfold set_passed, set_testsState. cbn [testsState].
  rewrite list_lookup_insert_eq by assumption.
  rewrite list_insert_insert_eq.
  cbn [WORKER_POOL exited nextHandle trace with_passed with_isLoading
       passed testText testId isLoading].
  fold s'. unfold message_events, localized_error.
  destruct (m_error message) as [err|].
  - case_bool_decide; js_run;
      repeat (rewrite list_lookup_insert_eq by assumption;
              cbn [testsState trace WORKER_POOL exited nextHandle]);
      rewrite ?app_nil_r, <- ?app_assoc; reflexivity.
  - js_run.
    repeat (rewrite list_lookup_insert_eq by assumption;
            cbn [testsState trace WORKER_POOL exited nextHandle]).
    reflexivity.
Qed.

Lemma aggregation_events_kind (project : Project) (hints : list string)
    (lessonNumber : Z) (afterAll : option Hook) (ts : list TestState)
    (tr tr' : list Event) (e : Event) :
  In e (progression_events env project hints lessonNumber ts tr ++
        teardown_events env project afterAll ts tr') ->
  (forall c, e <> updateConsole c) /\
  (forall k err, e <> logover_error_test k err).
Proof.
  intros He. apply in_app_iff in He. destruct He as [He|He].
  - unfold progression_events in He.
    destruct (forallb passed ts);
      [destruct (isIntegrated project || _)%bool|];
      simpl in He; intuition (subst; discriminate).
  - apply teardown_events_kind in He. destruct He as [He| ->].
    + destruct e; try discriminate; split; intros; discriminate.
    + split; intros; discriminate.
Qed.

(** X15: when the error of a message has no message, or an empty one,
    it is published as it came: the translation is not involved; the test
    is settled with the reported [passed] value. *)
Theorem workerMessage_error_without_message (project : Project)
    (lesson : Lesson) (result : bool) (k : nat) (err : WorkerError)
    (s : TestState) (w : World) :
  testsState w !! k = Some s ->
  e_message err = None \/ e_message err = Some "" ->
  exists (w' : World) (before after : list Event),
    workerMessage env project lesson
      {| m_passed := result; m_testId := k; m_error := Some err |} w
      = (Normal tt, w') /\
    testsState w' =
      <[k := {| passed := result; testText := testText s;
                testId := testId s; isLoading := false |}]>
        (testsState w) /\
    (forall e, In e before -> e = logover_error_test k err) /\
    trace w' = trace w ++ before ++
      [updateConsole
         (console_error
            {| passed := result; testText := testText s;
               testId := testId s; isLoading := false |} err);
       updateTest
         {| passed := result; testText := testText s; testId := testId s;
            isLoading := false |}] ++ after.
Proof.
  intros Hs Hmsg.
  rewrite (workerMessage_spec project lesson
             {| m_passed := result; m_testId := k; m_error := Some err |}
             s w Hs). cbv zeta.
  cbn [m_passed m_testId m_error].
  rewrite checkTestsCallback_spec. cbv zeta.
  cbn [testsState trace WORKER_POOL exited nextHandle].
  unfold message_events.
  assert (localized_error env err = err) as ->.
  { unfold localized_error. destruct Hmsg as [-> | ->]; reflexivity. }
  eexists.
  exists (if bool_decide (e_type err <> Some "AssertionError")
          then [logover_error_test k err] else []).
  eexists. split; [reflexivity|]. cbn [testsState trace].
  split; [reflexivity|].
  split.
  { intros e He. case_bool_decide; [|contradiction].
    destruct He as [<-|[]]. reflexivity. }
  rewrite <- !app_assoc. reflexivity.
Qed.

(** X16: the message handler writes the error of a failed test to the
    server log unless its type is ['AssertionError']: for an assertion
    error nothing of what the handler adds to the trace is such a log
    line, for any other error the first thing added is the log line with
    the error as it came. *)
Theorem workerMessage_logs_unexpected_errors (project : Project)
    (lesson : Lesson) (result : bool) (k : nat) (err : WorkerError)
    (s : TestState) (w : World) :
  testsState w !! k = Some s ->
  exists (w' : World) (new : list Event),
    workerMessage env project lesson
      {| m_passed := result; m_testId := k; m_error := Some err |} w
      = (Normal tt, w') /\
    trace w' = trace w ++ new /\
    (e_type err = Some "AssertionError" ->
     forall k' err', ~ In (logover_error_test k' err') new) /\
    (e_type err <> Some "AssertionError" ->
     exists rest, new = logover_error_test k err :: rest).
Proof.
  intros Hs.
  rewrite (workerMessage_spec project lesson
             {| m_passed := result; m_testId := k; m_error := Some err |}
             s w Hs). cbv zeta.
  cbn [m_passed m_testId m_error].
  rewrite checkTestsCallback_spec. cbv zeta.
  cbn [testsState trace WORKER_POOL exited nextHandle].
  unfold message_events.
  eexists. eexists. split; [reflexivity|]. cbn [trace].
  split; [rewrite <- !app_assoc; reflexivity|].
  split.
  - intros Hty k' err' Hin.
    rewrite bool_decide_eq_false_2 in Hin by (intros Hne; contradiction).
    cbn [app] in Hin.
    destruct Hin as [Hin|[Hin|Hin]]; try discriminate.
    apply aggregation_events_kind in Hin. destruct Hin as [_ Hin].
    eapply Hin. reflexivity.
  - intros Hty. rewrite bool_decide_eq_true_2 by assumption.
    eexists. reflexivity.
Qed.


End Listeners.

(** ** Properties of the seed module *)

Module SeedProofs.

Import Seed.

Section Commands.

Context (env : Collaborators).

Lemma executed_app (a b : list Event) :
  executed (a ++ b) = executed a ++ executed b.
Proof. apply omap_app. Qed.

(** The commands [runCommands] gets through without stopping: those
    that resolve with an empty [stderr]. *)
Lemma runCommands_clean_prefix (pre rest : list string) (tr : list Event) :
  (forall c, In c pre ->
     forall h, exists out, exec env h c None = Ok (out, "")) ->
  exists mid,
    runCommands env (pre ++ rest) tr = runCommands env rest (tr ++ mid) /\
    executed mid = pre /\
    (forall s, ~ In (logover_error s) mid).
Proof.
  revert tr. induction pre as [|c pre IH]; intros tr Hclean.
  - exists []. rewrite app_nil_r. split; [reflexivity|].
    split; [reflexivity|]. intros s [].
  - destruct (Hclean c (or_introl eq_refl) tr) as [out Hout].
    assert (Hpre : forall c', In c' pre ->
              forall h, exists out', exec env h c' None = Ok (out', ""))
      by (intros c' Hc'; apply Hclean; now right).
    cbn [app runCommands]. unfold bind at 1. unfold execute_ at 1.
    rewrite Hout. cbn [fst snd]. unfold bind at 1.
    destruct (truthy out) eqn:Hto.
    + unfold emit at 1. cbn [truthy].
      change (truthy "") with false. cbv iota.
      destruct (IH ((tr ++ [execute c None]) ++ [logover_debug [out]]) Hpre)
        as (mid & Hrun & Hex & Hlog).
      exists ([execute c None; logover_debug [out]] ++ mid).
      split.
      { rewrite Hrun. f_equal. rewrite <- !app_assoc. reflexivity. }
      split; [rewrite executed_app, Hex; reflexivity|].
      intros s Hin. apply in_app_iff in Hin.
      destruct Hin as [[H|[H|[]]]|H]; try discriminate.
      exact (Hlog s H).
    + unfold ret at 1. change (truthy "") with false. cbv iota.
      destruct (IH (tr ++ [execute c None]) Hpre)
        as (mid & Hrun & Hex & Hlog).
      exists ([execute c None] ++ mid).
      split.
      { rewrite Hrun. f_equal. rewrite <- !app_assoc. reflexivity. }
      split; [rewrite executed_app, Hex; reflexivity|].
      intros s Hin. apply in_app_iff in Hin.
      destruct Hin as [[H|[]]|H]; try discriminate.
      exact (Hlog s H).
Qed.

(** X19: [runCommands] stops at the first command that writes to
    [stderr]: it logs that output and rejects with it, and the commands
    after it are not handed to the shell. *)
Theorem runCommands_stops_at_stderr (pre post : list string)
    (c err : string) (tr : list Event) :
  (forall c', In c' pre ->
     forall h, exists out, exec env h c' None = Ok (out, "")) ->
  (forall h, exists out, exec env h c None = Ok (out, err)) ->
  err <> "" ->
  exists new,
    runCommands env (pre ++ c :: post) tr
      = (Rejected (thrown_string err), tr ++ new) /\
    executed new = pre ++ [c] /\
    last new = Some (logover_error err).
Proof.
  intros Hclean Hc Herr.
  destruct (runCommands_clean_prefix pre (c :: post) tr Hclean)
    as (mid & Hrun & Hex & _).
  destruct (Hc (tr ++ mid)) as [out Hout].
  assert (Hterr : truthy err = true).
  { unfold truthy. case_bool_decide; [contradiction|reflexivity]. }
  rewrite Hrun. cbn [runCommands]. unfold bind at 1. unfold execute_ at 1.
  rewrite Hout. cbn [fst snd]. rewrite Hterr. unfold bind at 1.
  destruct (truthy out).
  - exists (mid ++ [execute c None; logover_debug [out]; logover_error err]).
    split.
    { unfold emit, bind, throw. rewrite <- !app_assoc. reflexivity. }
    split; [rewrite executed_app, Hex; reflexivity|].
    rewrite last_app. reflexivity.
  - exists (mid ++ [execute c None; logover_error err]).
    split.
    { unfold ret, emit, bind, throw. rewrite <- !app_assoc. reflexivity. }
    split; [rewrite executed_app, Hex; reflexivity|].
    rewrite last_app. reflexivity.
Qed.

(** X20: when every command resolves with an empty [stderr],
    [runCommands] hands all of them to the shell, in order, resolves, and
    logs no error. *)
Theorem runCommands_all_clean (commands : list string) (tr : list Event) :
  (forall c, In c commands ->
     forall h, exists out, exec env h c None = Ok (out, "")) ->
  exists new,
    runCommands env commands tr = (Ok tt, tr ++ new) /\
    executed new = commands /\
    (forall s, ~ In (logover_error s) new).
Proof.
  intros Hclean.
  destruct (runCommands_clean_prefix commands [] tr Hclean)
    as (mid & Hrun & Hex & Hlog).
  rewrite app_nil_r in Hrun. exists mid. rewrite Hrun.
  split; [reflexivity|]. split; assumption.
Qed.

(** What one seed item that succeeds adds to the trace. *)
Lemma seed_item_succeeds (item : SeedItem) (tr : list Event) :
  item_succeeds env item ->
  exists new,
    seed_item env item tr = (Ok tt, tr ++ new) /\
    List.filter is_file_event new = file_calls item /\
    executed new = commands_of [item].
Proof.
  destruct item as [c|p d]; cbn [item_succeeds]; intros Hok.
  - destruct (Hok tr) as [out Hout].
    cbn [seed_item]. unfold bind, runCommand, execute_. rewrite Hout.
    destruct (truthy (fst out) || truthy (snd out)).
    + exists [execute c (Some "."); logover_debug [fst out; snd out]].
      unfold emit. rewrite <- app_assoc. repeat split.
    + exists [execute c (Some ".")]. repeat split.
  - exists [watcher_unwatch p; writeFile p d; watcher_add p].
    cbn [seed_item]. unfold bind, emit, runSeed. rewrite Hok.
    rewrite <- !app_assoc. repeat split.
Qed.

(** The items of a seed that succeed, up to the first that does not. *)
Lemma seed_items_prefix (pre rest : list SeedItem) (tr : list Event) :
  (forall item, In item pre -> item_succeeds env item) ->
  exists mid,
    seed_items env (pre ++ rest) tr = seed_items env rest (tr ++ mid) /\
    List.filter is_file_event mid = flat_map file_calls pre /\
    executed mid = commands_of pre.
Proof.
  revert tr. induction pre as [|item pre IH]; intros tr Hok.
  - exists []. rewrite app_nil_r. repeat split.
  - destruct (seed_item_succeeds item tr (Hok item (or_introl eq_refl)))
      as (new & Hitem & Hfiles & Hcmds).
    destruct (IH (tr ++ new) (fun i Hi => Hok i (or_intror Hi)))
      as (mid & Hrun & Hfiles' & Hcmds').
    exists (new ++ mid). cbn [app seed_items]. unfold bind at 1.
    rewrite Hitem, Hrun, app_assoc.
    split; [reflexivity|].
    split.
    + rewrite List.filter_app, Hfiles, Hfiles'. reflexivity.
    + rewrite executed_app, Hcmds, Hcmds'. unfold commands_of.
      destruct item; reflexivity.
Qed.

(** X21: when every item of the seed succeeds, [runLessonSeed] resolves;
    its calls to the watcher and the file system are, for each file of
    the seed in order, [unwatch], [writeFile], [add] on that path, and
    its commands are handed to the shell in the order of the seed.  A
    command that writes to [stderr] does not stop it. *)
Theorem runLessonSeed_success (seed : list SeedItem) (currentLesson : Z)
    (tr : list Event) :
  (forall item, In item seed -> item_succeeds env item) ->
  exists new,
    runLessonSeed env seed currentLesson tr = (Ok tt, tr ++ new) /\
    List.filter is_file_event new = flat_map file_calls seed /\
    executed new = commands_of seed.
Proof.
  intros Hok.
  destruct (seed_items_prefix seed [] tr Hok) as (mid & Hrun & Hf & Hc).
  rewrite app_nil_r in Hrun. exists mid.
  unfold runLessonSeed, try_catch. rewrite Hrun.
  split; [reflexivity|]. split; assumption.
Qed.

(** X22: when the write of a seeded file fails, [runLessonSeed] logs the
    failure and rejects with a new error made of the failure; the file has
    been unwatched and is not added to the watcher again, and the rest of
    the seed is not run. *)
Theorem runLessonSeed_write_fails (pre post : list SeedItem)
    (filePath fileSeed : string) (v : Thrown) (currentLesson : Z)
    (tr : list Event) :
  (forall item, In item pre -> item_succeeds env item) ->
  (forall h, writeFile_error env h filePath fileSeed = Some v) ->
  exists mid,
    runLessonSeed env (pre ++ seed_file filePath fileSeed :: post)
      currentLesson tr =
    (Rejected (thrown_error (Error (String_of v))),
     tr ++ mid ++
       [watcher_unwatch filePath; writeFile filePath fileSeed;
        logover_error_lesson "Failed to run seed for lesson: "
          currentLesson]) /\
    List.filter is_file_event mid = flat_map file_calls pre /\
    executed mid = commands_of pre.
Proof.
  intros Hok Hfail.
  destruct (seed_items_prefix pre (seed_file filePath fileSeed :: post) tr
              Hok) as (mid & Hrun & Hf & Hc).
  exists mid. split; [|split; assumption].
  unfold runLessonSeed, try_catch. rewrite Hrun.
  cbn [seed_items seed_item]. unfold bind, emit, runSeed, throw.
  rewrite Hfail. rewrite <- !app_assoc. reflexivity.
Qed.

(** X23: when a command of the seed is rejected by the shell,
    [runLessonSeed] logs the failure and rejects with a new error made of
    the rejection; the rest of the seed is not run. *)
Theorem runLessonSeed_command_fails (pre post : list SeedItem)
    (c : string) (v : Thrown) (currentLesson : Z) (tr : list Event) :
  (forall item, In item pre -> item_succeeds env item) ->
  (forall h, exec env h c (Some ".") = Rejected v) ->
  exists mid,
    runLessonSeed env (pre ++ seed_command c :: post) currentLesson tr =
    (Rejected (thrown_error (Error (String_of v))),
     tr ++ mid ++
       [execute c (Some ".");
        logover_error_lesson "Failed to run seed for lesson: "
          currentLesson]) /\
    List.filter is_file_event mid = flat_map file_calls pre /\
    executed mid = commands_of pre.
Proof.
  intros Hok Hfail.
  destruct (seed_items_prefix pre (seed_command c :: post) tr Hok)
    as (mid & Hrun & Hf & Hc).
  exists mid. split; [|split; assumption].
  unfold runLessonSeed, try_catch. rewrite Hrun.
  cbn [seed_items seed_item]. unfold bind, emit, runCommand, execute_, throw.
  rewrite Hfail. rewrite <- !app_assoc. reflexivity.
Qed.

(** Whatever the environment does, the loop of [runLessonSeed] only
    extends the trace, with calls of its own. *)
Lemma seed_items_frame (seed : list SeedItem) (tr : list Event) :
  exists r new,
    seed_items env seed tr = (r, tr ++ new) /\
    (forall e, In e new -> is_seeding_event e = true).
Proof.
  revert tr. induction seed as [|item seed IH]; intros tr.
  - exists (Ok tt), []. rewrite app_nil_r. split; [reflexivity|].
    intros e [].
  - cbn [seed_items]. unfold bind at 1.
    assert (Hitem : exists r new,
              seed_item env item tr = (r, tr ++ new) /\
              (forall e, In e new -> is_seeding_event e = true)).
    { destruct item as [c|p d]; cbn [seed_item].
      - unfold bind, runCommand, execute_.
        destruct (exec env tr c (Some ".")) as [out|v].
        + destruct (truthy (fst out) || truthy (snd out)).
          * exists (Ok tt),
              [execute c (Some "."); logover_debug [fst out; snd out]].
            unfold emit. rewrite <- app_assoc. split; [reflexivity|].
            intros e [<-|[<-|[]]]; reflexivity.
          * exists (Ok tt), [execute c (Some ".")].
            split; [reflexivity|]. intros e [<-|[]]; reflexivity.
        + exists (Rejected v), [execute c (Some ".")].
          split; [reflexivity|]. intros e [<-|[]]; reflexivity.
      - unfold bind, emit, runSeed.
        destruct (writeFile_error env _ p d) as [v|].
        + exists (Rejected v), [watcher_unwatch p; writeFile p d].
          rewrite <- app_assoc. split; [reflexivity|].
          intros e [<-|[<-|[]]]; reflexivity.
        + exists (Ok tt), [watcher_unwatch p; writeFile p d; watcher_add p].
          rewrite <- !app_assoc. split; [reflexivity|].
          intros e [<-|[<-|[<-|[]]]]; reflexivity. }
    destruct Hitem as (r & new & -> & Hnew).
    destruct r as [[]|v].
    + destruct (IH (tr ++ new)) as (r' & new' & -> & Hnew').
      exists r', (new ++ new'). rewrite app_assoc. split; [reflexivity|].
      intros e He. apply in_app_iff in He. destruct He; auto.
    + exists (Rejected v), new. split; [reflexivity|]. exact Hnew.
Qed.

(** Whatever the environment does, [runLessonSeed] only extends the
    trace, with calls of its own. *)
Lemma runLessonSeed_frame (seed : list SeedItem) (currentLesson : Z)
    (tr : list Event) :
  exists r seeding,
    runLessonSeed env seed currentLesson tr = (r, tr ++ seeding) /\
    (forall e, In e seeding -> is_seeding_event e = true).
Proof.
  unfold runLessonSeed, try_catch.
  destruct (seed_items_frame seed tr) as (r & new & -> & Hnew).
  destruct r as [[]|v].
  - exists (Ok tt), new. split; [reflexivity|exact Hnew].
  - exists (Rejected (thrown_error (Error (String_of v)))),
      (new ++ [logover_error_lesson "Failed to run seed for lesson: "
                 currentLesson]).
    unfold bind, emit, throw. rewrite <- app_assoc.
    split; [reflexivity|].
    intros e He. apply in_app_iff in He.
    destruct He as [He|[<-|[]]]; [auto|reflexivity].
Qed.

(** X24: once the project and its current lesson are known,
    [seedLesson] always resolves, and what it adds to the trace is fixed
    by [getLesson] and [runLessonSeed].  When [getLesson] is rejected,
    that rejection is reported to the client and to the log, and nothing
    else is done.  Otherwise [runLessonSeed] is run on the seed of the
    lesson, from the same trace: when it resolves, the only further call
    is [setState], recording the seeded lesson; when it is rejected, the
    only further calls report its rejection to the client and to the log,
    and the seeded lesson is not recorded. *)
Theorem seedLesson_outcome (projectId id currentLesson : Z)
    (tr : list Event) :
  getProject env projectId = Ok id ->
  projects env !! id = Some currentLesson ->
  exists new,
    seedLesson env projectId tr = (Ok tt, tr ++ new) /\
    match getLesson env projectId currentLesson with
    | Rejected v => new = [updateError v; logover_error_val v]
    | Ok seed =>
        exists r seeding,
          runLessonSeed env seed currentLesson tr = (r, tr ++ seeding) /\
          (forall e, In e seeding -> is_seeding_event e = true) /\
          match r with
          | Ok _ =>
              new = seeding ++ [setState_lastSeed projectId currentLesson]
          | Rejected v =>
              new = seeding ++ [updateError v; logover_error_val v]
          end
    end.
Proof.
  intros Hproj Hcur. unfold seedLesson.
  unfold bind at 1. unfold await at 1. rewrite Hproj.
  unfold bind at 1. rewrite Hcur. unfold ret at 1.
  unfold try_catch at 1. unfold bind at 1. unfold await at 1.
  destruct (getLesson env projectId currentLesson) as [seed|v].
  - unfold bind at 1.
    destruct (runLessonSeed_frame seed currentLesson tr)
      as (r & seeding & Hrun & Hkind).
    rewrite Hrun. destruct r as [[]|v].
    + exists (seeding ++ [setState_lastSeed projectId currentLesson]).
      unfold emit. rewrite app_assoc. split; [reflexivity|].
      exists (Ok tt), seeding. split; [reflexivity|].
      split; [exact Hkind|reflexivity].
    + exists (seeding ++ [updateError v; logover_error_val v]).
      unfold bind, emit. rewrite <- !app_assoc. split; [reflexivity|].
      exists (Rejected v), seeding. split; [reflexivity|].
      split; [exact Hkind|reflexivity].
  - exists [updateError v; logover_error_val v].
    unfold bind, emit. rewrite <- !app_assoc. split; reflexivity.
Qed.

(** X25: when the state has no entry for the project, [seedLesson]
    rejects with a [TypeError] before its [try]: nothing is seeded, and
    nothing is reported to the client or logged. *)
Theorem seedLesson_unknown_project (projectId id : Z) (tr : list Event) :
  getProject env projectId = Ok id ->
  projects env !! id = None ->
  seedLesson env projectId tr =
  (Rejected
     (thrown_error
        (TypeError "Cannot read properties of undefined (reading 'currentLesson')")),
   tr).
Proof.
  intros Hproj Hcur. unfold seedLesson.
  unfold bind at 1. unfold await at 1. rewrite Hproj.
  unfold bind at 1. rewrite Hcur. reflexivity.
Qed.

End Commands.

End SeedProofs.

(** ** Properties of the history helpers *)

Module TestUtilsProofs.

Import TestUtils.

Lemma append_cons (c : Ascii.ascii) (a b : string) :
  String c a +:+ b = String c (a +:+ b).
Proof. reflexivity. Qed.

Lemma append_assoc (a b c : string) : (a +:+ b) +:+ c = a +:+ b +:+ c.
Proof.
  induction a as [|x a IH]; [reflexivity|].
  rewrite !append_cons, IH. reflexivity.
Qed.

Lemma split_LF_not_nil (s : string) : split_LF s <> [].
Proof.
  destruct s as [|c s]; simpl; [discriminate|].
  case_bool_decide; [discriminate|].
  destruct (split_LF s); discriminate.
Qed.

(** Splitting distributes over a line feed. *)
Lemma split_LF_app (a b : string) :
  split_LF (a +:+ LF_string +:+ b) = split_LF a ++ split_LF b.
Proof.
  induction a as [|c a IH].
  - change ("" +:+ LF_string +:+ b) with (String LF b). reflexivity.
  - rewrite append_cons. simpl. case_bool_decide.
    + rewrite IH. reflexivity.
    + rewrite IH. pose proof (split_LF_not_nil a) as Hne.
      destruct (split_LF a) as [|line lines]; [contradiction|reflexivity].
Qed.

Lemma split_LF_single (s : string) :
  ~ In LF (chars s) -> split_LF s = [s].
Proof.
  induction s as [|c s IH]; simpl; intros H; [reflexivity|].
  case_bool_decide as Hc.
  - destruct H. left. congruence.
  - rewrite IH by (intros Hin; apply H; now right). reflexivity.
Qed.

Lemma split_LF_lines (s l : string) :
  In l (split_LF s) -> ~ In LF (chars l).
Proof.
  revert l. induction s as [|c s IH]; simpl; intros l Hl.
  - destruct Hl as [<-|[]]. intros [].
  - case_bool_decide as Hc.
    + destruct Hl as [<-|Hl]; [intros []|]. apply IH. assumption.
    + pose proof (split_LF_not_nil s) as Hne.
      destruct (split_LF s) as [|line lines]; [contradiction|].
      destruct Hl as [<-|Hl].
      * simpl. intros [Heq|Hin]; [congruence|].
        apply (IH line); [now left|assumption].
      * apply IH. now right.
Qed.

Lemma nonempty_lines_app (a b : string) :
  nonempty_lines (a +:+ LF_string +:+ b)
  = nonempty_lines a ++ nonempty_lines b.
Proof.
  unfold nonempty_lines. rewrite split_LF_app. apply List.filter_app.
Qed.

Lemma nonempty_lines_line (cmd : string) :
  cmd <> "" -> ~ In LF (chars cmd) -> nonempty_lines cmd = [cmd].
Proof.
  intros Hne Hlf. unfold nonempty_lines.
  rewrite (split_LF_single cmd Hlf). simpl.
  rewrite bool_decide_eq_false_2 by assumption. reflexivity.
Qed.

(** Appending a line to a log that ends a line appends it to the
    lines. *)
Lemma nonempty_lines_append (h cmd : string) :
  ends_line h -> cmd <> "" -> ~ In LF (chars cmd) ->
  nonempty_lines (h +:+ cmd +:+ LF_string) = nonempty_lines h ++ [cmd].
Proof.
  intros Hh Hne Hlf.
  assert (Hcmd : nonempty_lines (cmd +:+ LF_string) = [cmd]).
  { change (cmd +:+ LF_string) with (cmd +:+ LF_string +:+ "").
    rewrite nonempty_lines_app, (nonempty_lines_line cmd Hne Hlf).
    reflexivity. }
  destruct Hh as [->|[s ->]].
  - exact Hcmd.
  - rewrite append_assoc, nonempty_lines_app, Hcmd.
    change (s +:+ LF_string) with (s +:+ LF_string +:+ "").
    rewrite nonempty_lines_app. cbn [nonempty_lines split_LF List.filter].
    rewrite app_nil_r. reflexivity.
Qed.

(** Where an element of the split sits in the string: after the text
    before it, which is empty for the first element and ends with a line
    feed for the others, and before the text after it, which is empty
    for the last element and otherwise a line feed followed by the text
    that splits into the elements after it. *)
Lemma split_LF_position (s : string) (before after : list string)
    (l : string) :
  split_LF s = before ++ l :: after ->
  exists a b,
    s = a +:+ l +:+ b /\
    (before = [] -> a = "") /\
    (before <> [] -> exists a', a = a' +:+ LF_string) /\
    ((b = "" /\ after = []) \/
     exists b', b = LF_string +:+ b' /\ split_LF b' = after).
Proof.
  revert before after l.
  induction s as [|c s IH]; intros before after l Hsplit.
  - simpl in Hsplit. destruct before as [|x before].
    + injection Hsplit as <- <-. exists "", "".
      split; [reflexivity|]. split; [reflexivity|].
      split; [intros []; reflexivity|]. left. split; reflexivity.
    + injection Hsplit as _ Hrest. destruct before; discriminate.
  - simpl in Hsplit. case_bool_decide as Hc.
    + subst c. destruct before as [|x before].
      * injection Hsplit as <- <-. exists "", (String LF s).
        split; [reflexivity|]. split; [reflexivity|].
        split; [intros []; reflexivity|]. right. exists s.
        split; reflexivity.
      * injection Hsplit as _ Hrest.
        destruct (IH before after l Hrest)
          as (a & b & -> & Hfirst & Hlater & Hb).
        exists (String LF a), b. split; [reflexivity|].
        split; [discriminate|]. split; [|exact Hb]. intros _.
        destruct before as [|y before'].
        -- rewrite (Hfirst eq_refl). exists "". reflexivity.
        -- destruct Hlater as [a' ->]; [discriminate|].
           exists (String LF a'). reflexivity.
    + pose proof (split_LF_not_nil s) as Hne.
      destruct (split_LF s) as [|line lines] eqn:Hs; [contradiction|].
      destruct before as [|x before].
      * injection Hsplit as <- <-.
        destruct (IH [] lines line eq_refl)
          as (a & b & -> & Hfirst & _ & Hb).
        rewrite (Hfirst eq_refl). exists "", b.
        split; [reflexivity|]. split; [reflexivity|].
        split; [intros []; reflexivity|exact Hb].
      * injection Hsplit as <- Hrest.
        destruct (IH (line :: before) after l)
          as (a & b & -> & _ & Hlater & Hb).
        { rewrite Hrest. reflexivity. }
        destruct Hlater as [a' ->]; [discriminate|].
        exists (String c (a' +:+ LF_string)), b.
        split; [reflexivity|]. split; [discriminate|].
        split; [|exact Hb]. intros _. exists (String c a'). reflexivity.
Qed.

(** An element of a filtered list comes from an element of the list, and
    what is kept before and after it is what is kept of the elements
    before and after that one. *)
Lemma filter_split_middle {A : Type} (f : A -> bool) (xs kept_before : list A)
    (x : A) (kept_after : list A) :
  List.filter f xs = kept_before ++ x :: kept_after ->
  exists before after,
    xs = before ++ x :: after /\
    List.filter f before = kept_before /\
    List.filter f after = kept_after.
Proof.
  revert kept_before. induction xs as [|y xs IH]; intros kept_before Hf.
  - destruct kept_before; discriminate.
  - simpl in Hf. destruct (f y) eqn:Hy.
    + destruct kept_before as [|z kept_before].
      * injection Hf as <- <-. exists [], xs.
        split; [reflexivity|]. split; reflexivity.
      * injection Hf as <- Hf.
        destruct (IH kept_before Hf) as (before & after & -> & <- & <-).
        exists (y :: before), after. split; [reflexivity|].
        simpl. rewrite Hy. split; reflexivity.
    + destruct (IH kept_before Hf) as (before & after & -> & <- & <-).
      exists (y :: before), after. split; [reflexivity|].
      simpl. rewrite Hy. split; reflexivity.
Qed.

(** X26: what [getLastCommand] and [getLastCWD] return is the line of the
    log that has exactly [howManyBack] lines that are not empty after it.
    The log is some text, then the result, then some text; the text
    before is empty or ends with a line feed, the text after is empty or
    starts with one and holds [howManyBack] lines that are not empty; the
    result itself is not empty and holds no line feed. *)
Theorem last_log_is_a_line (content : string) (howManyBack : Z)
    (l : string) :
  getLastCommand content howManyBack = Some l
  \/ getLastCWD content howManyBack = Some l ->
  l <> "" /\ ~ In LF (chars l) /\
  exists a b,
    content = a +:+ l +:+ b /\
    (a = "" \/ exists a', a = a' +:+ LF_string) /\
    (b = "" \/ exists b', b = LF_string +:+ b') /\
    Z.of_nat (length (nonempty_lines b)) = howManyBack.
Proof.
  assert (H : from_the_end (nonempty_lines content) howManyBack = Some l ->
              l <> "" /\ ~ In LF (chars l) /\
              exists a b,
                content = a +:+ l +:+ b /\
                (a = "" \/ exists a', a = a' +:+ LF_string) /\
                (b = "" \/ exists b', b = LF_string +:+ b') /\
                Z.of_nat (length (nonempty_lines b)) = howManyBack).
  { unfold from_the_end. cbv zeta.
    destruct (0 <=? _)%Z eqn:Hindex; [|discriminate]. intros Hl.
    apply Z.leb_le in Hindex.
    apply list_elem_of_split_length in Hl.
    destruct Hl as (kept_before & kept_after & Hkept & Hlen).
    assert (Hback : Z.of_nat (length kept_after) = howManyBack).
    { rewrite Hkept in Hlen, Hindex.
      rewrite length_app in Hlen, Hindex. simpl in Hlen, Hindex. lia. }
    assert (Hin : In l (nonempty_lines content)).
    { rewrite Hkept. apply in_or_app. right. left. reflexivity. }
    unfold nonempty_lines in Hin. apply List.filter_In in Hin.
    destruct Hin as [Hin Hne]. split; [intros ->; discriminate|].
    split; [eapply split_LF_lines; eassumption|].
    unfold nonempty_lines in Hkept.
    apply filter_split_middle in Hkept.
    destruct Hkept as (before & after & Hsplit & _ & Hafter).
    destruct (split_LF_position content before after l Hsplit)
      as (a & b & Hc & Hfirst & Hlater & Hb).
    exists a, b. split; [exact Hc|]. split.
    { destruct before as [|x before'].
      - left. apply Hfirst. reflexivity.
      - right. apply Hlater. discriminate. }
    destruct Hb as [[-> ->]|(b' & -> & Hb')].
    - split; [left; reflexivity|]. simpl in Hafter. subst kept_after.
      exact Hback.
    - split; [right; exists b'; reflexivity|].
      unfold nonempty_lines.
      change (split_LF (LF_string +:+ b')) with ("" :: split_LF b').
      rewrite Hb'. simpl. rewrite Hafter. exact Hback. }
  intros [Hl|Hl]; apply H; exact Hl.
Qed.

(** X27: after a command line is appended to a history that is empty
    or ends with a line feed, [getLastCommand] returns that command, and
    going one further back returns what it returned before, at every
    distance. *)
Theorem getLastCommand_after_append (h cmd : string) :
  ends_line h -> cmd <> "" -> ~ In LF (chars cmd) ->
  getLastCommand (h +:+ cmd +:+ LF_string) 0 = Some cmd /\
  forall k, (0 <= k)%Z ->
    getLastCommand (h +:+ cmd +:+ LF_string) (k + 1) = getLastCommand h k.
Proof.
  intros Hh Hne Hlf. unfold getLastCommand. cbv zeta.
  rewrite (nonempty_lines_append h cmd Hh Hne Hlf).
  set (logs := nonempty_lines h). unfold from_the_end.
  rewrite length_app. cbn [length]. split.
  - replace (Z.of_nat (length logs + 1) - 0 - 1)%Z
      with (Z.of_nat (length logs)) by lia.
    rewrite (proj2 (Z.leb_le _ _)) by lia.
    rewrite Nat2Z.id. apply list_lookup_middle. reflexivity.
  - intros k Hk.
    replace (Z.of_nat (length logs + 1) - (k + 1) - 1)%Z
      with (Z.of_nat (length logs) - k - 1)%Z by lia.
    destruct (0 <=? Z.of_nat (length logs) - k - 1)%Z eqn:Hidx;
      [|reflexivity].
    apply Z.leb_le in Hidx. apply lookup_app_l. lia.
Qed.

Lemma nonempty_lines_blank (s : string) :
  (forall c, In c (chars s) -> c = LF) -> nonempty_lines s = [].
Proof.
  unfold nonempty_lines.
  induction s as [|c s IH]; simpl; intros H; [reflexivity|].
  rewrite bool_decide_eq_true_2 by (apply H; now left).
  simpl. apply IH. intros c' Hc'. apply H. now right.
Qed.

(** X28: [getLastCommand] and [getLastCWD] return [undefined] for a
    negative distance, and for a log that has no line but empty ones
    (such as the empty file the read creates when there is none),
    whatever the distance. *)
Theorem last_log_undefined (content : string) (howManyBack : Z) :
  (howManyBack < 0)%Z \/ (forall c, In c (chars content) -> c = LF) ->
  getLastCommand content howManyBack = None /\
  getLastCWD content howManyBack = None.
Proof.
  assert (H : (howManyBack < 0)%Z
              \/ (forall c, In c (chars content) -> c = LF) ->
              from_the_end (nonempty_lines content) howManyBack = None).
  { intros [Hneg|Hblank]; unfold from_the_end; cbv zeta.
    - destruct (0 <=? _)%Z; [|reflexivity].
      apply lookup_ge_None. lia.
    - rewrite (nonempty_lines_blank content Hblank). simpl.
      destruct (0 <=? _)%Z; reflexivity. }
  intros Hcase. split; apply H; exact Hcase.
Qed.

End TestUtilsProofs.

(** ** The further properties on concrete inputs *)

Lemma removeWorkerFromPool_absent_witness :
  (forall y : Worker, In y (WORKER_POOL after_start) -> handle y <> handle worker_1) /\
  (removeWorkerFromPool worker_1 after_start = (Normal (), after_start)).
Proof.
  assert (H1 :
    (forall y : Worker, In y (WORKER_POOL after_start) -> handle y <> handle worker_1)).
  { intros y Hy; vm_compute in Hy; destruct Hy as [<-|[]]; intros H; discriminate H. }
  split; [exact H1|].
  exact (removeWorkerFromPool_absent worker_1 after_start H1).
Defined.

Lemma removeWorkerFromPool_first_witness :
  (WORKER_POOL busy_after_start = ([foreign_worker] ++ [worker_1])%list) /\
  (forall z : Worker, In z [foreign_worker] -> handle z <> handle worker_1) /\
  (handle worker_1 = handle worker_1) /\
  (removeWorkerFromPool worker_1 busy_after_start =
   (Normal (),
    {|
      testsState := testsState busy_after_start;
      WORKER_POOL := [foreign_worker] ++ [];
      exited := exited busy_after_start;
      nextHandle := nextHandle busy_after_start;
      trace := trace busy_after_start
    |})).
Proof.
  assert (H1 :
    (WORKER_POOL busy_after_start = ([foreign_worker] ++ [worker_1])%list)).
  { reflexivity. }
  assert (H2 :
    (forall z : Worker, In z [foreign_worker] -> handle z <> handle worker_1)).
  { intros z [<-|[]] H; discriminate H. }
  assert (H3 :
    (handle worker_1 = handle worker_1)).
  { reflexivity. }
  split; [exact H1|].
  split; [exact H2|].
  split; [exact H3|].
  exact (removeWorkerFromPool_first worker_1 worker_1 [foreign_worker] [] busy_after_start H1 H2 H3).
Defined.

Lemma push_then_remove_witness :
  (forall y : Worker, In y (WORKER_POOL after_start) -> handle y <> handle worker_1) /\
  ((WORKER_POOL_push worker_1;; removeWorkerFromPool worker_1) after_start =
   (Normal (), after_start)).
Proof.
  assert (H1 :
    (forall y : Worker, In y (WORKER_POOL after_start) -> handle y <> handle worker_1)).
  { intros y Hy; vm_compute in Hy; destruct Hy as [<-|[]]; intros H; discriminate H. }
  split; [exact H1|].
  exact (push_then_remove worker_1 after_start H1).
Defined.

Lemma checkTestsCallback_not_settled_witness :
  (settled (testsState after_start) = false) /\
  (exists (w' : World) (new : list Event),
     checkTestsCallback quiet_env parallel_project ["Try again"] 0
       (Some cleanup_hook) after_start =
     (Normal (), w')
     /\ WORKER_POOL w' = WORKER_POOL after_start
       /\ testsState w' = testsState after_start
         /\ trace w' = (trace after_start ++ new)%list
           /\ List.filter is_onTestsEnd new = []
             /\ List.filter is_hook_event new = []).
Proof.
  assert (H1 :
    (settled (testsState after_start) = false)).
  { reflexivity. }
  split; [exact H1|].
  exact (checkTestsCallback_not_settled quiet_env parallel_project ["Try again"] 0%Z (Some cleanup_hook) after_start H1).
Defined.

Lemma checkTestsCallback_some_failed_witness :
  (forallb passed (testsState after_start) = false) /\
  (exists (w' : World) (teardown : list Event),
     checkTestsCallback quiet_env parallel_project ["Try again"] 0
       (Some cleanup_hook) after_start =
     (Normal (), w')
     /\ trace w' =
       (trace after_start ++
        [onLessonFailed parallel_project; updateHints ["Try again"]] ++
        teardown)%list
       /\ forall e : Event,
           In e teardown
           -> is_hook_event e = true
             \/ e = onTestsEnd parallel_project (testsState after_start)).
Proof.
  assert (H1 :
    (forallb passed (testsState after_start) = false)).
  { reflexivity. }
  split; [exact H1|].
  exact (checkTestsCallback_some_failed quiet_env parallel_project ["Try again"] 0%Z (Some cleanup_hook) after_start H1).
Defined.

Lemma workerMessage_out_of_range_witness :
  (testsState after_start
   !! m_testId {| m_passed := true; m_testId := 3; m_error := None |} = None) /\
  (workerMessage quiet_env parallel_project one_test_lesson
     {| m_passed := true; m_testId := 3; m_error := None |} after_start =
   (Throw
      (TypeError "Cannot set properties of undefined (setting 'isLoading')"),
    after_start)).
Proof.
  assert (H1 :
    (testsState after_start
     !! m_testId {| m_passed := true; m_testId := 3; m_error := None |} = None)).
  { reflexivity. }
  split; [exact H1|].
  exact (workerMessage_out_of_range quiet_env parallel_project one_test_lesson {| m_passed := true; m_testId := 3; m_error := None |} after_start H1).
Defined.

Lemma handleWorkerExit_out_of_range_witness :
  (testsState after_start !! 3 = None) /\
  (handleWorkerExit quiet_env 1 (Some 3) (Some cleanup_hook) parallel_project
     ["Try again"] 0 None after_start =
   (Throw
      (TypeError "Cannot set properties of undefined (setting 'isLoading')"),
    after_start)).
Proof.
  assert (H1 :
    (testsState after_start !! 3 = None)).
  { reflexivity. }
  split; [exact H1|].
  exact (handleWorkerExit_out_of_range quiet_env 3 (Some cleanup_hook) parallel_project ["Try again"] 0%Z None after_start H1).
Defined.

Lemma natural_exit_keeps_states_witness :
  (0%Z <> 1%Z) /\
  (exists (w' : World) (aggregation : list Event),
     handleWorkerExit quiet_env 0 (Some 0) (Some cleanup_hook)
       parallel_project ["Try again"] 0 (Some cleanup_hook)
       passed_after_message =
     (Normal (), w')
     /\ testsState w' = testsState passed_after_message
       /\ checkTestsCallback quiet_env parallel_project ["Try again"] 0
           (Some cleanup_hook)
           {|
             testsState := testsState passed_after_message;
             WORKER_POOL := WORKER_POOL passed_after_message;
             exited := exited passed_after_message;
             nextHandle := nextHandle passed_after_message;
             trace :=
               trace passed_after_message ++
               match Some cleanup_hook with
               | Some h =>
                   guarded_hook_events quiet_env "after-each" h
                     (trace passed_after_message)
               | None => []
               end
           |} =
         (Normal (), w')
         /\ trace w' =
           (trace passed_after_message ++
            match Some cleanup_hook with
            | Some h =>
                guarded_hook_events quiet_env "after-each" h
                  (trace passed_after_message)
            | None => []
            end ++ aggregation)%list
           /\ forall e : Event,
               In e
                 (match Some cleanup_hook with
                  | Some h =>
                      guarded_hook_events quiet_env "after-each" h
                        (trace passed_after_message)
                  | None => []
                  end ++ aggregation)
               -> (forall ts : list TestState, e <> updateTests ts)
                 /\ (forall s : TestState, e <> updateTest s)
                   /\ forall c : ConsoleEntry, e <> updateConsole c).
Proof.
  assert (H1 :
    (0%Z <> 1%Z)).
  { discriminate. }
  split; [exact H1|].
  exact (natural_exit_keeps_states quiet_env 0%Z (Some 0) (Some cleanup_hook) parallel_project ["Try again"] 0%Z (Some cleanup_hook) passed_after_message H1).
Defined.

Lemma parallel_cancel_never_advances_witness :
  (testsState after_start !! 0 = Some loading_state) /\
  (exists (w' : World) (new : list Event),
     handleWorkerExit quiet_env 1 (Some 0) (Some cleanup_hook)
       parallel_project ["Try again"] 0 None after_start =
     (Normal (), w')
     /\ trace w' = (trace after_start ++ new)%list
       /\ In (onLessonFailed parallel_project) new
         /\ forall e : Event, In e new -> is_advance e = false).
Proof.
  assert (H1 :
    (testsState after_start !! 0 = Some loading_state)).
  { reflexivity. }
  split; [exact H1|].
  exact (parallel_cancel_never_advances quiet_env 0 loading_state (Some cleanup_hook) parallel_project ["Try again"] 0%Z None after_start H1).
Defined.

Lemma blocking_cancel_never_advances_witness :
  (In
     {|
       passed := false;
       testText := "It also passes";
       testId := 1;
       isLoading := true
     |} (testsState blocking_after_message)) /\
  (isLoading
     {|
       passed := false;
       testText := "It also passes";
       testId := 1;
       isLoading := true
     |} =
   true) /\
  (exists (w' : World) (new : list Event),
     handleWorkerExit failing_env 1 None (Some cleanup_hook) blocking_project
       ["Try again"] 2 None blocking_after_message =
     (Normal (), w')
     /\ trace w' = (trace blocking_after_message ++ new)%list
       /\ In (onLessonFailed blocking_project) new
         /\ forall e : Event, In e new -> is_advance e = false).
Proof.
  assert (H1 :
    (In
       {|
         passed := false;
         testText := "It also passes";
         testId := 1;
         isLoading := true
       |} (testsState blocking_after_message))).
  { right; left; reflexivity. }
  assert (H2 :
    (isLoading
       {|
         passed := false;
         testText := "It also passes";
         testId := 1;
         isLoading := true
       |} =
     true)).
  { reflexivity. }
  split; [exact H1|].
  split; [exact H2|].
  exact (blocking_cancel_never_advances failing_env {| passed := false; testText := "It also passes"; testId := 1; isLoading := true |} (Some cleanup_hook) blocking_project ["Try again"] 2%Z None blocking_after_message H1 H2).
Defined.

Lemma worker_on_exit_pool_witness :
  (WORKER_POOL busy_after_start = ([foreign_worker] ++ [worker_1])%list) /\
  (forall z : Worker, In z [foreign_worker] -> handle z <> handle worker_1) /\
  (handle worker_1 = handle worker_1) /\
  (1%Z = 1%Z
   -> forall k : nat, Some 0 = Some k -> is_Some (testsState busy_after_start !! k)) /\
  (exists w' : World,
     worker_on_exit quiet_env parallel_project one_test_lesson worker_1
       (Some 0) 1 busy_after_start =
     (Normal (), w')
     /\ exited w' = handle worker_1 :: exited busy_after_start
       /\ WORKER_POOL w' =
         (if settled (testsState w')
          then []
          else ([foreign_worker] ++ [])%list)).
Proof.
  assert (H1 :
    (WORKER_POOL busy_after_start = ([foreign_worker] ++ [worker_1])%list)).
  { reflexivity. }
  assert (H2 :
    (forall z : Worker, In z [foreign_worker] -> handle z <> handle worker_1)).
  { intros z [<-|[]] H; discriminate H. }
  assert (H3 :
    (handle worker_1 = handle worker_1)).
  { reflexivity. }
  assert (H4 :
    (1%Z = 1%Z
     -> forall k : nat, Some 0 = Some k -> is_Some (testsState busy_after_start !! k))).
  { intros _ k [= <-]; eexists; reflexivity. }
  split; [exact H1|].
  split; [exact H2|].
  split; [exact H3|].
  split; [exact H4|].
  exact (worker_on_exit_pool quiet_env parallel_project one_test_lesson worker_1 worker_1 [foreign_worker] [] (Some 0) 1%Z busy_after_start H1 H2 H3 H4).
Defined.

Lemma runTests_blocking_one_worker_witness :
  (first_non_null (testers two_test_lesson) =
   Some (Some (T_hook cleanup_hook))) /\
  (forall y : Tester,
     In (Some y) (testers two_test_lesson)
     -> tester_runner y = tester_runner (T_hook cleanup_hook)) /\
  (blockingTests blocking_project = true) /\
  (let worker :=
     {|
       handle := nextHandle empty_world;
       w_name := blocking_worker;
       w_runner := tester_runner (T_hook cleanup_hook);
       w_beforeEach := beforeEach two_test_lesson;
       w_project := blocking_project
     |} in
   exists (w' : World) (new : list Event),
     runTests failing_env blocking_project two_test_lesson empty_world =
     (Normal (), w')
     /\ WORKER_POOL w' = (WORKER_POOL empty_world ++ [worker])%list
       /\ trace w' = (trace empty_world ++ new)%list
         /\ List.filter is_new_Worker new = [new_Worker worker]
           /\ (forall (wk : Worker) (c : string) (k : nat),
                In (postMessage wk c k) new -> wk = worker)
             /\ forall (k : nat) (test : Test),
                 tests two_test_lesson !! k = Some test
                 -> In (postMessage worker (t_code test) k) new).
Proof.
  assert (H1 :
    (first_non_null (testers two_test_lesson) =
     Some (Some (T_hook cleanup_hook)))).
  { reflexivity. }
  assert (H2 :
    (forall y : Tester,
       In (Some y) (testers two_test_lesson)
       -> tester_runner y = tester_runner (T_hook cleanup_hook))).
  { intros y Hy; simpl in Hy; repeat (destruct Hy as [Hy|Hy]; [try discriminate Hy; injection Hy as <-; reflexivity|]); destruct Hy. }
  assert (H3 :
    (blockingTests blocking_project = true)).
  { reflexivity. }
  split; [exact H1|].
  split; [exact H2|].
  split; [exact H3|].
  exact (runTests_blocking_one_worker failing_env blocking_project two_test_lesson (T_hook cleanup_hook) empty_world H1 H2 H3).
Defined.

Lemma runTests_parallel_worker_per_test_witness :
  (first_non_null (testers one_test_lesson) =
   Some (Some (T_hook cleanup_hook))) /\
  (forall y : Tester,
     In (Some y) (testers one_test_lesson)
     -> tester_runner y = tester_runner (T_hook cleanup_hook)) /\
  (blockingTests parallel_project = false) /\
  (exists w' : World,
     runTests quiet_env parallel_project one_test_lesson empty_world =
     (Normal (), w')
     /\ WORKER_POOL w' =
       (WORKER_POOL empty_world ++
        imap
          (fun (k : nat) (test : Test) =>
             {|
               handle := nextHandle empty_world + k;
               w_name := worker_ k;
               w_runner := t_runner test;
               w_beforeEach := beforeEach one_test_lesson;
               w_project := parallel_project
             |})
          (tests one_test_lesson))%list
       /\ nextHandle w' =
         nextHandle empty_world + length (tests one_test_lesson)).
Proof.
  assert (H1 :
    (first_non_null (testers one_test_lesson) =
     Some (Some (T_hook cleanup_hook)))).
  { reflexivity. }
  assert (H2 :
    (forall y : Tester,
       In (Some y) (testers one_test_lesson)
       -> tester_runner y = tester_runner (T_hook cleanup_hook))).
  { intros y Hy; simpl in Hy; repeat (destruct Hy as [Hy|Hy]; [try discriminate Hy; injection Hy as <-; reflexivity|]); destruct Hy. }
  assert (H3 :
    (blockingTests parallel_project = false)).
  { reflexivity. }
  split; [exact H1|].
  split; [exact H2|].
  split; [exact H3|].
  exact (runTests_parallel_worker_per_test quiet_env parallel_project one_test_lesson (T_hook cleanup_hook) empty_world H1 H2 H3).
Defined.

Lemma runTests_unsupported_runner_witness :
  (beforeAll rust_lesson = Some rust_hook) /\
  (forall y : Tester,
     In (Some y) (testers rust_lesson) -> tester_runner y = runner rust_hook) /\
  (runner rust_hook <> "Node") /\
  (runner rust_hook <> "Python") /\
  (exists w' : World,
     runTests quiet_env parallel_project rust_lesson empty_world =
     (Normal (), w')
     /\ trace w' =
       (trace empty_world ++
        [logover_debug "Starting: --before-all-- hook";
         logover_error "--before-all-- hook failed to run:";
         logover_error_val
           (Error ("Unsupported runner: " +:+ runner rust_hook));
         onTestsStart parallel_project
           (imap (initial_state parallel_project) (tests rust_lesson));
         updateTests
           (imap (initial_state parallel_project) (tests rust_lesson));
         updateConsole (console_text "")] ++
        dispatch_events (beforeEach rust_lesson) parallel_project
          (runner rust_hook) (nextHandle empty_world) 
          (tests rust_lesson))%list
       /\ length (WORKER_POOL w') =
         length (WORKER_POOL empty_world) +
         (if blockingTests parallel_project
          then 1
          else length (tests rust_lesson))).
Proof.
  assert (H1 :
    (beforeAll rust_lesson = Some rust_hook)).
  { reflexivity. }
  assert (H2 :
    (forall y : Tester,
       In (Some y) (testers rust_lesson) -> tester_runner y = runner rust_hook)).
  { intros y Hy; simpl in Hy; repeat (destruct Hy as [Hy|Hy]; [try discriminate Hy; injection Hy as <-; reflexivity|]); destruct Hy. }
  assert (H3 :
    (runner rust_hook <> "Node")).
  { discriminate. }
  assert (H4 :
    (runner rust_hook <> "Python")).
  { discriminate. }
  split; [exact H1|].
  split; [exact H2|].
  split; [exact H3|].
  split; [exact H4|].
  exact (runTests_unsupported_runner quiet_env parallel_project rust_lesson rust_hook empty_world H1 H2 H3 H4).
Defined.

Lemma workerMessage_error_without_message_witness :
  (testsState after_start !! 0 = Some loading_state) /\
  (e_message bare_error = None \/ e_message bare_error = Some "") /\
  (exists (w' : World) (before after : list Event),
     workerMessage quiet_env parallel_project one_test_lesson
       {| m_passed := false; m_testId := 0; m_error := Some bare_error |}
       after_start =
     (Normal (), w')
     /\ testsState w' =
       <[0:={|
              passed := false;
              testText := testText loading_state;
              testId := testId loading_state;
              isLoading := false
            |}]>
         (testsState after_start)
       /\ (forall e : Event, In e before -> e = logover_error_test 0 bare_error)
         /\ trace w' =
           (trace after_start ++
            before ++
            [updateConsole
               (console_error
                  {|
                    passed := false;
                    testText := testText loading_state;
                    testId := testId loading_state;
                    isLoading := false
                  |} bare_error);
             updateTest
               {|
                 passed := false;
                 testText := testText loading_state;
                 testId := testId loading_state;
                 isLoading := false
               |}] ++
            after)%list).
Proof.
  assert (H1 :
    (testsState after_start !! 0 = Some loading_state)).
  { reflexivity. }
  assert (H2 :
    (e_message bare_error = None \/ e_message bare_error = Some "")).
  { left; reflexivity. }
  split; [exact H1|].
  split; [exact H2|].
  exact (workerMessage_error_without_message quiet_env parallel_project one_test_lesson false 0 bare_error loading_state after_start H1 H2).
Defined.

Lemma workerMessage_logs_unexpected_errors_witness :
  (testsState after_start !! 0 = Some loading_state) /\
  (exists (w' : World) (new : list Event),
     workerMessage quiet_env parallel_project one_test_lesson
       {| m_passed := false; m_testId := 0; m_error := Some bare_error |}
       after_start =
     (Normal (), w')
     /\ trace w' = (trace after_start ++ new)%list
       /\ (e_type bare_error = Some "AssertionError"
          -> forall (k' : nat) (err' : WorkerError),
              ~ In (logover_error_test k' err') new)
         /\ (e_type bare_error <> Some "AssertionError"
            -> exists rest : list Event,
                new = logover_error_test 0 bare_error :: rest)).
Proof.
  assert (H1 :
    (testsState after_start !! 0 = Some loading_state)).
  { reflexivity. }
  split; [exact H1|].
  exact (workerMessage_logs_unexpected_errors quiet_env parallel_project one_test_lesson false 0 bare_error loading_state after_start H1).
Defined.


Lemma runCommands_stops_at_stderr_witness :
  (forall c' : string,
     In c' ["ls"]
     -> forall h : list Seed.Event,
         exists out : string,
           Seed.exec Seed.warning_shell h c' None = Seed.Ok (out, "")) /\
  (forall h : list Seed.Event,
     exists out : string,
       Seed.exec Seed.warning_shell h "git init" None =
       Seed.Ok (out, "hint: using master")) /\
  ("hint: using master" <> "") /\
  (exists new : list Seed.Event,
     Seed.runCommands Seed.warning_shell
       (["ls"] ++ ["git init"; "npm install"]) [] =
     (Seed.Rejected (Seed.thrown_string "hint: using master"),
      ([] ++ new)%list)
     /\ Seed.executed new = (["ls"] ++ ["git init"])%list
       /\ last new = Some (Seed.logover_error "hint: using master")).
Proof.
  assert (H1 :
    (forall c' : string,
       In c' ["ls"]
       -> forall h : list Seed.Event,
           exists out : string,
             Seed.exec Seed.warning_shell h c' None = Seed.Ok (out, ""))).
  { intros c' [<-|[]] h; eexists; reflexivity. }
  assert (H2 :
    (forall h : list Seed.Event,
       exists out : string,
         Seed.exec Seed.warning_shell h "git init" None =
         Seed.Ok (out, "hint: using master"))).
  { intros h; eexists; reflexivity. }
  assert (H3 :
    ("hint: using master" <> "")).
  { discriminate. }
  split; [exact H1|].
  split; [exact H2|].
  split; [exact H3|].
  exact (SeedProofs.runCommands_stops_at_stderr Seed.warning_shell ["ls"] ["npm install"] "git init" "hint: using master" [] H1 H2 H3).
Defined.

Lemma runCommands_all_clean_witness :
  (forall c : string,
     In c ["ls"; "npm install"]
     -> forall h : list Seed.Event,
         exists out : string,
           Seed.exec Seed.quiet_shell h c None = Seed.Ok (out, "")) /\
  (exists new : list Seed.Event,
     Seed.runCommands Seed.quiet_shell ["ls"; "npm install"] [] =
     (Seed.Ok (), ([] ++ new)%list)
     /\ Seed.executed new = ["ls"; "npm install"]
       /\ forall s : string, ~ In (Seed.logover_error s) new).
Proof.
  assert (H1 :
    (forall c : string,
       In c ["ls"; "npm install"]
       -> forall h : list Seed.Event,
           exists out : string,
             Seed.exec Seed.quiet_shell h c None = Seed.Ok (out, ""))).
  { intros c [<-|[<-|[]]] h; eexists; reflexivity. }
  split; [exact H1|].
  exact (SeedProofs.runCommands_all_clean Seed.quiet_shell ["ls"; "npm install"] [] H1).
Defined.

Lemma runLessonSeed_success_witness :
  (forall item : Seed.SeedItem,
     In item
       [Seed.seed_command "git init";
        Seed.seed_file "index.js" "console.log(1)"]
     -> Seed.item_succeeds Seed.warning_shell item) /\
  (exists new : list Seed.Event,
     Seed.runLessonSeed Seed.warning_shell
       [Seed.seed_command "git init";
        Seed.seed_file "index.js" "console.log(1)"]
       2 [] =
     (Seed.Ok (), ([] ++ new)%list)
     /\ List.filter Seed.is_file_event new =
       flat_map Seed.file_calls
         [Seed.seed_command "git init";
          Seed.seed_file "index.js" "console.log(1)"]
       /\ Seed.executed new =
         Seed.commands_of
           [Seed.seed_command "git init";
            Seed.seed_file "index.js" "console.log(1)"]).
Proof.
  assert (H1 :
    (forall item : Seed.SeedItem,
       In item
         [Seed.seed_command "git init";
          Seed.seed_file "index.js" "console.log(1)"]
       -> Seed.item_succeeds Seed.warning_shell item)).
  { intros item [<-|[<-|[]]]; simpl; intros h; try eexists; reflexivity. }
  split; [exact H1|].
  exact (SeedProofs.runLessonSeed_success Seed.warning_shell [Seed.seed_command "git init"; Seed.seed_file "index.js" "console.log(1)"] 2%Z [] H1).
Defined.

Lemma runLessonSeed_write_fails_witness :
  (forall item : Seed.SeedItem,
     In item [Seed.seed_command "ls"]
     -> Seed.item_succeeds Seed.broken_env item) /\
  (forall h : list Seed.Event,
     Seed.writeFile_error Seed.broken_env h "index.js" "console.log(1)" =
     Some (Seed.thrown_error (Error "EROFS: read-only file system"))) /\
  (exists mid : list Seed.Event,
     Seed.runLessonSeed Seed.broken_env
       ([Seed.seed_command "ls"] ++
        [Seed.seed_file "index.js" "console.log(1)";
         Seed.seed_command "npm test"])
       2 [] =
     (Seed.Rejected
        (Seed.thrown_error
           (Error
              (Seed.String_of
                 (Seed.thrown_error (Error "EROFS: read-only file system"))))),
      ([] ++
       mid ++
       [Seed.watcher_unwatch "index.js";
        Seed.writeFile "index.js" "console.log(1)";
        Seed.logover_error_lesson "Failed to run seed for lesson: " 2])%list)
     /\ List.filter Seed.is_file_event mid =
       flat_map Seed.file_calls [Seed.seed_command "ls"]
       /\ Seed.executed mid = Seed.commands_of [Seed.seed_command "ls"]).
Proof.
  assert (H1 :
    (forall item : Seed.SeedItem,
       In item [Seed.seed_command "ls"]
       -> Seed.item_succeeds Seed.broken_env item)).
  { intros item [<-|[]] h; eexists; reflexivity. }
  assert (H2 :
    (forall h : list Seed.Event,
       Seed.writeFile_error Seed.broken_env h "index.js" "console.log(1)" =
       Some (Seed.thrown_error (Error "EROFS: read-only file system")))).
  { intros h; reflexivity. }
  split; [exact H1|].
  split; [exact H2|].
  exact (SeedProofs.runLessonSeed_write_fails Seed.broken_env [Seed.seed_command "ls"] [Seed.seed_command "npm test"] "index.js" "console.log(1)" (Seed.thrown_error (Error "EROFS: read-only file system")) 2%Z [] H1 H2).
Defined.

Lemma runLessonSeed_command_fails_witness :
  (forall item : Seed.SeedItem,
     In item [Seed.seed_command "ls"]
     -> Seed.item_succeeds Seed.broken_env item) /\
  (forall h : list Seed.Event,
     Seed.exec Seed.broken_env h "npm install" (Some ".") =
     Seed.Rejected (Seed.thrown_error (Error "Command failed: npm install"))) /\
  (exists mid : list Seed.Event,
     Seed.runLessonSeed Seed.broken_env
       ([Seed.seed_command "ls"] ++
        [Seed.seed_command "npm install";
         Seed.seed_file "index.js" "console.log(1)"])
       2 [] =
     (Seed.Rejected
        (Seed.thrown_error
           (Error
              (Seed.String_of
                 (Seed.thrown_error (Error "Command failed: npm install"))))),
      ([] ++
       mid ++
       [Seed.execute "npm install" (Some ".");
        Seed.logover_error_lesson "Failed to run seed for lesson: " 2])%list)
     /\ List.filter Seed.is_file_event mid =
       flat_map Seed.file_calls [Seed.seed_command "ls"]
       /\ Seed.executed mid = Seed.commands_of [Seed.seed_command "ls"]).
Proof.
  assert (H1 :
    (forall item : Seed.SeedItem,
       In item [Seed.seed_command "ls"]
       -> Seed.item_succeeds Seed.broken_env item)).
  { intros item [<-|[]] h; eexists; reflexivity. }
  assert (H2 :
    (forall h : list Seed.Event,
       Seed.exec Seed.broken_env h "npm install" (Some ".") =
       Seed.Rejected (Seed.thrown_error (Error "Command failed: npm install")))).
  { intros h; reflexivity. }
  split; [exact H1|].
  split; [exact H2|].
  exact (SeedProofs.runLessonSeed_command_fails Seed.broken_env [Seed.seed_command "ls"] [Seed.seed_file "index.js" "console.log(1)"] "npm install" (Seed.thrown_error (Error "Command failed: npm install")) 2%Z [] H1 H2).
Defined.

Lemma seedLesson_outcome_witness :
  (Seed.getProject Seed.quiet_shell 0 = Seed.Ok 0%Z) /\
  (Seed.projects Seed.quiet_shell !! 0%Z = Some 2%Z) /\
  (exists new : list Seed.Event,
     Seed.seedLesson Seed.quiet_shell 0 [] = (Seed.Ok (), ([] ++ new)%list)
     /\ match Seed.getLesson Seed.quiet_shell 0 2 with
       | Seed.Ok seed =>
           exists (r : Seed.Result ()) (seeding : list Seed.Event),
             Seed.runLessonSeed Seed.quiet_shell seed 2 [] =
             (r, ([] ++ seeding)%list)
             /\ (forall e : Seed.Event,
                  In e seeding -> Seed.is_seeding_event e = true)
               /\ match r with
                 | Seed.Ok _ =>
                     new = (seeding ++ [Seed.setState_lastSeed 0 2])%list
                 | Seed.Rejected v =>
                     new =
                     (seeding ++
                      [Seed.updateError v; Seed.logover_error_val v])%list
                 end
       | Seed.Rejected v =>
           new = [Seed.updateError v; Seed.logover_error_val v]
       end).
Proof.
  assert (H1 :
    (Seed.getProject Seed.quiet_shell 0 = Seed.Ok 0%Z)).
  { reflexivity. }
  assert (H2 :
    (Seed.projects Seed.quiet_shell !! 0%Z = Some 2%Z)).
  { reflexivity. }
  split; [exact H1|].
  split; [exact H2|].
  exact (SeedProofs.seedLesson_outcome Seed.quiet_shell 0%Z 0%Z 2%Z [] H1 H2).
Defined.

Lemma seedLesson_unknown_project_witness :
  (Seed.getProject Seed.quiet_shell 7 = Seed.Ok 7%Z) /\
  (Seed.projects Seed.quiet_shell !! 7%Z = None) /\
  (Seed.seedLesson Seed.quiet_shell 7 [] =
   (Seed.Rejected
      (Seed.thrown_error
         (TypeError
            "Cannot read properties of undefined (reading 'currentLesson')")),
    [])).
Proof.
  assert (H1 :
    (Seed.getProject Seed.quiet_shell 7 = Seed.Ok 7%Z)).
  { reflexivity. }
  assert (H2 :
    (Seed.projects Seed.quiet_shell !! 7%Z = None)).
  { reflexivity. }
  split; [exact H1|].
  split; [exact H2|].
  exact (SeedProofs.seedLesson_unknown_project Seed.quiet_shell 7%Z 7%Z [] H1 H2).
Defined.

Lemma last_log_is_a_line_witness :
  (TestUtils.getLastCommand
     ("ls" +:+ TestUtils.LF_string +:+ "cd src" +:+ TestUtils.LF_string) 1 =
   Some "ls"
   \/ TestUtils.getLastCWD
       ("ls" +:+ TestUtils.LF_string +:+ "cd src" +:+ TestUtils.LF_string) 1 =
     Some "ls") /\
  ("ls" <> ""
   /\ ~ In TestUtils.LF (TestUtils.chars "ls")
     /\ exists a b : string,
         "ls" +:+ TestUtils.LF_string +:+ "cd src" +:+ TestUtils.LF_string =
         a +:+ "ls" +:+ b
         /\ (a = "" \/ exists a' : string, a = a' +:+ TestUtils.LF_string)
           /\ (b = "" \/ exists b' : string, b = TestUtils.LF_string +:+ b')
             /\ Z.of_nat (length (TestUtils.nonempty_lines b)) = 1%Z).
Proof.
  assert (H1 :
    (TestUtils.getLastCommand
       ("ls" +:+ TestUtils.LF_string +:+ "cd src" +:+ TestUtils.LF_string) 1 =
     Some "ls"
     \/ TestUtils.getLastCWD
         ("ls" +:+ TestUtils.LF_string +:+ "cd src" +:+ TestUtils.LF_string) 1 =
       Some "ls")).
  { left; reflexivity. }
  split; [exact H1|].
  exact (TestUtilsProofs.last_log_is_a_line ("ls" +:+ TestUtils.LF_string +:+ "cd src" +:+ TestUtils.LF_string) 1%Z "ls" H1).
Defined.

Lemma getLastCommand_after_append_witness :
  (TestUtils.ends_line ("ls" +:+ TestUtils.LF_string)) /\
  ("cd src" <> "") /\
  (~ In TestUtils.LF (TestUtils.chars "cd src")) /\
  (TestUtils.getLastCommand
     (("ls" +:+ TestUtils.LF_string) +:+ "cd src" +:+ TestUtils.LF_string) 0 =
   Some "cd src"
   /\ forall k : Z,
       (0 <= k)%Z
       -> TestUtils.getLastCommand
           (("ls" +:+ TestUtils.LF_string) +:+
            "cd src" +:+ TestUtils.LF_string)
           (k + 1) =
         TestUtils.getLastCommand ("ls" +:+ TestUtils.LF_string) k).
Proof.
  assert (H1 :
    (TestUtils.ends_line ("ls" +:+ TestUtils.LF_string))).
  { right; exists "ls"; reflexivity. }
  assert (H2 :
    ("cd src" <> "")).
  { discriminate. }
  assert (H3 :
    (~ In TestUtils.LF (TestUtils.chars "cd src"))).
  { vm_compute; intuition discriminate. }
  split; [exact H1|].
  split; [exact H2|].
  split; [exact H3|].
  exact (TestUtilsProofs.getLastCommand_after_append ("ls" +:+ TestUtils.LF_string) "cd src" H1 H2 H3).
Defined.

Lemma last_log_undefined_witness :
  ((0 < 0)%Z
   \/ forall c : Ascii.ascii,
       In c (TestUtils.chars (TestUtils.LF_string +:+ TestUtils.LF_string))
       -> c = TestUtils.LF) /\
  (TestUtils.getLastCommand (TestUtils.LF_string +:+ TestUtils.LF_string) 0 =
   None
   /\ TestUtils.getLastCWD (TestUtils.LF_string +:+ TestUtils.LF_string) 0 =
     None).
Proof.
  assert (H1 :
    ((0 < 0)%Z
     \/ forall c : Ascii.ascii,
         In c (TestUtils.chars (TestUtils.LF_string +:+ TestUtils.LF_string))
         -> c = TestUtils.LF)).
  { right; intros c Hc; vm_compute in Hc; destruct Hc as [<-|[<-|[]]]; reflexivity. }
  split; [exact H1|].
  exact (TestUtilsProofs.last_log_undefined (TestUtils.LF_string +:+ TestUtils.LF_string) 0%Z H1).
Defined.
